(** * popupdata_cleaning.py: a shallow embedding and its verified properties

    The cleaning script reads a CSV of pop-up events, strips diacritics from
    the text columns, parses [start_date] / [end_date] into ISO-8601 strings
    held in two derived columns, checks the produced strings against
    [ISO_RE] and writes the cleaned CSV.

    The script is a thin layer over Python's [str], [unicodedata],
    [datetime], [re] and over pandas.  The parts of those libraries the
    script calls are modelled here by executable definitions; the data the
    libraries consult and that cannot be written down in a file of this
    size (the Unicode character database beyond ASCII, the tolerant date
    parser of pandas, the content of the input file) are parameters:
    [lib] and [world]. *)

From Stdlib Require Import List NArith ZArith Bool Lia String Ascii Eqdep_dec.
Import ListNotations.

Set Implicit Arguments.

(* ------------------------------------------------------------------ *)
(** * Python strings: sequences of Unicode code points *)

Definition codepoint := N.
Definition pystr := list codepoint.

(** An ASCII literal as a Python string. *)
Definition py (s : string) : pystr :=
  List.map N_of_ascii (list_ascii_of_string s).

Fixpoint pystr_eqb (a b : pystr) : bool :=
  match a, b with
  | [], [] => true
  | x :: a', y :: b' => N.eqb x y && pystr_eqb a' b'
  | _, _ => false
  end.

(** [not s], for a string or a list. *)
Definition is_empty {A : Type} (s : list A) : bool :=
  match s with [] => true | _ :: _ => false end.

(** [x in {...}] / [x in [...]] on strings. *)
Definition str_in (s : pystr) (l : list pystr) : bool :=
  existsb (pystr_eqb s) l.

Module PyStr.

Open Scope N_scope.

Definition is_ascii (c : codepoint) : bool := c <? 128.

Definition in_range (lo hi c : codepoint) : bool := (lo <=? c) && (c <=? hi).

(** [str.isspace] on one character: the table of CPython's
    [_PyUnicode_IsWhitespace]. *)
Definition isspace (c : codepoint) : bool :=
  in_range 9 13 c || in_range 28 32 c || (c =? 133) || (c =? 160)
  || (c =? 5760) || in_range 8192 8202 c || (c =? 8232) || (c =? 8233)
  || (c =? 8239) || (c =? 8287) || (c =? 12288).

Definition space : codepoint := 32.

Fixpoint lstrip (s : pystr) : pystr :=
  match s with
  | c :: s' => if isspace c then lstrip s' else s
  | [] => []
  end.

(** [s.strip()] *)
Definition strip (s : pystr) : pystr := rev (lstrip (rev (lstrip s))).

(** [s.split()]: the maximal runs of non-whitespace characters.  [cur]
    is the word being read, most recent character first. *)
Fixpoint split_from (cur : pystr) (s : pystr) : list pystr :=
  match s with
  | [] => if is_empty cur then [] else [rev cur]
  | c :: s' =>
      if isspace c
      then (if is_empty cur then split_from [] s'
            else rev cur :: split_from [] s')
      else split_from (c :: cur) s'
  end.

Definition split (s : pystr) : list pystr := split_from [] s.

(** [sep.join(words)] *)
Fixpoint join (sep : pystr) (words : list pystr) : pystr :=
  match words with
  | [] => []
  | [w] => w
  | w :: ws => w ++ sep ++ join sep ws
  end.

Definition ascii_lower (c : codepoint) : codepoint :=
  if in_range 65 90 c then c + 32 else c.

Definition ascii_digit (c : codepoint) : option N :=
  if in_range 48 57 c then Some (c - 48) else None.

(** Decimal rendering of a natural number, least significant digit
    first; [fuel] bounds the number of digits. *)
Fixpoint dec_rev (fuel : nat) (n : N) : pystr :=
  match fuel with
  | O => []
  | S f => (48 + n mod 10) :: (if n <? 10 then [] else dec_rev f (n / 10))
  end.

(** [str(n)] for [n >= 0]. *)
Definition str_of_N (n : N) : pystr := rev (dec_rev (S (N.to_nat (N.log2 n))) n).

(** [str(z)] for a Python int. *)
Definition str_of_Z (z : Z) : pystr :=
  match z with
  | Zneg p => 45 :: str_of_N (Npos p)
  | _ => str_of_N (Z.to_N z)
  end.

(** ["%0<w>d" % n] for [n >= 0]. *)
Definition zero_pad (w : nat) (n : N) : pystr :=
  let d := str_of_N n in
  repeat 48 (w - List.length d) ++ d.

End PyStr.

(* ------------------------------------------------------------------ *)
(** * Library data taken as a parameter *)

(** A calendar date, as [datetime.date] holds it: the constructor of the
    Python class refuses anything else. *)
Module Calendar.

Open Scope N_scope.

Definition is_leap (y : N) : bool :=
  ((y mod 4 =? 0) && negb (y mod 100 =? 0)) || (y mod 400 =? 0).

Definition days_in_month (y m : N) : N :=
  match m with
  | 1 | 3 | 5 | 7 | 8 | 10 | 12 => 31
  | 4 | 6 | 9 | 11 => 30
  | 2 => if is_leap y then 29 else 28
  | _ => 0
  end.

(** [MINYEAR = 1], [MAXYEAR = 9999]. *)
Definition valid_ymd (y m d : N) : bool :=
  (1 <=? y) && (y <=? 9999) && (1 <=? m) && (m <=? 12)
  && (1 <=? d) && (d <=? days_in_month y m).

Record date : Type := mkDate {
  year : N;
  month : N;
  day : N;
  date_valid : valid_ymd year month day = true
}.

(** [datetime.date(y, m, d)]; [None] stands for the [ValueError]. *)
Definition date_new (y m d : N) : option date :=
  match bool_dec (valid_ymd y m d) true with
  | left H => Some (mkDate y m d H)
  | right _ => None
  end.

Definition ymd (dt : date) : N * N * N := (year dt, month dt, day dt).

(** [d.isoformat()], that is ["%04d-%02d-%02d" % (year, month, day)]. *)
Definition isoformat (dt : date) : pystr :=
  PyStr.zero_pad 4 (year dt) ++ py "-" ++ PyStr.zero_pad 2 (month dt)
  ++ py "-" ++ PyStr.zero_pad 2 (day dt).

End Calendar.

(** What the script obtains from the Unicode character database for the
    characters outside ASCII, and from pandas' general date parser. *)
Record lib : Type := mkLib {
  (** full compatibility decomposition of one character (the mapping NFKD
      applies before reordering, Hangul included) *)
  uni_decomposition : codepoint -> list codepoint;
  (** [unicodedata.combining(c)], the canonical combining class *)
  uni_combining : codepoint -> N;
  (** [s.lower()] for a string that holds a non-ASCII character *)
  uni_lower : pystr -> pystr;
  (** the digit value of a character of category Nd: what [\d] accepts
      and [int] converts *)
  uni_decimal : codepoint -> option N;
  (** [pd.to_datetime(s, dayfirst=True, errors="coerce")] followed by
      [.date()]; [None] stands for [NaT] *)
  to_datetime_dayfirst : pystr -> option Calendar.date
}.

Module Unicode.

Open Scope N_scope.

Section WithLib.
Variable L : lib.

Definition decomposition (c : codepoint) : list codepoint :=
  if PyStr.is_ascii c then [c] else uni_decomposition L c.

Definition combining (c : codepoint) : N :=
  if PyStr.is_ascii c then 0 else uni_combining L c.

(** [s.lower()] *)
Definition lower (s : pystr) : pystr :=
  if forallb PyStr.is_ascii s then List.map PyStr.ascii_lower s
  else uni_lower L s.

(** Digit value of a decimal digit, ASCII or not. *)
Definition decimal (c : codepoint) : option N :=
  if PyStr.is_ascii c then PyStr.ascii_digit c else uni_decimal L c.

Definition is_decimal (c : codepoint) : bool :=
  match decimal c with Some _ => true | None => false end.

(** One step of the canonical ordering of [unicodedata.c]: the
    processed prefix is [acc], most recent character first; the new
    character moves back over the marks of higher combining class. *)
Fixpoint reorder_insert (c : codepoint) (acc : list codepoint)
  : list codepoint :=
  match acc with
  | [] => [c]
  | p :: acc' =>
      if (combining p =? 0) || (combining c =? 0)
         || (combining p <=? combining c)
      then c :: acc
      else p :: reorder_insert c acc'
  end.

Definition canonical_order (s : pystr) : pystr :=
  rev (fold_left (fun acc c => reorder_insert c acc) s []).

(** [unicodedata.normalize("NFKD", s)] *)
Definition nfkd (s : pystr) : pystr :=
  canonical_order (flat_map decomposition s).

End WithLib.

End Unicode.

(* ------------------------------------------------------------------ *)
(** * Cell values *)

(** The values a cell of the loaded table holds. A finite float is kept
    as its [repr], which is all the script asks of it. *)
Inductive cell : Type :=
| CNone                      (* None *)
| CNaN                       (* float('nan'), the loader's missing marker *)
| CStr (s : pystr)
| CInt (z : Z)
| CBool (b : bool)
| CFloat (repr : pystr).

Definition isinstance_str (v : cell) : bool :=
  match v with CStr _ => true | _ => false end.

(** [str(v)] *)
Definition str (v : cell) : pystr :=
  match v with
  | CNone => py "None"
  | CNaN => py "nan"
  | CStr s => s
  | CInt z => PyStr.str_of_Z z
  | CBool true => py "True"
  | CBool false => py "False"
  | CFloat r => r
  end.

(* ------------------------------------------------------------------ *)
(** * The script's functions on cells *)

Section Cells.
Variable L : lib.

  (** [remove_diacritics], lines 30-39. *)
Definition remove_diacritics (text : cell) : cell :=
    match text with
    | CStr t =>
        let out :=
          filter (fun c => N.eqb (Unicode.combining L c) 0) (Unicode.nfkd L t) in
        CStr (PyStr.join (py " ") (PyStr.split out))
    | _ => text
    end.

End Cells.

(* ------------------------------------------------------------------ *)
(** * [datetime.strptime] for the two formats of the script *)

Module Strptime.

Open Scope N_scope.

(** The directives the script uses; any other character of a format is
    a literal. *)
Inductive item : Type :=
| Day            (* %d *)
| Month          (* %m *)
| Year2          (* %y *)
| Year4          (* %Y *)
| Lit (c : codepoint).

(** The format string as a sequence of items; [None] for a directive
    outside the four above. *)
Fixpoint items_of_format (fmt : pystr) : option (list item) :=
  match fmt with
  | [] => Some []
  | 37 :: [] => None
  | 37 :: k :: r =>
      let dir :=
        if k =? 100 then Some Day
        else if k =? 109 then Some Month
        else if k =? 121 then Some Year2
        else if k =? 89 then Some Year4
        else None in
      match dir, items_of_format r with
      | Some d, Some its => Some (d :: its)
      | _, _ => None
      end
  | c :: r =>
      match items_of_format r with
      | Some its => Some (Lit c :: its)
      | None => None
      end
  end.

(** The named groups of the match, [found.groupdict()], already
    converted by [int]. *)
Record groups : Type := mkGroups {
  g_d : option N;
  g_m : option N;
  g_y : option N;
  g_Y : option N
}.

Definition no_groups : groups := mkGroups None None None None.

Section WithLib.
Variable L : lib.

(** An ASCII digit between [lo] and [hi], the class [[lo-hi]]. *)
Definition digit_in (lo hi : N) (c : codepoint) : option N :=
  if PyStr.in_range (48 + lo) (48 + hi) c then Some (c - 48) else None.

(** One alternative of a directive's regex: two characters. *)
Definition two (f1 f2 : codepoint -> option N) (s : pystr)
  : list (N * pystr) :=
  match s with
  | c1 :: c2 :: r =>
      match f1 c1, f2 c2 with
      | Some a, Some b => [(10 * a + b, r)]
      | _, _ => []
      end
  | _ => []
  end.

(** One alternative made of a single character. *)
Definition one (f : codepoint -> option N) (s : pystr) : list (N * pystr) :=
  match s with
  | c :: r => match f c with Some a => [(a, r)] | None => [] end
  | [] => []
  end.

Definition blank (c : codepoint) : option N :=
  if c =? 32 then Some 0 else None.

(** [(?P<d>3[0-1]|[1-2]\d|0[1-9]|[1-9]| [1-9])]: every way the group
    matches a prefix of [s], in the order the regex engine tries them. *)
Definition re_day (s : pystr) : list (N * pystr) :=
  two (digit_in 3 3) (digit_in 0 1) s
  ++ two (digit_in 1 2) (Unicode.decimal L) s
  ++ two (digit_in 0 0) (digit_in 1 9) s
  ++ one (digit_in 1 9) s
  ++ two blank (digit_in 1 9) s.

(** [(?P<m>1[0-2]|0[1-9]|[1-9])] *)
Definition re_month (s : pystr) : list (N * pystr) :=
  two (digit_in 1 1) (digit_in 0 2) s
  ++ two (digit_in 0 0) (digit_in 1 9) s
  ++ one (digit_in 1 9) s.

(** [(?P<y>\d\d)] *)
Definition re_year2 (s : pystr) : list (N * pystr) :=
  two (Unicode.decimal L) (Unicode.decimal L) s.

(** [(?P<Y>\d\d\d\d)] *)
Definition re_year4 (s : pystr) : list (N * pystr) :=
  flat_map (fun '(hi, r) =>
              List.map (fun '(lo, r') => (100 * hi + lo, r')) (re_year2 r))
           (re_year2 s).

(** Every match of the items against a prefix of [s], in backtracking
    order, with the groups bound and the unmatched rest. *)
Fixpoint match_items (its : list item) (g : groups) (s : pystr)
  : list (groups * pystr) :=
  match its with
  | [] => [(g, s)]
  | Day :: its' =>
      flat_map (fun '(v, r) =>
                  match_items its' (mkGroups (Some v) (g_m g) (g_y g) (g_Y g)) r)
               (re_day s)
  | Month :: its' =>
      flat_map (fun '(v, r) =>
                  match_items its' (mkGroups (g_d g) (Some v) (g_y g) (g_Y g)) r)
               (re_month s)
  | Year2 :: its' =>
      flat_map (fun '(v, r) =>
                  match_items its' (mkGroups (g_d g) (g_m g) (Some v) (g_Y g)) r)
               (re_year2 s)
  | Year4 :: its' =>
      flat_map (fun '(v, r) =>
                  match_items its' (mkGroups (g_d g) (g_m g) (g_y g) (Some v)) r)
               (re_year4 s)
  | Lit c :: its' =>
      match s with
      | c' :: r => if c' =? c then match_items its' g r else []
      | [] => []
      end
  end.

(** The year of the groups: [%Y] as it is, [%y] with the POSIX pivot
    (69-99 in 1900, 00-68 in 2000), 1900 without either. *)
Definition year_of (g : groups) : N :=
  match g_Y g, g_y g with
  | Some y, _ => y
  | None, Some y => if y <=? 68 then 2000 + y else 1900 + y
  | None, None => 1900
  end.

Definition or_one (o : option N) : N :=
  match o with Some v => v | None => 1 end.

(** [datetime.strptime(s, fmt).date()]; [None] stands for the
    [ValueError] (no match, unconverted data, or no such date). *)
Definition strptime_date (s fmt : pystr) : option Calendar.date :=
  match items_of_format fmt with
  | None => None
  | Some its =>
      match match_items its no_groups s with
      | [] => None
      | (g, rest) :: _ =>
          if is_empty rest
          then Calendar.date_new (year_of g) (or_one (g_m g)) (or_one (g_d g))
          else None
      end
  end.

End WithLib.

End Strptime.

(* ------------------------------------------------------------------ *)
(** * Date parsing and the ISO check *)

Section Dates.
Variable L : lib.

Definition sentinels : list pystr := [py "nan"; py "none"; py "null"].

Definition date_formats : list pystr := [py "%d/%m/%y"; py "%d/%m/%Y"].

(** The loop of lines 51-55: the first format under which [strptime]
    does not raise. *)
Fixpoint try_formats (s : pystr) (fmts : list pystr)
  : option Calendar.date :=
  match fmts with
  | [] => None
  | fmt :: rest =>
      match Strptime.strptime_date L s fmt with
      | Some d => Some d
      | None => try_formats s rest
      end
  end.

(** [parse_date_ddmmy], lines 42-59. *)
Definition parse_date_ddmmy (v : cell) : option Calendar.date :=
  match v with
  | CNone => None
  | _ =>
      let s := PyStr.strip (str v) in
      if is_empty s || str_in (Unicode.lower L s) sentinels then None
      else
        match try_formats s date_formats with
        | Some d => Some d
        | None => to_datetime_dayfirst L s
        end
  end.

(** [d.isoformat() if d else ""], lines 103-104. *)
Definition iso_or_empty (d : option Calendar.date) : pystr :=
  match d with
  | Some dt => Calendar.isoformat dt
  | None => []
  end.

(** [\d{n}] at the head of [s]: the rest after [n] decimal digits. *)
Fixpoint re_digits (n : nat) (s : pystr) : option pystr :=
  match n with
  | O => Some s
  | S n' =>
      match s with
      | c :: r => if Unicode.is_decimal L c then re_digits n' r else None
      | [] => None
      end
  end.

Definition re_char (c : codepoint) (s : pystr) : option pystr :=
  match s with
  | c' :: r => if N.eqb c' c then Some r else None
  | [] => None
  end.

(** [$]: the end of the string, or just before a final newline. *)
Definition re_end (s : pystr) : bool :=
  match s with
  | [] => true
  | [c] => N.eqb c 10%N
  | _ => false
  end.

Definition and_then (o : option pystr) (f : pystr -> option pystr)
  : option pystr :=
  match o with Some r => f r | None => None end.

(** [ISO_RE.match(s)] for [ISO_RE = ^\d{4}-\d{2}-\d{2}$], line 16. *)
Definition iso_re_match (s : pystr) : bool :=
  match and_then (and_then (and_then (and_then (re_digits 4 s)
                   (re_char 45%N)) (re_digits 2)) (re_char 45%N)) (re_digits 2)
  with
  | Some r => re_end r
  | None => false
  end.

End Dates.

(* ------------------------------------------------------------------ *)
(** * Tables, exceptions and the output of a run *)

Inductive dtype : Type := DObject | DInt64 | DFloat64 | DBool.

Definition is_object (t : dtype) : bool :=
  match t with DObject => true | _ => false end.

Record column : Type := mkColumn {
  col_name : pystr;
  col_dtype : dtype;
  col_data : list cell
}.

(** A DataFrame with the default index: its columns, in order. *)
Definition dataframe := list column.

(** [df.columns] *)
Definition columns (df : dataframe) : list pystr := List.map col_name df.

(** [len(df)] *)
Definition len_df (df : dataframe) : nat :=
  match df with
  | [] => 0
  | c :: _ => List.length (col_data c)
  end.

(** Every column has one cell per row. *)
Definition rectangular (df : dataframe) : Prop :=
  forall c, In c df -> List.length (col_data c) = len_df df.

Inductive exn : Type :=
| FileNotFoundError (path : pystr)
| ReadError (what : pystr)      (* whatever [pd.read_csv] raised *)
| KeyError (msg : pystr)
| ValueError (msg : pystr)
| TypeError (msg : pystr)
| AttributeError (msg : pystr)
| OSError (msg : pystr).

Inductive result (A : Type) : Type :=
| Ok (a : A)
| Raise (e : exn).

Arguments Ok {A} a.
Arguments Raise {A} e.

(** What a run prints, reads and writes, in order. *)
Inductive event : Type :=
| Print_detected (enc : option pystr)               (* line 26 *)
| Call_read_csv (enc : option pystr)                (* lines 73, 83 *)
| Print_read_ok (enc : pystr)                       (* line 74 *)
| Print_read_failed (enc : pystr) (e : exn)         (* line 78 *)
| Print_default_ok                                  (* line 84 *)
| Print_normalizing (n : nat)                       (* line 90 *)
| Print_rows (rows unparsable_start unparsable_end : nat)  (* line 113 *)
| Print_iso_failed                                  (* line 115 *)
| Print_frame (df : dataframe)                      (* lines 117, 119 *)
| To_csv (path : pystr) (df : dataframe)
         (index header : bool) (encoding : pystr)   (* line 123 *)
| Print_wrote (path : pystr).                       (* line 124 *)

(** A computation of the script: the events so far and a value or the
    exception that ended it. *)
Definition M (A : Type) : Type := (list event * result A)%type.

Definition ret {A} (a : A) : M A := ([], Ok a).

Definition bind {A B} (m : M A) (f : A -> M B) : M B :=
  match m with
  | (t, Ok a) => let (t', r) := f a in (t ++ t', r)
  | (t, Raise e) => (t, Raise e)
  end.

Definition print (ev : event) : M unit := ([ev], Ok tt).

Definition raise {A} (e : exn) : M A := ([], Raise e).

Definition lift {A} (r : result A) : M A := ([], r).

Notation "x <- m ;; k" := (bind m (fun x => k))
  (at level 61, m at next level, right associativity).
Notation "m ;;; k" := (bind m (fun _ => k))
  (at level 61, right associativity).

(** [repr] of a list of plain identifiers, as an f-string renders it:
    [['a', 'b']]. *)
Definition repr_names (l : list pystr) : pystr :=
  py "[" ++ PyStr.join (py ", ") (List.map (fun s => py "'" ++ s ++ py "'") l)
  ++ py "]".

Module Pandas.

(** [df[name]] *)
Fixpoint getitem (name : pystr) (df : dataframe) : result column :=
  match df with
  | [] => Raise (KeyError (py "'" ++ name ++ py "'"))
  | c :: rest => if pystr_eqb (col_name c) name then Ok c else getitem name rest
  end.

Fixpoint replace_column (name : pystr) (t : dtype) (vals : list cell)
  (df : dataframe) : dataframe :=
  match df with
  | [] => []
  | c :: rest =>
      if pystr_eqb (col_name c) name then mkColumn name t vals :: rest
      else c :: replace_column name t vals rest
  end.

(** [df[name] = vals]: the column is overwritten where it stands when
    the name exists, and appended otherwise; a list of another length
    than the index is refused. *)
Definition setitem (name : pystr) (t : dtype) (vals : list cell)
  (df : dataframe) : result dataframe :=
  if negb (is_empty (columns df)) && negb (Nat.eqb (List.length vals) (len_df df))
  then Raise (ValueError (py "Length of values does not match length of index"))
  else if str_in name (columns df) then Ok (replace_column name t vals df)
  else Ok (df ++ [mkColumn name t vals]).

(** [df.select_dtypes(include=["object"]).columns.tolist()] *)
Definition object_columns (df : dataframe) : list pystr :=
  columns (filter (fun c => is_object (col_dtype c)) df).

(** The dtype of a column set from a list of [str]: [object], and
    [float64] for the empty list. *)
Definition list_dtype (vals : list cell) : dtype :=
  if is_empty vals then DFloat64 else DObject.

(** What the [.str] accessor raises on a column that is not of strings
    (in the wording of pandas 2). *)
Definition str_accessor_error : exn :=
  AttributeError (py "Can only use .str accessor with string values!").

(** The cells under [.str.match] followed by [~]: a cell that is not a
    string makes [~] raise. *)
Fixpoint cell_strings (l : list cell) : result (list pystr) :=
  match l with
  | [] => Ok []
  | CStr s :: r =>
      match cell_strings r with
      | Ok ss => Ok (s :: ss)
      | Raise e => Raise e
      end
  | _ :: _ => Raise (TypeError (py "bad operand type for unary ~"))
  end.

(** The strings of a column, for [col.str] followed by [~]: the
    accessor refuses a column whose dtype is not [object], whatever its
    length. *)
Definition as_strings (c : column) : result (list pystr) :=
  if is_object (col_dtype c) then cell_strings (col_data c)
  else Raise str_accessor_error.

(** The elements a boolean mask selects. *)
Fixpoint select {A} (mask : list bool) (l : list A) : list A :=
  match mask, l with
  | b :: mask', x :: l' => if b then x :: select mask' l' else select mask' l'
  | _, _ => []
  end.

(** [df.loc[mask, names]]: the rows of the mask, the columns of [names]
    in that order; a name that is no column is a [KeyError]. *)
Definition loc (mask : list bool) (names : list pystr) (df : dataframe)
  : result dataframe :=
  match filter (fun n => negb (str_in n (columns df))) names with
  | [] =>
      Ok (flat_map (fun n =>
                      match getitem n df with
                      | Ok c => [mkColumn n (col_dtype c) (select mask (col_data c))]
                      | Raise _ => []
                      end) names)
  | absent => Raise (KeyError (repr_names absent ++ py " not in index"))
  end.

(** [df.empty] *)
Definition empty (df : dataframe) : bool :=
  is_empty (columns df) || Nat.eqb (len_df df) 0.

(** [df.head(n)] *)
Definition head (n : nat) (df : dataframe) : dataframe :=
  List.map (fun c => mkColumn (col_name c) (col_dtype c) (firstn n (col_data c))) df.

End Pandas.

(** What a run finds outside the program. *)
Record world : Type := mkWorld {
  (** [os.path.exists(INPUT_CSV)] *)
  path_exists : bool;
  (** [os.path.abspath] *)
  abspath : pystr -> pystr;
  (** [open(INPUT_CSV, "rb")] and [f.read(100000)], line 22: the
      [OSError] they raise, if any *)
  open_error : option pystr;
  (** [chardet.detect(raw).get("encoding")] on the first 100000 bytes *)
  chardet_encoding : option pystr;
  (** [pd.read_csv(INPUT_CSV, encoding=enc)], or without the argument
      for [None]: the table, or a description of the exception *)
  read_csv : option pystr -> pystr + dataframe
}.

Definition INPUT_CSV : pystr := py "luxury_cosmetics_popups.csv".
Definition OUTPUT_CSV : pystr := py "luxury_cosmetics_popups_cleaned.csv".

(* ------------------------------------------------------------------ *)
(** * The script: [detect_encoding] and [main] *)

Section Script.
Variable L : lib.
Variable w : world.

(** [detect_encoding], lines 21-27. *)
Definition detect_encoding : M (option pystr) :=
  match open_error w with
  | Some msg => raise (OSError msg)
  | None =>
      let enc := chardet_encoding w in
      print (Print_detected enc) ;;;
      ret enc
  end.

(** Truth value of an encoding name or [None]. *)
Definition truthy (e : option pystr) : bool :=
  match e with
  | Some s => negb (is_empty s)
  | None => false
  end.

(** [[e for e in tried if e]], line 71. *)
Fixpoint candidates (tried : list (option pystr)) : list pystr :=
  match tried with
  | [] => []
  | Some s :: rest => if truthy (Some s) then s :: candidates rest else candidates rest
  | None :: rest => candidates rest
  end.

(** [tried], line 67. *)
Definition tried (enc_guess : option pystr) : list (option pystr) :=
  [enc_guess; Some (py "utf-8-sig"); Some (py "utf-8"); Some (py "latin1");
   Some (py "windows-1252")].

(** The loop of lines 71-78, returning [df] and [last_err]. *)
Fixpoint try_encodings (encs : list pystr) (last_err : option exn)
  : M (option dataframe * option exn) :=
  match encs with
  | [] => ret (None, last_err)
  | enc :: rest =>
      print (Call_read_csv (Some enc)) ;;;
      match read_csv w (Some enc) with
      | inr df => print (Print_read_ok enc) ;;; ret (Some df, last_err)
      | inl e =>
          print (Print_read_failed enc (ReadError e)) ;;;
          try_encodings rest (Some (ReadError e))
      end
  end.

(** Lines 66-86. *)
Definition load : M dataframe :=
  enc_guess <- detect_encoding ;;
  r <- try_encodings (candidates (tried enc_guess)) None ;;
  match r with
  | (Some df, _) => ret df
  | (None, last_err) =>
      print (Call_read_csv None) ;;;
      match read_csv w None with
      | inr df => print Print_default_ok ;;; ret df
      | inl _ =>
          match last_err with
          | Some e => raise e
          | None => raise (TypeError (py "exceptions must derive from BaseException"))
          end
      end
  end.

(** The loop of lines 91-92. *)
Fixpoint normalize_columns (cs : list pystr) (df : dataframe)
  : result dataframe :=
  match cs with
  | [] => Ok df
  | c :: rest =>
      match Pandas.getitem c df with
      | Raise e => Raise e
      | Ok col =>
          match Pandas.setitem c (col_dtype col)
                  (List.map (remove_diacritics L) (col_data col)) df with
          | Raise e => Raise e
          | Ok df' => normalize_columns rest df'
          end
      end
  end.

(** Lines 89-92. *)
Definition normalize_text (df : dataframe) : M dataframe :=
  let object_cols := Pandas.object_columns df in
  print (Print_normalizing (List.length object_cols)) ;;;
  lift (normalize_columns object_cols df).

Definition required : list pystr := [py "start_date"; py "end_date"].

(** [[c for c in required if c not in df.columns]], line 96. *)
Definition missing_required (df : dataframe) : list pystr :=
  filter (fun c => negb (str_in c (columns df))) required.

Definition missing_message (missing : list pystr) : pystr :=
  py "Missing required column(s): " ++ repr_names missing.

(** Lines 95-98. *)
Definition check_required (df : dataframe) : M unit :=
  let missing := missing_required df in
  if negb (is_empty missing) then raise (KeyError (missing_message missing))
  else ret tt.

Definition is_none {A} (o : option A) : bool :=
  match o with None => true | Some _ => false end.

(** The generator sums of lines 107-108. *)
Definition unparsable_count (parsed : list (option Calendar.date))
  (raws : list cell) : nat :=
  list_sum
    (List.map (fun _ => 1)
       (filter (fun p => is_none (fst p)
                         && negb (is_empty (PyStr.strip (str (snd p)))))
               (combine parsed raws))).

(** The mask of lines 110-111 for one cell of an ISO column. *)
Definition offending (s : pystr) : bool :=
  negb (is_empty s) && negb (iso_re_match L s).

(** The right-hand sides of lines 110-111. *)
Definition bad_iso (df : dataframe) (raw_name iso_name : pystr)
  : result dataframe :=
  match Pandas.getitem iso_name df with
  | Raise e => Raise e
  | Ok iso =>
      match Pandas.as_strings iso with
      | Raise e => Raise e
      | Ok ss =>
          Pandas.loc (List.map offending ss)
            [py "event_id"; raw_name; iso_name] df
      end
  end.

(** Lines 110-120, with the two counts line 113 prints. *)
Definition iso_check (df : dataframe) (unparsable_start unparsable_end : nat)
  : M unit :=
  bad_start_iso <- lift (bad_iso df (py "start_date") (py "start_date_iso")) ;;
  bad_end_iso <- lift (bad_iso df (py "end_date") (py "end_date_iso")) ;;
  print (Print_rows (len_df df) unparsable_start unparsable_end) ;;;
  if negb (Pandas.empty bad_start_iso) || negb (Pandas.empty bad_end_iso)
  then
    print Print_iso_failed ;;;
    (if negb (Pandas.empty bad_start_iso)
     then print (Print_frame (Pandas.head 5 bad_start_iso)) else ret tt) ;;;
    (if negb (Pandas.empty bad_end_iso)
     then print (Print_frame (Pandas.head 5 bad_end_iso)) else ret tt) ;;;
    raise (ValueError (py "ISO formatting check failed."))
  else ret tt.

(** A column of ISO strings from the parsed dates, lines 103-104. *)
Definition iso_cells (parsed : list (option Calendar.date)) : list cell :=
  List.map (fun d => CStr (iso_or_empty d)) parsed.

(** Lines 100-104: the parsed columns and the table with the two ISO
    columns set. *)
Definition standardize (df : dataframe)
  : M (dataframe * list (option Calendar.date) * list (option Calendar.date)) :=
  start_col <- lift (Pandas.getitem (py "start_date") df) ;;
  let start_parsed := List.map (parse_date_ddmmy L) (col_data start_col) in
  end_col <- lift (Pandas.getitem (py "end_date") df) ;;
  let end_parsed := List.map (parse_date_ddmmy L) (col_data end_col) in
  let start_iso := iso_cells start_parsed in
  df1 <- lift (Pandas.setitem (py "start_date_iso")
                 (Pandas.list_dtype start_iso) start_iso df) ;;
  let end_iso := iso_cells end_parsed in
  df2 <- lift (Pandas.setitem (py "end_date_iso")
                 (Pandas.list_dtype end_iso) end_iso df1) ;;
  ret (df2, start_parsed, end_parsed).

(** Lines 107-108. *)
Definition diagnostics (df : dataframe)
  (start_parsed end_parsed : list (option Calendar.date)) : M (nat * nat) :=
  raw_start <- lift (Pandas.getitem (py "start_date") df) ;;
  let unparsable_start := unparsable_count start_parsed (col_data raw_start) in
  raw_end <- lift (Pandas.getitem (py "end_date") df) ;;
  let unparsable_end := unparsable_count end_parsed (col_data raw_end) in
  ret (unparsable_start, unparsable_end).

(** Lines 123-124. *)
Definition export (df : dataframe) : M unit :=
  print (To_csv OUTPUT_CSV df false true (py "utf-8-sig")) ;;;
  print (Print_wrote (abspath w OUTPUT_CSV)).

(** Lines 88-120: everything between loading and export. *)
Definition prepare (df : dataframe) : M dataframe :=
  df <- normalize_text df ;;
  check_required df ;;;
  r <- standardize df ;;
  let '(df, start_parsed, end_parsed) := r in
  u <- diagnostics df start_parsed end_parsed ;;
  iso_check df (fst u) (snd u) ;;;
  ret df.

(** Lines 88-124: everything after the table is loaded. *)
Definition process (df : dataframe) : M unit :=
  df <- prepare df ;;
  export df.

(** [main], lines 62-124. *)
Definition main : M unit :=
  if negb (path_exists w) then raise (FileNotFoundError (abspath w INPUT_CSV))
  else
    df <- load ;;
    process df.

End Script.

(* ------------------------------------------------------------------ *)
(** * Vocabulary of the properties *)

(** A word: what [split] returns, a non-empty run without whitespace. *)
Definition word (x : pystr) : Prop :=
  x <> [] /\ Forall (fun c => PyStr.isspace c = false) x.

(** The test of line 36: the characters the comprehension keeps. *)
Definition kept (L : lib) (c : codepoint) : bool :=
  N.eqb (Unicode.combining L c) 0.

(** The decompositions the database holds are full: a character of a
    decomposition does not decompose further. *)
Definition fully_decomposed (L : lib) : Prop :=
  forall c c', In c' (Unicode.decomposition L c) ->
               Unicode.decomposition L c' = [c'].

(** The string [remove_diacritics] builds from [t]. *)
Definition stripped (L : lib) (t : pystr) : pystr :=
  PyStr.join (py " ") (PyStr.split (filter (kept L) (Unicode.nfkd L t))).

Definition is_ascii_digit (c : codepoint) : bool :=
  PyStr.in_range 48%N 57%N c.

(** [s] is [w] ASCII digits. *)
Definition digits (w : nat) (s : pystr) : bool :=
  Nat.eqb (List.length s) w && forallb is_ascii_digit s.

(** The table [df[name] = vals] leaves when it does not raise. *)
Definition set_result (name : pystr) (t : dtype) (vals : list cell)
  (df : dataframe) : dataframe :=
  if str_in name (columns df) then Pandas.replace_column name t vals df
  else df ++ [mkColumn name t vals].

(** The table after lines 103-104. *)
Definition with_iso (df : dataframe) (sp ep : list (option Calendar.date))
  : dataframe :=
  set_result (py "end_date_iso") (Pandas.list_dtype (iso_cells ep)) (iso_cells ep)
    (set_result (py "start_date_iso") (Pandas.list_dtype (iso_cells sp))
       (iso_cells sp) df).

(** The rows lines 107-108 count: no date was parsed although the cell,
    as a string and trimmed, is not empty. *)
Definition unparsable_row (L : lib) (raw : cell) : bool :=
  is_none (parse_date_ddmmy L raw)
  && negb (is_empty (PyStr.strip (str raw))).

Definition is_to_csv (ev : event) : bool :=
  match ev with To_csv _ _ _ _ _ => true | _ => false end.

(** The exception of line 120. *)
Definition iso_error : exn := ValueError (py "ISO formatting check failed.").

Definition is_iso_error (e : exn) : bool :=
  match e with
  | ValueError m => pystr_eqb m (py "ISO formatting check failed.")
  | _ => false
  end.

(** Nothing was written. *)
Definition no_write (t : list event) : Prop :=
  Forall (fun ev => is_to_csv ev = false) t.

(** A computation that writes no file and does not end in the
    exception of line 120. *)
Definition quiet {A} (m : M A) : Prop :=
  no_write (fst m)
  /\ match snd m with Raise e => is_iso_error e = false | Ok _ => True end.

(** A candidate under which the file does not parse. *)
Definition fails (w : world) (enc : pystr) : Prop :=
  exists e, read_csv w (Some enc) = inl e.

(** What the loop of lines 71-78 reads and prints for failing
    candidates. *)
Definition failure_events (w : world) (encs : list pystr) : list event :=
  flat_map (fun enc =>
              match read_csv w (Some enc) with
              | inl e => [Call_read_csv (Some enc);
                          Print_read_failed enc (ReadError e)]
              | inr _ => []
              end) encs.

(** [last_err] after the candidates [encs] failed. *)
Definition last_error (w : world) (encs : list pystr) (last : option exn)
  : option exn :=
  fold_left (fun acc enc =>
               match read_csv w (Some enc) with
               | inl e => Some (ReadError e)
               | inr _ => acc
               end) encs last.

(** The number of reads without an explicit encoding. *)
Definition default_attempts (t : list event) : nat :=
  List.length
    (filter (fun ev => match ev with Call_read_csv None => true | _ => false end)
            t).

Definition fallbacks : list pystr :=
  [py "utf-8-sig"; py "utf-8"; py "latin1"; py "windows-1252"].

(** A character that is no whitespace. *)
Definition nonspace (c : codepoint) : bool := negb (PyStr.isspace c).

(** A day or a month as an input writes it: two digits, or without the
    leading zero. *)
Definition render2 (padded : bool) (n : N) : pystr :=
  if padded then PyStr.zero_pad 2 n else PyStr.str_of_N n.

(** A date written day/month/year with a four-digit year. *)
Definition render_dmY (pd pm : bool) (y m d : N) : pystr :=
  render2 pd d ++ py "/" ++ render2 pm m ++ py "/" ++ PyStr.zero_pad 4 y.

(** A date written day/month/year with the last two digits of the
    year. *)
Definition render_dmy (pd pm : bool) (y m d : N) : pystr :=
  render2 pd d ++ py "/" ++ render2 pm m ++ py "/"
  ++ PyStr.zero_pad 2 (y mod 100).

(** The characters of a date written with digits and slashes. *)
Definition date_char (c : codepoint) : bool :=
  is_ascii_digit c || N.eqb c 47.

(** What [\d\d\d\d] and [\d\d] find in a rendered year: the year and
    nothing left, or the first two of four digits. *)
Definition year4_found (L : lib) (y : N) : bool :=
  match Strptime.re_year4 L (PyStr.zero_pad 4 y) with
  | [(v, [])] => N.eqb v y
  | _ => false
  end.

Definition year2_found (L : lib) (y : N) : bool :=
  match Strptime.re_year2 L (PyStr.zero_pad 2 y) with
  | [(v, [])] => N.eqb v y
  | _ => false
  end.

Definition year2_short (L : lib) (y : N) : bool :=
  match Strptime.re_year2 L (PyStr.zero_pad 4 y) with
  | [(_, _ :: _)] => true
  | _ => false
  end.

(** The year [%y] stands for: the POSIX pivot. *)
Definition pivot (y2 : N) : N :=
  if (y2 <=? 68)%N then (2000 + y2)%N else (1900 + y2)%N.

(** The number of files written and of calls of [pd.read_csv]. *)
Definition write_count (t : list event) : nat :=
  List.length (filter is_to_csv t).

Definition read_calls (t : list event) : nat :=
  List.length
    (filter (fun ev => match ev with Call_read_csv _ => true | _ => false end)
            t).




(** A row whose cell, as a string and trimmed, is empty, and a row that
    got a date. *)
Definition blank_row (raw : cell) : bool :=
  is_empty (PyStr.strip (str raw)).

Definition dated_row (L : lib) (raw : cell) : bool :=
  negb (is_none (parse_date_ddmmy L raw)).

(** ASCII whitespace. *)
Definition ascii_space (c : codepoint) : bool :=
  PyStr.isspace c && PyStr.is_ascii c.

(** The cells of the column [name] of the loaded table [df] once lines
    89-92 have run: those of a text column went through
    [remove_diacritics]. *)
Definition normalized_cells (L : lib) (df : dataframe) (name : pystr)
  (c : column) : list cell :=
  if str_in name (Pandas.object_columns df)
  then List.map (remove_diacritics L) (col_data c)
  else col_data c.

(** The cells of [l] in the rows whose ISO string, in [ss], offends. *)
Definition offending_cells (L : lib) (ss : list pystr) (l : list cell)
  : list cell :=
  List.map fst (filter (fun p => offending L (snd p)) (combine l ss)).

(** What lines 116-119 print for one date column whose ISO strings are
    [ss]: nothing when no row offends, and otherwise one frame, the first
    five offending rows in the columns [event_id], raw value, ISO
    value. *)
Definition sample_rows (L : lib) (ss : list pystr) (ck cr ci : column)
  : list event :=
  if existsb (offending L) ss
  then [Print_frame
          (List.map (fun c => mkColumn (col_name c) (col_dtype c)
                                (firstn 5 (offending_cells L ss (col_data c))))
                    [ck; cr; ci])]
  else [].

(** The characters of the blocks Combining Diacritical Marks
    (U+0300-U+036F) and Combining Diacritical Marks for Symbols
    (U+20D0-U+20F0), all of general category M: combining marks. *)
Definition combining_mark (c : codepoint) : bool :=
  PyStr.in_range 768%N 879%N c || PyStr.in_range 8400%N 8432%N c.

(** The rows the words "parsed date absent, original raw value not
    blank" describe, the date being parsed from the normalised cell. *)
Definition unparsable_original (L : lib) (raw : cell) : bool :=
  is_none (parse_date_ddmmy L (remove_diacritics L raw))
  && negb (is_empty (PyStr.strip (str raw))).

(* ------------------------------------------------------------------ *)
(** * A small instance of the library data

    Latin capital and small E with acute decompose into the letter and
    U+0301 (class 230); the Arabic-Indic digits are decimal digits; the
    tolerant parser knows no format. *)

Definition latin_decomposition (c : codepoint) : list codepoint :=
  if N.eqb c 201 then [69%N; 769%N]
  else if N.eqb c 233 then [101%N; 769%N]
  else [c].

Definition latin_combining (c : codepoint) : N :=
  if N.eqb c 769 then 230%N else 0%N.

Definition latin_lower (s : pystr) : pystr :=
  List.map (fun c => if PyStr.in_range 192%N 222%N c then (c + 32)%N
                     else PyStr.ascii_lower c) s.

Definition arabic_decimal (c : codepoint) : option N :=
  if PyStr.in_range 1632%N 1641%N c then Some (c - 1632)%N else None.

Definition latin_lib : lib :=
  mkLib latin_decomposition latin_combining latin_lower arabic_decimal
        (fun _ => None).

(** A table of three events, as the loader returns it. *)
Definition sample_frame : dataframe :=
  [ mkColumn (py "event_id") DInt64 [CInt 1; CInt 2; CInt 3];
    mkColumn (py "brand") DObject
      [CStr [201; 99; 108; 97; 116]%N; CStr (py "Lumi  Lab"); CNaN];
    mkColumn (py "start_date") DObject
      [CStr (py "05/03/24"); CNaN; CStr (py "soon")];
    mkColumn (py "end_date") DObject
      [CStr (py "05/03/2024"); CStr (py "7/1/99"); CStr (py "31/02/2024")] ].

(** The file parses under latin1 and windows-1252 only; the detector
    abstains. *)
Definition latin1_world : world :=
  mkWorld true (fun p => py "/data/" ++ p) None None
    (fun e =>
       match e with
       | Some enc =>
           if pystr_eqb enc (py "latin1") || pystr_eqb enc (py "windows-1252")
           then inr sample_frame
           else inl (py "UnicodeDecodeError")
       | None => inl (py "UnicodeDecodeError")
       end).



(** A table that already has a column named [start_date_iso], as the
    output of an earlier run has. *)
Definition taken_frame : dataframe :=
  [ mkColumn (py "event_id") DInt64 [CInt 1; CInt 2];
    mkColumn (py "start_date_iso") DObject [CStr (py "2024-03-04"); CNaN];
    mkColumn (py "start_date") DObject [CStr (py "05/03/24"); CNaN];
    mkColumn (py "end_date") DObject [CStr (py "06/03/24"); CStr (py "soon")] ].

Definition taken_world : world :=
  mkWorld true (fun p => py "/data/" ++ p) None (Some (py "ascii"))
    (fun _ => inr taken_frame).

(** A file that holds the header row only: three text columns without
    a cell. *)
Definition header_only_frame : dataframe :=
  [ mkColumn (py "event_id") DObject [];
    mkColumn (py "start_date") DObject [];
    mkColumn (py "end_date") DObject [] ].

Definition header_only_world : world :=
  mkWorld true (fun p => py "/data/" ++ p) None (Some (py "ascii"))
    (fun _ => inr header_only_frame).

(** A table whose start date is U+0301, the combining acute accent,
    alone. *)
Definition accent_frame : dataframe :=
  [ mkColumn (py "event_id") DInt64 [CInt 1];
    mkColumn (py "start_date") DObject [CStr [769%N]];
    mkColumn (py "end_date") DObject [CStr (py "05/03/24")] ].

Definition accent_world : world :=
  mkWorld true (fun p => py "/data/" ++ p) None (Some (py "ascii"))
    (fun _ => inr accent_frame).

(** A file no read parses: its bytes are no UTF-8, and decoded as
    latin1 or windows-1252 its rows are uneven. The detector abstains. *)
Definition unreadable_world : world :=
  mkWorld true (fun p => py "/data/" ++ p) None None
    (fun e =>
       match e with
       | Some enc =>
           if pystr_eqb enc (py "latin1") || pystr_eqb enc (py "windows-1252")
           then inl (py "ParserError")
           else inl (py "UnicodeDecodeError")
       | None => inl (py "UnicodeDecodeError")
       end).

(** A file that exists and cannot be opened for reading. *)
Definition locked_world : world :=
  mkWorld true (fun p => py "/data/" ++ p) (Some (py "Permission denied"))
    None (fun _ => inr sample_frame).

(** U+20DD COMBINING ENCLOSING CIRCLE, general category Me, canonical
    combining class 0. *)
Definition enclosing_circle : codepoint := 8413%N.

(** A table whose ISO columns were filled by a renderer that does not
    pad: the first row offends in [start_date_iso]. *)
Definition unpadded_frame : dataframe :=
  [ mkColumn (py "event_id") DInt64 [CInt 7; CInt 8];
    mkColumn (py "start_date") DObject [CStr (py "5/3/24"); CNaN];
    mkColumn (py "end_date") DObject [CStr (py "05/03/2024"); CNaN];
    mkColumn (py "start_date_iso") DObject [CStr (py "2024-3-5"); CStr (py "")];
    mkColumn (py "end_date_iso") DObject [CStr (py "2024-03-05"); CStr (py "")] ].

(* ------------------------------------------------------------------ *)
(** * Strings *)

Lemma pystr_eqb_eq (a b : pystr) : pystr_eqb a b = true <-> a = b.
Proof.
  revert b; induction a as [|x a IH]; intros [|y b]; simpl;
    try (split; [discriminate | congruence]); [tauto|].
  rewrite andb_true_iff, N.eqb_eq, IH.
  split; [intros [-> ->]; reflexivity | intros E; injection E; auto].
Qed.

Lemma pystr_eqb_refl (a : pystr) : pystr_eqb a a = true.
Proof. apply pystr_eqb_eq; reflexivity. Qed.

Lemma pystr_eqb_neq (a b : pystr) : pystr_eqb a b = false <-> a <> b.
Proof.
  rewrite <- pystr_eqb_eq. destruct (pystr_eqb a b); split; congruence.
Qed.

Lemma str_in_In (s : pystr) (l : list pystr) : str_in s l = true <-> In s l.
Proof.
  unfold str_in. rewrite existsb_exists. split.
  - intros (x & Hx & E). apply pystr_eqb_eq in E. subst; assumption.
  - intros H. exists s. split; [assumption | apply pystr_eqb_refl].
Qed.

Lemma str_in_not_In (s : pystr) (l : list pystr) :
  str_in s l = false <-> ~ In s l.
Proof.
  rewrite <- str_in_In. destruct (str_in s l); split; congruence.
Qed.

Module PyStrFacts.
Import PyStr.

Lemma split_from_word (x cur rest : pystr) :
  Forall (fun c => isspace c = false) x ->
  split_from cur (x ++ rest) = split_from (rev x ++ cur) rest.
Proof.
  revert cur; induction x as [|c x IH]; intros cur H; simpl; [reflexivity|].
  inversion H as [|? ? Hc Hx]; subst. rewrite Hc, IH by assumption.
  rewrite <- app_assoc. reflexivity.
Qed.

Lemma split_from_words (cur s : pystr) :
  Forall (fun c => isspace c = false) cur ->
  Forall word (split_from cur s).
Proof.
  revert cur; induction s as [|c s IH]; intros cur Hcur; simpl.
  - destruct cur as [|a cur]; simpl; [constructor|].
    constructor; [|constructor]. split.
    + intros E. apply (f_equal (@List.length _)) in E.
      rewrite length_app in E; simpl in E; lia.
    + apply Forall_app; split; [apply Forall_rev; now inversion Hcur|].
      constructor; [now inversion Hcur | constructor].
  - destruct (isspace c) eqn:Hc.
    + destruct cur as [|a cur]; simpl; [apply IH; constructor|].
      constructor; [|apply IH; constructor]. split.
      * intros E. apply (f_equal (@List.length _)) in E.
        rewrite length_app in E; simpl in E; lia.
      * apply Forall_app; split; [apply Forall_rev; now inversion Hcur|].
        constructor; [now inversion Hcur | constructor].
    + apply IH. constructor; assumption.
Qed.

Lemma split_words (s : pystr) : Forall word (split s).
Proof. apply split_from_words; constructor. Qed.

Lemma split_from_end (cur : pystr) :
  cur <> [] -> split_from cur [] = [rev cur].
Proof. destruct cur; [congruence | reflexivity]. Qed.

Lemma split_from_space (cur s : pystr) :
  cur <> [] -> split_from cur (space :: s) = rev cur :: split_from [] s.
Proof. destruct cur; [congruence | reflexivity]. Qed.

Lemma rev_not_nil (x : pystr) : x <> [] -> rev x <> [].
Proof.
  intros H E. apply H. rewrite <- (rev_involutive x), E. reflexivity.
Qed.

(** Splitting what [" ".join] made of words gives the words back. *)
Lemma split_join (ws : list pystr) :
  Forall word ws -> split (join [space] ws) = ws.
Proof.
  unfold split. induction ws as [|x ws IH]; intros H; [reflexivity|].
  inversion H as [|? ? [Hne Hx] Hws]; subst.
  destruct ws as [|y ws].
  - simpl. rewrite <- (app_nil_r x) at 1.
    rewrite split_from_word by assumption. rewrite app_nil_r.
    rewrite split_from_end by (apply rev_not_nil; assumption).
    rewrite rev_involutive. reflexivity.
  - change (join [space] (x :: y :: ws))
      with (x ++ space :: join [space] (y :: ws)).
    rewrite split_from_word by assumption. rewrite app_nil_r.
    rewrite split_from_space by (apply rev_not_nil; assumption).
    rewrite rev_involutive. f_equal. apply IH, Hws.
Qed.

Lemma in_join (sep : pystr) (ws : list pystr) (c : codepoint) :
  In c (join sep ws) -> In c sep \/ exists x, In x ws /\ In c x.
Proof.
  induction ws as [|x ws IH]; simpl; [tauto|].
  destruct ws as [|y ws].
  - intros H. right. exists x. auto.
  - rewrite !in_app_iff. intros [H|[H|H]].
    + right. exists x. auto.
    + left. assumption.
    + destruct (IH H) as [H'|(z & Hz & Hc)]; [left; assumption|].
      right. exists z. split; [right; assumption | assumption].
Qed.

Lemma in_split_from (cur s x : pystr) (c : codepoint) :
  In x (split_from cur s) -> In c x -> In c cur \/ In c s.
Proof.
  revert cur; induction s as [|a s IH]; intros cur; simpl.
  - destruct cur as [|b cur]; simpl; [tauto|].
    intros [<-|[]] Hc. left. rewrite in_app_iff in Hc. simpl in Hc.
    rewrite <- in_rev in Hc. tauto.
  - destruct (isspace a).
    + destruct cur as [|b cur]; simpl.
      * intros Hx Hc. destruct (IH [] Hx Hc) as [[]|H]. auto.
      * intros [<-|Hx] Hc.
        -- left. rewrite in_app_iff in Hc. simpl in Hc.
           rewrite <- in_rev in Hc. tauto.
        -- destruct (IH [] Hx Hc) as [[]|H]. auto.
    + intros Hx Hc. destruct (IH (a :: cur) Hx Hc) as [[<-|H]|H]; auto.
Qed.

Lemma in_split (s x : pystr) (c : codepoint) :
  In x (split s) -> In c x -> In c s.
Proof.
  intros Hx Hc. destruct (in_split_from [] s x c Hx Hc) as [[]|H]. exact H.
Qed.

End PyStrFacts.

(* ------------------------------------------------------------------ *)
(** * Normalisation *)

Module UnicodeFacts.
Import Unicode.

Section WithLib.
Variable L : lib.

Lemma kept_reorder_insert (c : codepoint) (acc : list codepoint) :
  filter (kept L) (reorder_insert L c acc) = filter (kept L) (c :: acc).
Proof.
  induction acc as [|p acc IH]; [reflexivity|].
  cbn [reorder_insert].
  destruct ((combining L p =? 0)%N || (combining L c =? 0)%N
            || (combining L p <=? combining L c)%N) eqn:E; [reflexivity|].
  apply orb_false_iff in E. destruct E as [E _].
  apply orb_false_iff in E. destruct E as [Ep Ec].
  assert (Kp : kept L p = false) by exact Ep.
  assert (Kc : kept L c = false) by exact Ec.
  simpl. rewrite Kp, IH. simpl. rewrite Kc. reflexivity.
Qed.

Lemma kept_fold (s acc : list codepoint) :
  filter (kept L) (fold_left (fun a c => reorder_insert L c a) s acc)
  = filter (kept L) (rev s ++ acc).
Proof.
  revert acc; induction s as [|c s IH]; intros acc; [reflexivity|].
  cbn [fold_left]. rewrite IH. rewrite filter_app, kept_reorder_insert.
  cbn [rev]. rewrite <- app_assoc, filter_app. reflexivity.
Qed.

(** The canonical reordering only permutes combining marks among
    themselves, so it is invisible once they are dropped. *)
Lemma kept_canonical_order (s : pystr) :
  filter (kept L) (canonical_order L s) = filter (kept L) s.
Proof.
  unfold canonical_order. rewrite filter_rev, kept_fold, app_nil_r.
  rewrite filter_rev, rev_involutive. reflexivity.
Qed.

Lemma reorder_insert_In (c a : codepoint) (acc : list codepoint) :
  In c (reorder_insert L a acc) <-> c = a \/ In c acc.
Proof.
  induction acc as [|p acc IH]; simpl; [intuition congruence|].
  destruct ((combining L p =? 0)%N || (combining L a =? 0)%N
            || (combining L p <=? combining L a)%N); simpl;
    [|rewrite IH]; intuition congruence.
Qed.

Lemma fold_insert_In (c : codepoint) (s acc : list codepoint) :
  In c (fold_left (fun a x => reorder_insert L x a) s acc)
  <-> In c s \/ In c acc.
Proof.
  revert acc; induction s as [|x s IH]; intros acc; simpl; [tauto|].
  rewrite IH, reorder_insert_In. intuition congruence.
Qed.

Lemma canonical_order_In (c : codepoint) (s : pystr) :
  In c (canonical_order L s) <-> In c s.
Proof.
  unfold canonical_order. rewrite <- in_rev, fold_insert_In. simpl. tauto.
Qed.

Lemma fold_insert_kept (s acc : list codepoint) :
  Forall (fun c => kept L c = true) s ->
  fold_left (fun a x => reorder_insert L x a) s acc = rev s ++ acc.
Proof.
  revert acc; induction s as [|x s IH]; intros acc H; [reflexivity|].
  inversion H as [|? ? Hx Hs]; subst. cbn [fold_left rev].
  rewrite <- app_assoc. rewrite IH by assumption. f_equal.
  destruct acc as [|p acc]; [reflexivity|]. cbn [reorder_insert].
  unfold kept in Hx. rewrite Hx, orb_true_r. reflexivity.
Qed.

(** A string without combining marks is already in canonical order. *)
Lemma canonical_order_kept (s : pystr) :
  Forall (fun c => kept L c = true) s -> canonical_order L s = s.
Proof.
  intros H. unfold canonical_order. rewrite fold_insert_kept by assumption.
  rewrite app_nil_r. apply rev_involutive.
Qed.

Lemma flat_map_fixed (s : pystr) :
  Forall (fun c => decomposition L c = [c]) s ->
  flat_map (decomposition L) s = s.
Proof.
  induction 1 as [|c s Hc _ IH]; [reflexivity|].
  cbn [flat_map]. rewrite Hc, IH. reflexivity.
Qed.

Lemma filter_all (s : pystr) :
  Forall (fun c => kept L c = true) s -> filter (kept L) s = s.
Proof.
  induction 1 as [|c s Hc _ IH]; [reflexivity|].
  simpl. rewrite Hc, IH. reflexivity.
Qed.

Lemma remove_diacritics_str (t : pystr) :
  remove_diacritics L (CStr t) = CStr (stripped L t).
Proof. reflexivity. Qed.

Lemma stripped_chars (t : pystr) (c : codepoint) :
  In c (stripped L t) ->
  c = PyStr.space \/ (kept L c = true /\ exists c0, In c (decomposition L c0)).
Proof.
  unfold stripped. intros H.
  apply PyStrFacts.in_join in H. destruct H as [[<-|[]]|(x & Hx & Hc)].
  - left; reflexivity.
  - right. pose proof (PyStrFacts.in_split _ _ _ Hx Hc) as Hin.
    apply filter_In in Hin. destruct Hin as [Hin Hk]. split; [assumption|].
    unfold nfkd in Hin. apply (proj1 (canonical_order_In _ _)) in Hin.
    apply in_flat_map in Hin. destruct Hin as (c0 & _ & H0). eauto.
Qed.

Lemma stripped_kept (t : pystr) :
  Forall (fun c => kept L c = true) (stripped L t).
Proof.
  apply Forall_forall. intros c H.
  destruct (stripped_chars _ _ H) as [->|[Hk _]]; [reflexivity | assumption].
Qed.

Lemma stripped_idempotent (t : pystr) :
  fully_decomposed L -> stripped L (stripped L t) = stripped L t.
Proof.
  intros HD.
  assert (Hfix : Forall (fun c => decomposition L c = [c]) (stripped L t)).
  { apply Forall_forall. intros c H.
    destruct (stripped_chars _ _ H) as [->|[_ (c0 & H0)]];
      [reflexivity | eapply HD; eassumption]. }
  unfold stripped at 1. unfold nfkd.
  rewrite (flat_map_fixed Hfix).
  rewrite (canonical_order_kept (stripped_kept t)).
  rewrite (filter_all (stripped_kept t)).
  unfold stripped. change (py " ") with [PyStr.space].
  rewrite PyStrFacts.split_join by apply PyStrFacts.split_words.
  reflexivity.
Qed.

End WithLib.

End UnicodeFacts.

Lemma latin_lib_fully_decomposed : fully_decomposed latin_lib.
Proof.
  intros c c'. unfold Unicode.decomposition. simpl. unfold latin_decomposition.
  destruct (PyStr.is_ascii c) eqn:Ha.
  - intros [<-|[]]. rewrite Ha. reflexivity.
  - destruct (N.eqb c 201) eqn:E1; [|destruct (N.eqb c 233) eqn:E2].
    + intros [<-|[<-|[]]]; reflexivity.
    + intros [<-|[<-|[]]]; reflexivity.
    + intros [<-|[]]. rewrite Ha, E1, E2. reflexivity.
Qed.

(* ------------------------------------------------------------------ *)
(** * Dates *)

Module DateFacts.
Import Calendar.

Lemma zero_pad_4_below (k : nat) :
  (k < 100 * 100)%nat -> digits 4 (PyStr.zero_pad 4 (N.of_nat k)) = true.
Proof.
  intros H.
  assert (A : forallb (fun k => digits 4 (PyStr.zero_pad 4 (N.of_nat k)))
                (seq 0 (100 * 100)) = true) by (vm_compute; reflexivity).
  rewrite forallb_forall in A. apply A. apply in_seq. lia.
Qed.

Lemma zero_pad_2_below (k : nat) :
  (k < 100)%nat -> digits 2 (PyStr.zero_pad 2 (N.of_nat k)) = true.
Proof.
  intros H.
  assert (A : forallb (fun k => digits 2 (PyStr.zero_pad 2 (N.of_nat k)))
                (seq 0 100) = true) by (vm_compute; reflexivity).
  rewrite forallb_forall in A. apply A. apply in_seq. lia.
Qed.

Lemma zero_pad_4 (n : N) :
  (n <= 9999)%N -> digits 4 (PyStr.zero_pad 4 n) = true.
Proof.
  intros H. rewrite <- (N2Nat.id n). apply zero_pad_4_below. lia.
Qed.

Lemma zero_pad_2 (n : N) :
  (n <= 31)%N -> digits 2 (PyStr.zero_pad 2 n) = true.
Proof.
  intros H. rewrite <- (N2Nat.id n). apply zero_pad_2_below. lia.
Qed.

Lemma days_in_month_le (y m : N) : (days_in_month y m <= 31)%N.
Proof.
  unfold days_in_month.
  repeat match goal with
         | |- context [match ?x with _ => _ end] => destruct x
         end; lia.
Qed.

Lemma date_bounds (dt : date) :
  (1 <= year dt <= 9999 /\ 1 <= month dt <= 12 /\ 1 <= day dt <= 31)%N.
Proof.
  pose proof (date_valid dt) as H. unfold valid_ymd in H.
  repeat (apply andb_true_iff in H; destruct H as [H ?]).
  repeat match goal with
         | E : (_ <=? _)%N = true |- _ => apply N.leb_le in E
         end.
  pose proof (days_in_month_le (year dt) (month dt)). lia.
Qed.

Lemma date_new_Some (y m d : N) (dt : date) :
  date_new y m d = Some dt -> ymd dt = (y, m, d).
Proof.
  unfold date_new. destruct (bool_dec (valid_ymd y m d) true); [|discriminate].
  intros E; injection E as <-. reflexivity.
Qed.

Section WithLib.
Variable L : lib.

Lemma is_decimal_ascii_digit (c : codepoint) :
  is_ascii_digit c = true -> Unicode.is_decimal L c = true.
Proof.
  unfold is_ascii_digit, Unicode.is_decimal, Unicode.decimal, PyStr.ascii_digit.
  intros H. rewrite H.
  unfold PyStr.in_range in H. apply andb_true_iff in H. destruct H as [_ H].
  apply N.leb_le in H. unfold PyStr.is_ascii.
  replace (c <? 128)%N with true by (symmetry; apply N.ltb_lt; lia).
  reflexivity.
Qed.

Lemma re_digits_app (n : nat) (s r : pystr) :
  digits n s = true -> re_digits L n (s ++ r) = Some r.
Proof.
  unfold digits. revert s; induction n as [|n IH]; intros [|c s] H;
    try discriminate; [reflexivity|].
  simpl in H. apply andb_true_iff in H. destruct H as [Hl H].
  apply andb_true_iff in H. destruct H as [Hc Hs].
  simpl. rewrite (is_decimal_ascii_digit _ Hc). apply IH.
  rewrite Hl, Hs. reflexivity.
Qed.

(** Every rendering of a date passes the pattern of line 16. *)
Lemma isoformat_matches (dt : date) : iso_re_match L (isoformat dt) = true.
Proof.
  destruct (date_bounds dt) as (Hy & Hm & Hd).
  unfold iso_re_match, isoformat.
  rewrite re_digits_app by (apply zero_pad_4; lia).
  change (py "-" ++ ?x) with (45%N :: x).
  cbn [and_then re_char N.eqb Pos.eqb].
  rewrite re_digits_app by (apply zero_pad_2; lia).
  change (py "-" ++ ?x) with (45%N :: x).
  cbn [and_then re_char N.eqb Pos.eqb].
  rewrite <- (app_nil_r (PyStr.zero_pad 2 (day dt))).
  rewrite re_digits_app by (apply zero_pad_2; lia).
  reflexivity.
Qed.

(** No cell of an ISO column offends: it is empty or it matches. *)
Lemma offending_iso (d : option date) : offending L (iso_or_empty d) = false.
Proof.
  unfold offending. destruct d as [dt|]; [|reflexivity].
  simpl. rewrite isoformat_matches. apply andb_false_r.
Qed.

End WithLib.

End DateFacts.

(* ------------------------------------------------------------------ *)
(** * Tables *)

Module PandasFacts.
Import Pandas.

Lemma getitem_Ok (n : pystr) (df : dataframe) (c : column) :
  getitem n df = Ok c -> In c df /\ col_name c = n.
Proof.
  induction df as [|a df IH]; simpl; [discriminate|].
  destruct (pystr_eqb (col_name a) n) eqn:E.
  - intros H; injection H as <-. apply pystr_eqb_eq in E. auto.
  - intros H. destruct (IH H). auto.
Qed.

Lemma getitem_present (n : pystr) (df : dataframe) :
  In n (columns df) -> exists c, getitem n df = Ok c.
Proof.
  induction df as [|a df IH]; simpl; [tauto|].
  destruct (pystr_eqb (col_name a) n) eqn:E; [eauto|].
  apply pystr_eqb_neq in E. intros [H|H]; [contradiction | auto].
Qed.

Lemma getitem_Raise (n : pystr) (df : dataframe) (e : exn) :
  getitem n df = Raise e -> exists msg, e = KeyError msg.
Proof.
  induction df as [|a df IH]; simpl.
  - intros H; injection H as <-. eauto.
  - destruct (pystr_eqb (col_name a) n); [discriminate | assumption].
Qed.

Lemma replace_column_columns n t v df :
  columns (replace_column n t v df) = columns df.
Proof.
  unfold columns. induction df as [|a df IH]; simpl; [reflexivity|].
  destruct (pystr_eqb (col_name a) n) eqn:E; simpl.
  - apply pystr_eqb_eq in E. rewrite E. reflexivity.
  - rewrite IH. reflexivity.
Qed.

Lemma set_result_columns n t v df :
  columns (set_result n t v df)
  = if str_in n (columns df) then columns df else columns df ++ [n].
Proof.
  unfold set_result. destruct (str_in n (columns df)).
  - apply replace_column_columns.
  - unfold columns. rewrite map_app. reflexivity.
Qed.

Lemma replace_column_In n t v df c :
  In c (replace_column n t v df) -> c = mkColumn n t v \/ In c df.
Proof.
  induction df as [|a df IH]; simpl; [tauto|].
  destruct (pystr_eqb (col_name a) n); simpl; intuition.
Qed.

Lemma replace_column_len n t v df :
  List.length v = len_df df -> len_df (replace_column n t v df) = len_df df.
Proof.
  destruct df as [|a df]; simpl; [reflexivity|].
  destruct (pystr_eqb (col_name a) n); simpl; auto.
Qed.

Lemma set_result_len n t v df :
  List.length v = len_df df -> len_df (set_result n t v df) = len_df df.
Proof.
  intros H. unfold set_result. destruct (str_in n (columns df)).
  - apply replace_column_len, H.
  - destruct df; simpl; auto.
Qed.

Lemma set_result_rectangular n t v df :
  rectangular df -> List.length v = len_df df ->
  rectangular (set_result n t v df).
Proof.
  intros R H c Hc. rewrite set_result_len by assumption.
  unfold set_result in Hc. destruct (str_in n (columns df)).
  - apply replace_column_In in Hc. destruct Hc as [->|Hc]; [exact H | auto].
  - apply in_app_or in Hc. destruct Hc as [Hc|[<-|[]]]; [auto | exact H].
Qed.

Lemma setitem_fits n t v df :
  List.length v = len_df df -> setitem n t v df = Ok (set_result n t v df).
Proof.
  intros H. unfold setitem, set_result. rewrite H, Nat.eqb_refl.
  rewrite andb_false_r. destruct (str_in n (columns df)); reflexivity.
Qed.

Lemma setitem_Ok n t v df df' :
  setitem n t v df = Ok df' -> df' = set_result n t v df.
Proof.
  unfold setitem, set_result.
  destruct (negb (is_empty (columns df)) && _); [discriminate|].
  destruct (str_in n (columns df)); congruence.
Qed.

Lemma setitem_Raise n t v df e :
  setitem n t v df = Raise e ->
  e = ValueError (py "Length of values does not match length of index").
Proof.
  unfold setitem.
  destruct (negb (is_empty (columns df)) && _); [congruence|].
  destruct (str_in n (columns df)); discriminate.
Qed.

Lemma getitem_replace_same n t v df :
  In n (columns df) -> getitem n (replace_column n t v df) = Ok (mkColumn n t v).
Proof.
  induction df as [|a df IH]; simpl; [tauto|].
  destruct (pystr_eqb (col_name a) n) eqn:E; simpl.
  - rewrite pystr_eqb_refl. reflexivity.
  - rewrite E. apply pystr_eqb_neq in E. intros [H|H]; [contradiction|auto].
Qed.

Lemma getitem_app_absent n df c :
  ~ In n (columns df) -> getitem n (df ++ [c]) = getitem n [c].
Proof.
  induction df as [|a df IH]; simpl; [reflexivity|].
  intros H. destruct (pystr_eqb (col_name a) n) eqn:E.
  - apply pystr_eqb_eq in E. tauto.
  - apply IH. tauto.
Qed.

Lemma getitem_set_same n t v df :
  getitem n (set_result n t v df) = Ok (mkColumn n t v).
Proof.
  unfold set_result. destruct (str_in n (columns df)) eqn:E.
  - apply getitem_replace_same, str_in_In, E.
  - rewrite getitem_app_absent by (apply str_in_not_In, E).
    simpl. rewrite pystr_eqb_refl. reflexivity.
Qed.

Lemma getitem_replace_other n n' t v df :
  n' <> n -> getitem n' (replace_column n t v df) = getitem n' df.
Proof.
  intros Hn. induction df as [|a df IH]; simpl; [reflexivity|].
  destruct (pystr_eqb (col_name a) n) eqn:E; simpl.
  - apply pystr_eqb_eq in E.
    destruct (pystr_eqb n n') eqn:E1;
      [apply pystr_eqb_eq in E1; congruence|].
    rewrite E, E1. reflexivity.
  - destruct (pystr_eqb (col_name a) n'); [reflexivity | exact IH].
Qed.

Lemma getitem_app_other n' df c :
  col_name c <> n' -> getitem n' (df ++ [c]) = 
  match getitem n' df with
  | Ok x => Ok x
  | Raise _ => Raise (KeyError (py "'" ++ n' ++ py "'"))
  end.
Proof.
  intros Hn. induction df as [|a df IH]; simpl.
  - apply pystr_eqb_neq in Hn. rewrite Hn. reflexivity.
  - destruct (pystr_eqb (col_name a) n'); [reflexivity | exact IH].
Qed.

Lemma getitem_set_other n n' t v df c :
  n' <> n -> getitem n' df = Ok c -> getitem n' (set_result n t v df) = Ok c.
Proof.
  intros Hn H. unfold set_result. destruct (str_in n (columns df)).
  - rewrite getitem_replace_other by assumption. exact H.
  - rewrite getitem_app_other by (simpl; congruence). rewrite H. reflexivity.
Qed.

Lemma set_result_keeps n t v df x :
  In x (columns df) -> In x (columns (set_result n t v df)).
Proof.
  rewrite set_result_columns. destruct (str_in n (columns df)); [tauto|].
  intros H. apply in_or_app. auto.
Qed.

Lemma select_none {A} (mask : list bool) (l : list A) :
  Forall (fun b => b = false) mask -> select mask l = [].
Proof.
  intros H; revert l. induction H as [|b mask Hb _ IH]; intros [|x l];
    simpl; try reflexivity. rewrite Hb. apply IH.
Qed.

Lemma select_length {A} (mask : list bool) (l : list A) :
  List.length mask = List.length l ->
  List.length (select mask l) = List.length (filter (fun b => b) mask).
Proof.
  revert l; induction mask as [|b mask IH]; intros [|x l]; simpl;
    try reflexivity; try discriminate.
  intros H. injection H as H. destruct b; simpl; auto.
Qed.

Lemma select_filter {A B} (f : B -> bool) (ss : list B) (l : list A) :
  select (List.map f ss) l
  = List.map fst (filter (fun p => f (snd p)) (combine l ss)).
Proof.
  revert l; induction ss as [|s ss IH]; intros [|x l]; simpl;
    try reflexivity.
  destruct (f s); simpl; rewrite IH; reflexivity.
Qed.

Lemma cell_strings_cells (ss : list pystr) :
  cell_strings (List.map CStr ss) = Ok ss.
Proof.
  induction ss as [|s ss IH]; simpl; [reflexivity|]. rewrite IH. reflexivity.
Qed.

Lemma cell_strings_Raise (l : list cell) (e : exn) :
  cell_strings l = Raise e -> exists msg, e = TypeError msg.
Proof.
  induction l as [|v l IH]; simpl; [discriminate|].
  destruct v; try (intros H; injection H as <-; eauto).
  destruct (cell_strings l); [discriminate|].
  intros H; injection H as <-. apply IH. reflexivity.
Qed.

Lemma as_strings_object (c : column) (ss : list pystr) :
  col_dtype c = DObject -> col_data c = List.map CStr ss ->
  as_strings c = Ok ss.
Proof.
  intros Ht Hd. unfold as_strings. rewrite Ht, Hd. apply cell_strings_cells.
Qed.


Lemma as_strings_Raise (c : column) (e : exn) :
  as_strings c = Raise e ->
  (exists msg, e = TypeError msg) \/ e = str_accessor_error.
Proof.
  unfold as_strings. destruct (is_object (col_dtype c)).
  - intros H. left. eapply cell_strings_Raise, H.
  - intros H; injection H as <-. right; reflexivity.
Qed.

Lemma list_dtype_rows (vals : list cell) :
  0 < List.length vals -> list_dtype vals = DObject.
Proof. destruct vals; simpl; [lia | reflexivity]. Qed.


End PandasFacts.

(* ------------------------------------------------------------------ *)
(** * Runs *)

Module RunFacts.
Import Pandas PandasFacts.

Lemma bind_Ok {A B} (m : M A) (f : A -> M B) t a :
  m = (t, Ok a) -> bind m f = (t ++ fst (f a), snd (f a)).
Proof. intros ->. simpl. destruct (f a). reflexivity. Qed.

Lemma quiet_ret {A} (a : A) : quiet (ret a).
Proof. split; [constructor | exact I]. Qed.

Lemma quiet_print (ev : event) : is_to_csv ev = false -> quiet (print ev).
Proof. intros H. split; [repeat constructor; assumption | exact I]. Qed.

Lemma quiet_raise {A} (e : exn) : is_iso_error e = false -> quiet (@raise A e).
Proof. intros H. split; [constructor | exact H]. Qed.

Lemma quiet_lift {A} (r : result A) :
  (forall e, r = Raise e -> is_iso_error e = false) -> quiet (lift r).
Proof.
  intros H. split; [constructor|]. simpl. destruct r; [exact I | auto].
Qed.

Lemma quiet_bind {A B} (m : M A) (f : A -> M B) :
  quiet m -> (forall t a, m = (t, Ok a) -> quiet (f a)) -> quiet (bind m f).
Proof.
  destruct m as [t [a|e]]; intros [Ht He] Hf.
  - destruct (Hf t a eq_refl) as [Ht' He'].
    rewrite (bind_Ok f eq_refl). simpl in *. split; [|exact He'].
    apply Forall_app. split; assumption.
  - split; assumption.
Qed.

Section WithWorld.
Variable L : lib.
Variable w : world.

Lemma quiet_try_encodings encs last :
  (forall e, last = Some e -> is_iso_error e = false) ->
  quiet (try_encodings w encs last)
  /\ forall d e, snd (try_encodings w encs last) = Ok (d, Some e) ->
                 is_iso_error e = false.
Proof.
  revert last; induction encs as [|enc encs IH]; intros last Hl.
  - split; [apply quiet_ret|]. simpl.
    intros d e H; injection H as _ H; auto.
  - cbn [try_encodings]. destruct (read_csv w (Some enc)) as [err|df].
    + destruct (IH (Some (ReadError err))) as [Q E].
      { intros e H; injection H as <-. reflexivity. }
      split.
      * apply quiet_bind; [apply quiet_print; reflexivity|]. intros _ _ _.
        apply quiet_bind; [apply quiet_print; reflexivity|]. intros _ _ _.
        exact Q.
      * intros d e. unfold print.
        rewrite (bind_Ok _ eq_refl). cbn [fst snd].
        rewrite (bind_Ok _ eq_refl). cbn [fst snd]. apply E.
    + split.
      * apply quiet_bind; [apply quiet_print; reflexivity|]. intros _ _ _.
        apply quiet_bind; [apply quiet_print; reflexivity|]. intros _ _ _.
        apply quiet_ret.
      * simpl. intros d e H; injection H as _ H. auto.
Qed.

Lemma quiet_load : quiet (load w).
Proof.
  unfold load. apply quiet_bind.
  { unfold detect_encoding. destruct (open_error w);
      [apply quiet_raise; reflexivity|].
    apply quiet_bind;
      [apply quiet_print; reflexivity | intros; apply quiet_ret]. }
  intros _ g _.
  destruct (@quiet_try_encodings (candidates (tried g)) None)
    as [Q E]; [discriminate|].
  apply quiet_bind; [exact Q|]. intros t [[df|] last] Hr; [apply quiet_ret|].
  apply quiet_bind; [apply quiet_print; reflexivity|]. intros _ _ _.
  destruct (read_csv w None).
  - destruct last as [e|]; apply quiet_raise; [|reflexivity].
    apply (E None). rewrite Hr. reflexivity.
  - apply quiet_bind; [apply quiet_print; reflexivity|]. intros.
    apply quiet_ret.
Qed.

Lemma normalize_columns_Raise cs df e :
  normalize_columns L cs df = Raise e -> is_iso_error e = false.
Proof.
  revert df; induction cs as [|c cs IH]; intros df; simpl; [discriminate|].
  destruct (getitem c df) as [col|e'] eqn:G.
  - destruct (setitem c _ _ df) as [df'|e''] eqn:S; [apply IH|].
    intros H; injection H as <-. apply setitem_Raise in S. subst. reflexivity.
  - intros H; injection H as <-. apply getitem_Raise in G.
    destruct G as [msg ->]. reflexivity.
Qed.

Lemma quiet_normalize_text df : quiet (normalize_text L df).
Proof.
  unfold normalize_text.
  apply quiet_bind; [apply quiet_print; reflexivity|]. intros _ _ _.
  apply quiet_lift. apply normalize_columns_Raise.
Qed.

Lemma quiet_check_required df : quiet (check_required df).
Proof.
  unfold check_required. destruct (negb (is_empty (missing_required df)));
    [apply quiet_raise; reflexivity | apply quiet_ret].
Qed.

Lemma quiet_getitem n df : quiet (lift (getitem n df)).
Proof.
  apply quiet_lift. intros e H. apply getitem_Raise in H.
  destruct H as [msg ->]. reflexivity.
Qed.

Lemma quiet_setitem n t v df : quiet (lift (setitem n t v df)).
Proof.
  apply quiet_lift. intros e H. apply setitem_Raise in H. subst. reflexivity.
Qed.


Lemma bind_inv_Ok {A B} (m : M A) (f : A -> M B) t b :
  bind m f = (t, Ok b) ->
  exists t1 a t2, m = (t1, Ok a) /\ f a = (t2, Ok b) /\ t = t1 ++ t2.
Proof.
  destruct m as [t1 [a|e]]; simpl; [|discriminate].
  destruct (f a) as [t2 r] eqn:E. intros H; injection H as <- ->.
  exists t1, a, t2. auto.
Qed.

Lemma lift_inv_Ok {A} (r : result A) t a : lift r = (t, Ok a) -> r = Ok a /\ t = [].
Proof. unfold lift. intros H; injection H as <- ->. auto. Qed.

Lemma iso_cells_strings (p : list (option Calendar.date)) :
  iso_cells p = List.map CStr (List.map iso_or_empty p).
Proof. unfold iso_cells. rewrite map_map. reflexivity. Qed.

Lemma iso_cells_length (p : list (option Calendar.date)) :
  List.length (iso_cells p) = List.length p.
Proof. apply length_map. Qed.

Lemma standardize_Ok df t df2 sp ep :
  standardize L df = (t, Ok (df2, sp, ep)) ->
  exists cs ce,
    getitem (py "start_date") df = Ok cs
    /\ getitem (py "end_date") df = Ok ce
    /\ sp = List.map (parse_date_ddmmy L) (col_data cs)
    /\ ep = List.map (parse_date_ddmmy L) (col_data ce)
    /\ df2 = with_iso df sp ep.
Proof.
  unfold standardize. intros H.
  apply bind_inv_Ok in H. destruct H as (t1 & cs & t2 & G1 & H & _).
  apply lift_inv_Ok in G1. destruct G1 as [G1 _].
  apply bind_inv_Ok in H. destruct H as (t3 & ce & t4 & G2 & H & _).
  apply lift_inv_Ok in G2. destruct G2 as [G2 _].
  apply bind_inv_Ok in H. destruct H as (t5 & df1 & t6 & S1 & H & _).
  apply lift_inv_Ok in S1. destruct S1 as [S1 _]. apply setitem_Ok in S1.
  apply bind_inv_Ok in H. destruct H as (t7 & df2' & t8 & S2 & H & _).
  apply lift_inv_Ok in S2. destruct S2 as [S2 _]. apply setitem_Ok in S2.
  injection H as _ <- <- <-. exists cs, ce. subst. unfold with_iso. auto.
Qed.

Lemma quiet_standardize df : quiet (standardize L df).
Proof.
  unfold standardize.
  apply quiet_bind; [apply quiet_getitem|]. intros _ cs _.
  apply quiet_bind; [apply quiet_getitem|]. intros _ ce _.
  apply quiet_bind; [apply quiet_setitem|]. intros _ df1 _.
  apply quiet_bind; [apply quiet_setitem|]. intros _ df2 _.
  apply quiet_ret.
Qed.

Lemma quiet_diagnostics df sp ep : quiet (diagnostics df sp ep).
Proof.
  unfold diagnostics.
  apply quiet_bind; [apply quiet_getitem|]. intros _ cs _.
  apply quiet_bind; [apply quiet_getitem|]. intros _ ce _.
  apply quiet_ret.
Qed.

Lemma getitem_with_iso_start df sp ep :
  getitem (py "start_date_iso") (with_iso df sp ep)
  = Ok (mkColumn (py "start_date_iso") (list_dtype (iso_cells sp))
          (iso_cells sp)).
Proof.
  unfold with_iso. apply getitem_set_other; [discriminate|].
  apply getitem_set_same.
Qed.

Lemma getitem_with_iso_end df sp ep :
  getitem (py "end_date_iso") (with_iso df sp ep)
  = Ok (mkColumn (py "end_date_iso") (list_dtype (iso_cells ep))
          (iso_cells ep)).
Proof. unfold with_iso. apply getitem_set_same. Qed.

Lemma getitem_with_iso_other df sp ep n c :
  n <> py "start_date_iso" -> n <> py "end_date_iso" ->
  getitem n df = Ok c -> getitem n (with_iso df sp ep) = Ok c.
Proof.
  intros H1 H2 G. unfold with_iso.
  apply getitem_set_other; [assumption|].
  apply getitem_set_other; assumption.
Qed.

Lemma loc_Raise mask names df e :
  loc mask names df = Raise e -> exists msg, e = KeyError msg.
Proof.
  unfold loc. destruct (filter _ names); [discriminate|].
  intros H; injection H as <-. eauto.
Qed.

Lemma loc_none mask names df fr :
  Forall (fun b => b = false) mask -> loc mask names df = Ok fr ->
  empty fr = true.
Proof.
  intros Hm. unfold loc. destruct (filter _ names); [|discriminate].
  intros H; injection H as <-.
  assert (A : forall c, In c (flat_map
              (fun n => match getitem n df with
                        | Ok c => [mkColumn n (col_dtype c) (select mask (col_data c))]
                        | Raise _ => []
                        end) names) -> col_data c = []).
  { intros c Hc. apply in_flat_map in Hc. destruct Hc as (n & _ & Hc).
    destruct (getitem n df); [|destruct Hc].
    destruct Hc as [<-|[]]. simpl. apply select_none, Hm. }
  unfold empty. destruct (flat_map _ names) as [|c fr]; [reflexivity|].
  simpl. rewrite (A c) by (left; reflexivity). reflexivity.
Qed.

Lemma offending_none (p : list (option Calendar.date)) :
  Forall (fun b => b = false)
    (List.map (offending L) (List.map iso_or_empty p)).
Proof.
  apply Forall_forall. intros b Hb. apply in_map_iff in Hb.
  destruct Hb as (s & <- & Hs). apply in_map_iff in Hs.
  destruct Hs as (d & <- & _). apply DateFacts.offending_iso.
Qed.

Lemma bad_iso_Raise df raw iso e :
  bad_iso L df raw iso = Raise e -> is_iso_error e = false.
Proof.
  unfold bad_iso. destruct (getitem iso df) as [c|e'] eqn:G.
  - destruct (as_strings c) as [ss|e''] eqn:S.
    + intros H. apply loc_Raise in H. destruct H as [msg ->]. reflexivity.
    + intros H; injection H as <-. apply as_strings_Raise in S.
      destruct S as [[msg ->] | ->]; reflexivity.
  - intros H; injection H as <-. apply getitem_Raise in G.
    destruct G as [msg ->]. reflexivity.
Qed.

(** The ISO columns of lines 103-104 have no offending row. *)
Lemma bad_iso_with_iso df sp ep fr :
  bad_iso L (with_iso df sp ep) (py "start_date") (py "start_date_iso") = Ok fr
  \/ bad_iso L (with_iso df sp ep) (py "end_date") (py "end_date_iso") = Ok fr ->
  empty fr = true.
Proof.
  unfold bad_iso. rewrite getitem_with_iso_start, getitem_with_iso_end.
  unfold as_strings. cbn [col_data col_dtype].
  rewrite !iso_cells_strings, !cell_strings_cells.
  intros [H|H]; revert H;
    match goal with
    | |- context [is_object ?t] => destruct (is_object t)
    end; try discriminate;
    intros H; eapply loc_none; try exact H; apply offending_none.
Qed.

Lemma iso_check_with_iso df sp ep us ue :
  let df2 := with_iso df sp ep in
  iso_check L df2 us ue = ([Print_rows (len_df df2) us ue], Ok tt)
  \/ exists e, iso_check L df2 us ue = ([], Raise e) /\ is_iso_error e = false.
Proof.
  intros df2. unfold iso_check.
  destruct (bad_iso L df2 (py "start_date") (py "start_date_iso"))
    as [fs|e] eqn:B1.
  2:{ right. exists e. split; [reflexivity|]. eapply bad_iso_Raise, B1. }
  destruct (bad_iso L df2 (py "end_date") (py "end_date_iso"))
    as [fe|e] eqn:B2.
  2:{ right. exists e. split; [reflexivity|]. eapply bad_iso_Raise, B2. }
  left. cbn [lift bind].
  rewrite (bad_iso_with_iso df sp ep (or_introl B1)).
  rewrite (bad_iso_with_iso df sp ep (or_intror B2)). reflexivity.
Qed.

Lemma quiet_prepare df : quiet (prepare L df).
Proof.
  unfold prepare.
  apply quiet_bind; [apply quiet_normalize_text|]. intros _ dfn _.
  apply quiet_bind; [apply quiet_check_required|]. intros _ _ _.
  apply quiet_bind; [apply quiet_standardize|]. intros t [[df2 sp] ep] Hs.
  apply standardize_Ok in Hs. destruct Hs as (cs & ce & _ & _ & _ & _ & ->).
  apply quiet_bind; [apply quiet_diagnostics|]. intros _ u _.
  apply quiet_bind; [|intros; apply quiet_ret].
  destruct (iso_check_with_iso dfn sp ep (fst u) (snd u)) as [E|(e & E & He)];
    cbv zeta in E; rewrite E.
  - split; [repeat constructor | exact I].
  - split; [constructor | exact He].
Qed.

(** A run that ends in an exception has written nothing, and the
    exception is not the one of line 120. *)
Lemma main_abort t e :
  main L w = (t, Raise e) -> no_write t /\ is_iso_error e = false.
Proof.
  unfold main. destruct (negb (path_exists w)).
  { intros H; injection H as <- <-. split; [constructor | reflexivity]. }
  unfold process. intros H.
  assert (Q : quiet (df <- load w ;; prepare L df)).
  { apply quiet_bind; [apply quiet_load | intros; apply quiet_prepare]. }
  destruct (df <- load w ;; prepare L df) as [t0 [df|e0]] eqn:E.
  - exfalso. revert H. destruct (load w) as [t1 [df1|e1]]; [|discriminate].
    simpl in E |- *. destruct (prepare L df1) as [t2 [df2|e2]];
      [|discriminate]. simpl. discriminate.
  - destruct Q as [Q1 Q2]. simpl in Q1, Q2.
    assert (main_eq : (df <- load w ;; df' <- prepare L df ;; export w df')
                      = (t0, Raise e0)).
    { revert E. destruct (load w) as [t1 [df1|e1]]; simpl; [|congruence].
      destruct (prepare L df1) as [t2 [df2|e2]]; simpl; congruence. }
    rewrite main_eq in H. injection H as <- <-. auto.
Qed.


Lemma object_columns_present df c :
  In c (object_columns df) -> In c (columns df).
Proof.
  unfold object_columns, columns. rewrite !in_map_iff.
  intros (x & <- & Hx). apply filter_In in Hx. exists x. tauto.
Qed.

(** On a rectangular table the loop of lines 91-92 does not raise and
    keeps the column names and the row count. *)
Lemma normalize_columns_runs cs df :
  rectangular df -> (forall c, In c cs -> In c (columns df)) ->
  exists dfn,
    normalize_columns L cs df = Ok dfn
    /\ columns dfn = columns df /\ len_df dfn = len_df df /\ rectangular dfn.
Proof.
  revert df; induction cs as [|c cs IH]; intros df R Hcs; simpl; [eauto|].
  destruct (getitem_present c df) as [col G]; [apply Hcs; left; reflexivity|].
  rewrite G. destruct (getitem_Ok _ _ G) as [Hin Hname].
  assert (Hl : List.length (List.map (remove_diacritics L) (col_data col))
               = len_df df) by (rewrite length_map; apply R, Hin).
  rewrite (setitem_fits _ _ _ _ Hl).
  assert (Hc : columns (set_result c (col_dtype col)
                 (List.map (remove_diacritics L) (col_data col)) df)
               = columns df).
  { rewrite set_result_columns.
    replace (str_in c (columns df)) with true; [reflexivity|].
    symmetry. apply str_in_In, Hcs. left; reflexivity. }
  destruct (IH (set_result c (col_dtype col)
                  (List.map (remove_diacritics L) (col_data col)) df))
    as (dfn & E & C & N & R').
  - apply set_result_rectangular; assumption.
  - intros x Hx. rewrite Hc. apply Hcs. right; assumption.
  - exists dfn. rewrite E, C, N, Hc, set_result_len by assumption. auto.
Qed.

(** The loop of lines 91-92 leaves alone a column it is not asked to
    normalise. *)
Lemma normalize_columns_other cs df dfn n c :
  normalize_columns L cs df = Ok dfn -> ~ In n cs ->
  getitem n df = Ok c -> getitem n dfn = Ok c.
Proof.
  revert df; induction cs as [|x cs IH]; intros df; simpl.
  - intros H _ G. injection H as <-. exact G.
  - destruct (getitem x df) as [col|] eqn:Gx; [|discriminate].
    destruct (setitem x _ _ df) as [df'|] eqn:S; [|discriminate].
    intros H Hn G. apply setitem_Ok in S. subst df'.
    eapply IH; [exact H | tauto |].
    apply getitem_set_other; [intros ->; tauto | exact G].
Qed.

(** A column named once among the columns to normalise is normalised
    once. *)
Lemma normalize_columns_once cs df dfn n c :
  NoDup cs -> In n cs -> getitem n df = Ok c ->
  normalize_columns L cs df = Ok dfn ->
  getitem n dfn
  = Ok (mkColumn n (col_dtype c)
          (List.map (remove_diacritics L) (col_data c))).
Proof.
  revert df; induction cs as [|x cs IH]; intros df Hnd Hin G; simpl;
    [destruct Hin|].
  inversion Hnd as [|? ? Hx Hnd']; subst.
  destruct (getitem x df) as [col|] eqn:Gx; [|discriminate].
  destruct (setitem x _ _ df) as [df'|] eqn:S; [|discriminate].
  intros H. apply setitem_Ok in S. subst df'.
  destruct (list_eq_dec N.eq_dec x n) as [->|Hne].
  - rewrite G in Gx. injection Gx as <-.
    eapply normalize_columns_other; [exact H | exact Hx |].
    apply getitem_set_same.
  - destruct Hin as [E|Hin]; [contradiction|].
    eapply IH; [exact Hnd' | exact Hin | | exact H].
    apply getitem_set_other; [congruence | exact G].
Qed.

(** What lines 89-92 leave under a name of the loaded table. *)
Lemma normalize_columns_cells df dfn n c :
  NoDup (object_columns df) ->
  normalize_columns L (object_columns df) df = Ok dfn ->
  getitem n df = Ok c ->
  getitem n dfn = Ok (mkColumn n (col_dtype c) (normalized_cells L df n c)).
Proof.
  intros Hnd En G. unfold normalized_cells.
  destruct (str_in n (object_columns df)) eqn:E.
  - apply str_in_In in E. eapply normalize_columns_once; eassumption.
  - apply str_in_not_In in E.
    rewrite (@normalize_columns_other _ _ _ _ _ En E G).
    destruct (getitem_Ok _ _ G) as [_ <-]. destruct c; reflexivity.
Qed.

Lemma missing_required_nil df :
  In (py "start_date") (columns df) -> In (py "end_date") (columns df) ->
  missing_required df = [].
Proof.
  intros H1 H2. unfold missing_required, required.
  apply str_in_In in H1, H2. simpl. rewrite H1, H2. reflexivity.
Qed.

Lemma with_iso_len df sp ep :
  List.length sp = len_df df -> List.length ep = len_df df ->
  len_df (with_iso df sp ep) = len_df df.
Proof.
  intros H1 H2. unfold with_iso.
  assert (A : len_df (set_result (py "start_date_iso")
                        (list_dtype (iso_cells sp)) (iso_cells sp) df)
              = len_df df)
    by (apply set_result_len; rewrite iso_cells_length; exact H1).
  rewrite set_result_len; [exact A | rewrite iso_cells_length, A; exact H2].
Qed.

Lemma standardize_runs df cs ce :
  rectangular df ->
  getitem (py "start_date") df = Ok cs -> getitem (py "end_date") df = Ok ce ->
  let sp := List.map (parse_date_ddmmy L) (col_data cs) in
  let ep := List.map (parse_date_ddmmy L) (col_data ce) in
  standardize L df = ([], Ok (with_iso df sp ep, sp, ep))
  /\ List.length sp = len_df df /\ List.length ep = len_df df.
Proof.
  intros R G1 G2 sp ep.
  assert (L1 : List.length sp = len_df df).
  { unfold sp. rewrite length_map. apply R. apply (getitem_Ok _ _ G1). }
  assert (L2 : List.length ep = len_df df).
  { unfold ep. rewrite length_map. apply R. apply (getitem_Ok _ _ G2). }
  split; [|auto]. unfold standardize. rewrite G1, G2. cbn [lift bind].
  fold sp ep. rewrite setitem_fits by (rewrite iso_cells_length; exact L1).
  rewrite setitem_fits
    by (rewrite iso_cells_length, set_result_len;
        rewrite ?iso_cells_length; assumption).
  reflexivity.
Qed.

Lemma loc_present mask names df :
  (forall n, In n names -> In n (columns df)) ->
  loc mask names df
  = Ok (flat_map (fun n =>
                    match getitem n df with
                    | Ok c => [mkColumn n (col_dtype c) (select mask (col_data c))]
                    | Raise _ => []
                    end) names).
Proof.
  intros H. unfold loc.
  replace (filter (fun n => negb (str_in n (columns df))) names) with (@nil pystr);
    [reflexivity|].
  symmetry. induction names as [|n names IH]; [reflexivity|]. simpl.
  replace (str_in n (columns df)) with true
    by (symmetry; apply str_in_In, H; left; reflexivity).
  simpl. apply IH. intros x Hx. apply H. right; assumption.
Qed.

(** Lines 110-111 on a table that has the three columns read. *)
Lemma bad_iso_present df raw iso ck cr ci ss :
  getitem (py "event_id") df = Ok ck -> getitem raw df = Ok cr ->
  getitem iso df = Ok ci ->
  col_dtype ci = DObject -> col_data ci = List.map CStr ss ->
  let mask := List.map (offending L) ss in
  bad_iso L df raw iso
  = Ok [mkColumn (py "event_id") (col_dtype ck) (select mask (col_data ck));
        mkColumn raw (col_dtype cr) (select mask (col_data cr));
        mkColumn iso (col_dtype ci) (select mask (col_data ci))].
Proof.
  intros Gk Gr Gi Ht Hs mask. unfold bad_iso.
  rewrite Gi, (@as_strings_object _ _ Ht Hs).
  rewrite loc_present.
  - simpl. rewrite Gk, Gr, Gi, Hs. reflexivity.
  - intros n [<-|[<-|[<-|[]]]].
    + destruct (getitem_Ok _ _ Gk) as [H <-]. apply in_map, H.
    + destruct (getitem_Ok _ _ Gr) as [H <-]. apply in_map, H.
    + destruct (getitem_Ok _ _ Gi) as [H <-]. apply in_map, H.
Qed.

(** Lines 113-120 once the two frames of lines 110-111 are known. *)
Lemma iso_check_eq df us ue fs fe :
  bad_iso L df (py "start_date") (py "start_date_iso") = Ok fs ->
  bad_iso L df (py "end_date") (py "end_date_iso") = Ok fe ->
  iso_check L df us ue
  = (Print_rows (len_df df) us ue
       :: (if negb (empty fs) || negb (empty fe)
           then Print_iso_failed
                  :: (if negb (empty fs) then [Print_frame (head 5 fs)] else [])
                  ++ (if negb (empty fe) then [Print_frame (head 5 fe)] else [])
           else []),
     if negb (empty fs) || negb (empty fe) then Raise iso_error else Ok tt).
Proof.
  intros B1 B2. unfold iso_check. rewrite B1, B2.
  unfold lift, print. cbn [bind app].
  destruct (empty fs), (empty fe); reflexivity.
Qed.

(** A rectangular table with the three columns the script reads goes
    through lines 88-124 to the export. *)
Lemma process_runs df :
  rectangular df -> 0 < len_df df ->
  In (py "event_id") (columns df) ->
  In (py "start_date") (columns df) ->
  In (py "end_date") (columns df) ->
  exists dfn cs ce,
    normalize_columns L (object_columns df) df = Ok dfn
    /\ columns dfn = columns df
    /\ getitem (py "start_date") dfn = Ok cs
    /\ getitem (py "end_date") dfn = Ok ce
    /\ let sp := List.map (parse_date_ddmmy L) (col_data cs) in
       let ep := List.map (parse_date_ddmmy L) (col_data ce) in
       len_df (with_iso dfn sp ep) = len_df df
       /\ process L w df
          = ([Print_normalizing (List.length (object_columns df));
              Print_rows (len_df df)
                (unparsable_count sp (col_data cs))
                (unparsable_count ep (col_data ce));
              To_csv OUTPUT_CSV (with_iso dfn sp ep) false true (py "utf-8-sig");
              Print_wrote (abspath w OUTPUT_CSV)], Ok tt).
Proof.
  intros R Hrows Hk Hs He.
  destruct (normalize_columns_runs (object_columns df) R
              (object_columns_present df)) as (dfn & En & Cn & Ln & Rn).
  rewrite <- Cn in Hk, Hs, He.
  destruct (getitem_present _ _ Hk) as [ck Gk].
  destruct (getitem_present _ _ Hs) as [cs Gs].
  destruct (getitem_present _ _ He) as [ce Ge].
  exists dfn, cs, ce. repeat (split; [assumption|]).
  intros sp ep.
  destruct (standardize_runs Rn Gs Ge) as (St & L1 & L2). fold sp ep in St, L1, L2.
  assert (Lw : len_df (with_iso dfn sp ep) = len_df df)
    by (rewrite with_iso_len; assumption).
  split; [exact Lw|].
  unfold process, prepare, normalize_text. rewrite En.
  unfold print, lift. cbn [bind app].
  unfold check_required. rewrite (missing_required_nil _ Hs He).
  cbn [is_empty negb ret bind app]. rewrite St. cbn [bind app].
  unfold diagnostics.
  rewrite (@getitem_with_iso_other dfn sp ep (py "start_date") cs)
    by (discriminate || exact Gs).
  rewrite (@getitem_with_iso_other dfn sp ep (py "end_date") ce)
    by (discriminate || exact Ge).
  cbn [lift ret bind app fst snd].
  destruct (iso_check_with_iso dfn sp ep
              (unparsable_count sp (col_data cs))
              (unparsable_count ep (col_data ce))) as [E|(e & E & _)];
    cbv zeta in E.
  - rewrite E, Lw. reflexivity.
  - exfalso. revert E.
    erewrite iso_check_eq.
    + discriminate.
    + eapply bad_iso_present.
      * apply getitem_with_iso_other; [discriminate | discriminate | exact Gk].
      * apply getitem_with_iso_other; [discriminate | discriminate | exact Gs].
      * apply getitem_with_iso_start.
      * apply list_dtype_rows. rewrite iso_cells_length. lia.
      * apply iso_cells_strings.
    + eapply bad_iso_present.
      * apply getitem_with_iso_other; [discriminate | discriminate | exact Gk].
      * apply getitem_with_iso_other; [discriminate | discriminate | exact Ge].
      * apply getitem_with_iso_end.
      * apply list_dtype_rows. rewrite iso_cells_length. lia.
      * apply iso_cells_strings.
Qed.


(** A table without one of the two date columns stops at line 98. *)
Lemma process_missing df :
  rectangular df -> missing_required df <> [] ->
  process L w df
  = ([Print_normalizing (List.length (object_columns df))],
     Raise (KeyError (missing_message (missing_required df)))).
Proof.
  intros R Hm.
  destruct (normalize_columns_runs (object_columns df) R
              (object_columns_present df)) as (dfn & En & Cn & _).
  unfold process, prepare, normalize_text. rewrite En.
  unfold print, lift. cbn [bind app].
  unfold check_required.
  assert (Em : missing_required dfn = missing_required df)
    by (unfold missing_required; rewrite Cn; reflexivity).
  rewrite Em. destruct (missing_required df); [congruence|]. reflexivity.
Qed.

End WithWorld.

End RunFacts.

(* ------------------------------------------------------------------ *)
(** * Loading *)

Module LoadFacts.
Import RunFacts.

Section WithWorld.
Variable w : world.

Lemma candidates_guess (g : pystr) :
  g <> [] -> candidates (tried (Some g)) = g :: fallbacks.
Proof. destruct g; [congruence | reflexivity]. Qed.

Lemma try_all_fail encs last :
  Forall (fails w) encs ->
  try_encodings w encs last
  = (failure_events w encs, Ok (None, last_error w encs last)).
Proof.
  intros H; revert last. induction H as [|enc encs [e He] _ IH]; intros last;
    [reflexivity|].
  cbn [try_encodings failure_events last_error flat_map fold_left].
  rewrite He. unfold print. cbn [bind app]. rewrite IH. reflexivity.
Qed.

Lemma try_first_success pre enc post df last :
  Forall (fails w) pre -> read_csv w (Some enc) = inr df ->
  try_encodings w (pre ++ enc :: post) last
  = (failure_events w pre ++ [Call_read_csv (Some enc); Print_read_ok enc],
     Ok (Some df, last_error w pre last)).
Proof.
  intros H Hd; revert last. induction H as [|x pre [e He] _ IH]; intros last.
  - cbn [app try_encodings]. rewrite Hd. reflexivity.
  - cbn [app try_encodings failure_events last_error flat_map fold_left].
    rewrite He. unfold print. cbn [bind app]. rewrite IH. reflexivity.
Qed.

Lemma last_error_snoc encs enc e last :
  read_csv w (Some enc) = inl e ->
  last_error w (encs ++ [enc]) last = Some (ReadError e).
Proof.
  intros H. unfold last_error. rewrite fold_left_app. simpl. rewrite H.
  reflexivity.
Qed.

Lemma default_attempts_failures encs :
  default_attempts (failure_events w encs) = 0.
Proof.
  unfold default_attempts, failure_events.
  induction encs as [|enc encs IH]; [reflexivity|]. cbn [flat_map].
  rewrite filter_app, length_app, IH.
  destruct (read_csv w (Some enc)); reflexivity.
Qed.

Lemma default_attempts_app t1 t2 :
  default_attempts (t1 ++ t2) = default_attempts t1 + default_attempts t2.
Proof. unfold default_attempts. rewrite filter_app. apply length_app. Qed.

(** The first candidate that parses is accepted. *)
Lemma load_first_success pre enc post df :
  open_error w = None ->
  candidates (tried (chardet_encoding w)) = pre ++ enc :: post ->
  Forall (fails w) pre -> read_csv w (Some enc) = inr df ->
  load w
  = (Print_detected (chardet_encoding w) :: failure_events w pre
       ++ [Call_read_csv (Some enc); Print_read_ok enc], Ok df).
Proof.
  intros Ho Hc Hp Hd. unfold load, detect_encoding, print. rewrite Ho.
  cbn [bind ret app].
  rewrite Hc, (@try_first_success pre enc post df None Hp Hd).
  cbn [bind ret app]. rewrite app_nil_r. reflexivity.
Qed.

(** Every candidate failed and the read without encoding parsed. *)
Lemma load_default df :
  open_error w = None ->
  Forall (fails w) (candidates (tried (chardet_encoding w))) ->
  read_csv w None = inr df ->
  load w
  = (Print_detected (chardet_encoding w)
       :: failure_events w (candidates (tried (chardet_encoding w)))
       ++ [Call_read_csv None; Print_default_ok], Ok df).
Proof.
  intros Ho Hc Hd. unfold load, detect_encoding, print. rewrite Ho.
  cbn [bind ret app].
  rewrite (@try_all_fail _ None Hc). cbn [bind ret app]. rewrite Hd.
  cbn [bind ret app]. reflexivity.
Qed.

Lemma candidates_end g :
  exists encs, candidates (tried g) = encs ++ [py "windows-1252"].
Proof.
  destruct g as [[|c g]|].
  - exists [py "utf-8-sig"; py "utf-8"; py "latin1"]. reflexivity.
  - exists [c :: g; py "utf-8-sig"; py "utf-8"; py "latin1"]. reflexivity.
  - exists [py "utf-8-sig"; py "utf-8"; py "latin1"]. reflexivity.
Qed.

(** Every candidate failed and so did the read without encoding: the
    exception raised is [last_err], the one of the last candidate. *)
Lemma load_all_fail e_last e_default :
  open_error w = None ->
  Forall (fails w) (candidates (tried (chardet_encoding w))) ->
  read_csv w (Some (py "windows-1252")) = inl e_last ->
  read_csv w None = inl e_default ->
  load w
  = (Print_detected (chardet_encoding w)
       :: failure_events w (candidates (tried (chardet_encoding w)))
       ++ [Call_read_csv None], Raise (ReadError e_last)).
Proof.
  intros Ho Hc Hl Hd. unfold load, detect_encoding, print. rewrite Ho.
  cbn [bind ret app].
  rewrite (@try_all_fail _ None Hc). cbn [bind ret app]. rewrite Hd.
  destruct (candidates_end (chardet_encoding w)) as [encs E].
  assert (A : last_error w (candidates (tried (chardet_encoding w))) None
              = Some (ReadError e_last))
    by (rewrite E; apply last_error_snoc; exact Hl).
  rewrite A. reflexivity.
Qed.

(** The sample of line 22 cannot be read: nothing is printed or tried. *)
Lemma load_open_error msg :
  open_error w = Some msg -> load w = ([], Raise (OSError msg)).
Proof. intros Ho. unfold load, detect_encoding. rewrite Ho. reflexivity. Qed.

End WithWorld.

End LoadFacts.

(* ------------------------------------------------------------------ *)
(** * The properties of the specification *)

Lemma unparsable_count_cons d ds raw raws :
  unparsable_count (d :: ds) (raw :: raws)
  = (if is_none d && negb (is_empty (PyStr.strip (str raw))) then 1 else 0)
    + unparsable_count ds raws.
Proof.
  unfold unparsable_count. simpl.
  destruct (is_none d && negb (is_empty (PyStr.strip (str raw)))); reflexivity.
Qed.

Lemma unparsable_count_rows (L : lib) (raws : list cell) :
  unparsable_count (List.map (parse_date_ddmmy L) raws) raws
  = List.length (filter (unparsable_row L) raws).
Proof.
  induction raws as [|raw raws IH]; [reflexivity|].
  cbn [List.map]. rewrite unparsable_count_cons, IH. simpl.
  unfold unparsable_row at 2.
  destruct (is_none (parse_date_ddmmy L raw)
            && negb (is_empty (PyStr.strip (str raw)))); reflexivity.
Qed.

(** C1: [parse_date_ddmmy v] is absent when [v] is [None], or when
    [str(v)] trimmed is empty or, lowered, one of "nan", "none", "null";
    otherwise it is the date of the first of the strict formats
    [%d/%m/%y], [%d/%m/%Y] that parses the trimmed string; otherwise it
    is what the tolerant day-first parser returns, absent included. *)
Theorem C1_parse_date_ddmmy_cases (L : lib) (v : cell) :
  let s := PyStr.strip (str v) in
  (v = CNone -> parse_date_ddmmy L v = None)
  /\ (is_empty s = true \/ str_in (Unicode.lower L s) sentinels = true ->
      parse_date_ddmmy L v = None)
  /\ (v <> CNone -> is_empty s = false ->
      str_in (Unicode.lower L s) sentinels = false ->
      (forall d, Strptime.strptime_date L s (py "%d/%m/%y") = Some d ->
                 parse_date_ddmmy L v = Some d)
      /\ (Strptime.strptime_date L s (py "%d/%m/%y") = None ->
          forall d, Strptime.strptime_date L s (py "%d/%m/%Y") = Some d ->
                    parse_date_ddmmy L v = Some d)
      /\ (Strptime.strptime_date L s (py "%d/%m/%y") = None ->
          Strptime.strptime_date L s (py "%d/%m/%Y") = None ->
          parse_date_ddmmy L v = to_datetime_dayfirst L s)).
Proof.
  intros s. subst s. split; [intros ->; reflexivity|]. split.
  - intros H. destruct v; try reflexivity; unfold parse_date_ddmmy; cbv zeta;
      (destruct H as [H|H]; rewrite H; [reflexivity|];
       rewrite orb_true_r; reflexivity).
  - intros Hv He Hs.
    assert (E : parse_date_ddmmy L v
                = match try_formats L (PyStr.strip (str v)) date_formats with
                  | Some d => Some d
                  | None => to_datetime_dayfirst L (PyStr.strip (str v))
                  end).
    { destruct v; try congruence; unfold parse_date_ddmmy; cbv zeta;
        rewrite He, Hs; reflexivity. }
    rewrite E. unfold date_formats. cbn [try_formats].
    repeat split.
    + intros d ->. reflexivity.
    + intros -> d ->. reflexivity.
    + intros -> ->. reflexivity.
Qed.

Lemma C1_parse_date_ddmmy_cases_witness :
  option_map Calendar.ymd
    (parse_date_ddmmy latin_lib (CStr (py " 05/03/2024 ")))
  = Some (2024, 3, 5)%N.
Proof.
  destruct (C1_parse_date_ddmmy_cases latin_lib (CStr (py " 05/03/2024 ")))
    as (_ & _ & H).
  destruct H as (_ & H & _); [discriminate | reflexivity | reflexivity |].
  cbv zeta in H.
  destruct (Strptime.strptime_date latin_lib
              (PyStr.strip (str (CStr (py " 05/03/2024 ")))) (py "%d/%m/%Y"))
    as [d|] eqn:E; [|discriminate].
  rewrite (H eq_refl d eq_refl).
  vm_compute in E. injection E as <-. reflexivity.
Defined.

(** C6: "05/03/24" and "05/03/2024" both parse to the date 2024-03-05
    (day first, two-digit year in 2000), rendered "2024-03-05"; the empty
    string, "NaN" and [None] parse to absent, rendered as the empty
    string. *)
Theorem C6_parse_examples (L : lib) :
  option_map Calendar.ymd (parse_date_ddmmy L (CStr (py "05/03/24")))
  = Some (2024, 3, 5)%N
  /\ option_map Calendar.ymd (parse_date_ddmmy L (CStr (py "05/03/2024")))
     = Some (2024, 3, 5)%N
  /\ iso_or_empty (parse_date_ddmmy L (CStr (py "05/03/24"))) = py "2024-03-05"
  /\ iso_or_empty (parse_date_ddmmy L (CStr (py "05/03/2024"))) = py "2024-03-05"
  /\ parse_date_ddmmy L (CStr (py "")) = None
  /\ parse_date_ddmmy L (CStr (py "NaN")) = None
  /\ parse_date_ddmmy L CNone = None
  /\ iso_or_empty None = py "".
Proof. repeat split; vm_compute; reflexivity. Qed.

(** C7, as it holds: on a string, [remove_diacritics] applied twice
    gives what it gives applied once, and its result holds no character of
    non-zero canonical combining class, the test of line 36; a value that
    is not a string is returned as it is. Idempotence rests on the
    decompositions of the character database being full. *)
Theorem C7_remove_diacritics_idempotent (L : lib) :
  (fully_decomposed L ->
   forall x, remove_diacritics L (remove_diacritics L (CStr x))
             = remove_diacritics L (CStr x))
  /\ (forall x y c, remove_diacritics L (CStr x) = CStr y -> In c y ->
                    Unicode.combining L c = 0%N)
  /\ (forall v, isinstance_str v = false -> remove_diacritics L v = v).
Proof.
  split; [|split].
  - intros HD x. rewrite !UnicodeFacts.remove_diacritics_str.
    rewrite (UnicodeFacts.stripped_idempotent x HD). reflexivity.
  - intros x y c E Hc. rewrite UnicodeFacts.remove_diacritics_str in E.
    injection E as <-.
    pose proof (UnicodeFacts.stripped_kept L x) as K.
    rewrite Forall_forall in K. apply N.eqb_eq. apply (K c Hc).
  - intros v Hv. destruct v; try reflexivity. discriminate.
Qed.

Lemma C7_remove_diacritics_idempotent_witness :
  remove_diacritics latin_lib
    (remove_diacritics latin_lib (CStr ([201; 99; 108; 97; 116; 32; 32; 233]%N)))
  = remove_diacritics latin_lib (CStr ([201; 99; 108; 97; 116; 32; 32; 233]%N)).
Proof.
  apply (proj1 (C7_remove_diacritics_idempotent latin_lib)
               latin_lib_fully_decomposed).
Defined.

(** C7 as stated fails: U+20DD, the combining enclosing circle, is a
    combining mark, and its canonical combining class is 0; line 36 looks
    at the class only, so the mark stays in the result. *)
Lemma C7_counterexample :
  combining_mark enclosing_circle = true
  /\ Unicode.combining latin_lib enclosing_circle = 0%N
  /\ Unicode.decomposition latin_lib enclosing_circle = [enclosing_circle]
  /\ remove_diacritics latin_lib (CStr [65%N; enclosing_circle])
     = CStr [65%N; enclosing_circle]
  /\ In enclosing_circle [65%N; enclosing_circle].
Proof.
  split; [reflexivity|]. split; [reflexivity|]. split; [reflexivity|].
  split; [vm_compute; reflexivity | right; left; reflexivity].
Qed.

(** C9, as it holds: for a date column, the count of lines 107-108 is
    the number of rows whose parsed date is absent while the value the
    date was parsed from, as a string and trimmed, is not empty; that
    value is the cell after the text normalisation of lines 89-92, not the
    cell as loaded. These are the two counts line 113 reports, the only
    line that reports counts. *)
Theorem C9_unparsable_count (L : lib) :
  (forall raws,
      unparsable_count (List.map (parse_date_ddmmy L) raws) raws
      = List.length (filter (unparsable_row L) raws))
  /\ (forall df cs ce,
         Pandas.getitem (py "start_date") df = Ok cs ->
         Pandas.getitem (py "end_date") df = Ok ce ->
         diagnostics df (List.map (parse_date_ddmmy L) (col_data cs))
                        (List.map (parse_date_ddmmy L) (col_data ce))
         = ([], Ok (List.length (filter (unparsable_row L) (col_data cs)),
                    List.length (filter (unparsable_row L) (col_data ce)))))
  /\ (forall w df cs ce,
         rectangular df -> 0 < len_df df ->
         NoDup (Pandas.object_columns df) ->
         In (py "event_id") (columns df) ->
         Pandas.getitem (py "start_date") df = Ok cs ->
         Pandas.getitem (py "end_date") df = Ok ce ->
         let us := List.length (filter (unparsable_row L)
                                  (normalized_cells L df (py "start_date") cs)) in
         let ue := List.length (filter (unparsable_row L)
                                  (normalized_cells L df (py "end_date") ce)) in
         In (Print_rows (len_df df) us ue) (fst (process L w df))
         /\ forall n a b, In (Print_rows n a b) (fst (process L w df)) ->
                          n = len_df df /\ a = us /\ b = ue).
Proof.
  split; [apply unparsable_count_rows|]. split.
  - intros df cs ce G1 G2.
    unfold diagnostics. rewrite G1, G2. cbn [lift bind ret app].
    rewrite !unparsable_count_rows. reflexivity.
  - intros w df cs ce R Hrows Hnd Hk Gs Ge us ue.
    assert (Hs : In (py "start_date") (columns df)).
    { destruct (PandasFacts.getitem_Ok _ _ Gs) as [H <-]. apply in_map, H. }
    assert (He : In (py "end_date") (columns df)).
    { destruct (PandasFacts.getitem_Ok _ _ Ge) as [H <-]. apply in_map, H. }
    destruct (RunFacts.process_runs L w R Hrows Hk Hs He)
      as (dfn & cs' & ce' & En & _ & Gs' & Ge' & H).
    cbv zeta in H. destruct H as [_ H].
    rewrite (@RunFacts.normalize_columns_cells L _ _ _ _ Hnd En Gs) in Gs'.
    rewrite (@RunFacts.normalize_columns_cells L _ _ _ _ Hnd En Ge) in Ge'.
    injection Gs' as <-. injection Ge' as <-. cbn [col_data] in H.
    rewrite !unparsable_count_rows in H. fold us ue in H.
    rewrite H. cbn [fst]. split.
    + right. left. reflexivity.
    + intros n a b [Hin|[Hin|[Hin|[Hin|[]]]]]; try discriminate.
      injection Hin as <- <- <-. auto.
Qed.

Lemma C9_unparsable_count_witness :
  diagnostics sample_frame
    (List.map (parse_date_ddmmy latin_lib)
       [CStr (py "05/03/24"); CNaN; CStr (py "soon")])
    (List.map (parse_date_ddmmy latin_lib)
       [CStr (py "05/03/2024"); CStr (py "7/1/99"); CStr (py "31/02/2024")])
  = ([], Ok (2, 1)).
Proof.
  refine (eq_trans
            (proj1 (proj2 (C9_unparsable_count latin_lib)) sample_frame
               (mkColumn (py "start_date") DObject
                  [CStr (py "05/03/24"); CNaN; CStr (py "soon")])
               (mkColumn (py "end_date") DObject
                  [CStr (py "05/03/2024"); CStr (py "7/1/99");
                   CStr (py "31/02/2024")]) _ _) _);
    vm_compute; reflexivity.
Defined.

(** C9 as stated fails: a start date that is the combining accent
    U+0301 alone is not blank as loaded, and no date is parsed for its
    row; yet the row is not counted, the accent being gone from the cell
    when lines 101 and 107 read it. *)
Lemma C9_counterexample :
  Pandas.getitem (py "start_date") accent_frame
  = Ok (mkColumn (py "start_date") DObject [CStr [769%N]])
  /\ PyStr.strip (str (CStr [769%N])) = [769%N]
  /\ parse_date_ddmmy latin_lib (remove_diacritics latin_lib (CStr [769%N]))
     = None
  /\ List.length (filter (unparsable_original latin_lib) [CStr [769%N]]) = 1
  /\ exists out,
       main latin_lib accent_world
       = ([Print_detected (Some (py "ascii")); Call_read_csv (Some (py "ascii"));
           Print_read_ok (py "ascii"); Print_normalizing 2; Print_rows 1 0 0;
           To_csv OUTPUT_CSV out false true (py "utf-8-sig");
           Print_wrote (abspath accent_world OUTPUT_CSV)], Ok tt).
Proof.
  split; [vm_compute; reflexivity|].
  split; [vm_compute; reflexivity|].
  split; [vm_compute; reflexivity|].
  split; [vm_compute; reflexivity|].
  eexists. vm_compute. reflexivity.
Qed.

(** C10: a cell holding the loader's missing marker, float NaN, parses
    to absent, its string "nan" being a sentinel, and is nevertheless
    counted as unparsable, "nan" not being empty: each such row adds one
    to the count. *)
Theorem C10_nan_counted_unparsable (L : lib) :
  parse_date_ddmmy L CNaN = None
  /\ PyStr.strip (str CNaN) = py "nan"
  /\ str_in (Unicode.lower L (py "nan")) sentinels = true
  /\ unparsable_row L CNaN = true
  /\ (forall before after,
         unparsable_count
           (List.map (parse_date_ddmmy L) (before ++ CNaN :: after))
           (before ++ CNaN :: after)
         = unparsable_count (List.map (parse_date_ddmmy L) before) before
           + 1
           + unparsable_count (List.map (parse_date_ddmmy L) after) after).
Proof.
  split; [vm_compute; reflexivity|].
  split; [vm_compute; reflexivity|].
  split; [vm_compute; reflexivity|].
  split; [vm_compute; reflexivity|].
  intros before after.
  rewrite !unparsable_count_rows.
  rewrite filter_app, length_app. cbn [filter].
  replace (unparsable_row L CNaN) with true by (vm_compute; reflexivity).
  cbn [List.length]. lia.
Qed.

(** C3, as it holds: once the sample of line 22 is read, the
    candidates are the detected guess, when there is one, then utf-8-sig,
    utf-8, latin1, windows-1252, in that order and without removing a
    repeated name; the first candidate under which the file parses is
    accepted and reported; when every candidate fails the file is read
    once more without an encoding, and when that fails too the exception
    raised is [last_err], the one of the read under windows-1252, the
    exception of the last read being dropped. With an abstaining detector
    and a file that parses under latin1 but under neither utf-8-sig nor
    utf-8, the third candidate is accepted. *)
Theorem C3_encoding_fallback (w : world) :
  open_error w = None ->
  let g := chardet_encoding w in
  let cands := candidates (tried g) in
  (g = None \/ g = Some [] -> cands = fallbacks)
  /\ (forall s, g = Some s -> s <> [] -> cands = s :: fallbacks)
  /\ (forall pre enc post df,
         cands = pre ++ enc :: post -> Forall (fails w) pre ->
         read_csv w (Some enc) = inr df ->
         load w = (Print_detected g :: failure_events w pre
                     ++ [Call_read_csv (Some enc); Print_read_ok enc], Ok df)
         /\ default_attempts (fst (load w)) = 0)
  /\ (Forall (fails w) cands ->
      (forall df, read_csv w None = inr df ->
                  load w = (Print_detected g :: failure_events w cands
                              ++ [Call_read_csv None; Print_default_ok], Ok df))
      /\ (forall e_last e_default,
             read_csv w (Some (py "windows-1252")) = inl e_last ->
             read_csv w None = inl e_default ->
             load w = (Print_detected g :: failure_events w cands
                         ++ [Call_read_csv None], Raise (ReadError e_last)))
      /\ default_attempts (fst (load w)) = 1)
  /\ (g = None -> fails w (py "utf-8-sig") -> fails w (py "utf-8") ->
      forall df, read_csv w (Some (py "latin1")) = inr df ->
                 load w = (Print_detected None
                             :: failure_events w [py "utf-8-sig"; py "utf-8"]
                             ++ [Call_read_csv (Some (py "latin1"));
                                 Print_read_ok (py "latin1")], Ok df)).
Proof.
  intros Ho g cands. subst g cands.
  split; [|split; [|split; [|split]]].
  - intros [->| ->]; reflexivity.
  - intros s -> Hs. apply LoadFacts.candidates_guess, Hs.
  - intros pre enc post df Hc Hp Hd.
    rewrite (LoadFacts.load_first_success _ _ Ho Hc Hp Hd).
    split; [reflexivity|].
    cbn [fst]. change (?x :: ?l ++ ?r) with ([x] ++ l ++ r).
    rewrite !LoadFacts.default_attempts_app,
      LoadFacts.default_attempts_failures. reflexivity.
  - intros Hc. split; [|split].
    + intros df Hd. apply LoadFacts.load_default; assumption.
    + intros e_last e_default Hl Hd.
      eapply LoadFacts.load_all_fail; eassumption.
    + destruct (read_csv w None) as [e|df] eqn:Hd.
      * destruct (LoadFacts.candidates_end (chardet_encoding w)) as [encs E].
        assert (Hw : fails w (py "windows-1252")).
        { rewrite E in Hc. apply Forall_app in Hc. destruct Hc as [_ Hc].
          inversion Hc; assumption. }
        destruct Hw as [e_last Hl].
        rewrite (LoadFacts.load_all_fail Ho Hc Hl Hd). cbn [fst].
        change (?x :: ?l ++ ?r) with ([x] ++ l ++ r).
        rewrite !LoadFacts.default_attempts_app,
          LoadFacts.default_attempts_failures. reflexivity.
      * rewrite (LoadFacts.load_default Ho Hc Hd). cbn [fst].
        change (?x :: ?l ++ ?r) with ([x] ++ l ++ r).
        rewrite !LoadFacts.default_attempts_app,
          LoadFacts.default_attempts_failures. reflexivity.
  - intros Hg H1 H2 df Hd.
    rewrite (@LoadFacts.load_first_success w [py "utf-8-sig"; py "utf-8"]
               (py "latin1") [py "windows-1252"] df).
    + rewrite Hg. reflexivity.
    + exact Ho.
    + rewrite Hg. reflexivity.
    + repeat constructor; assumption.
    + exact Hd.
Qed.

Lemma C3_encoding_fallback_witness :
  load latin1_world
  = (Print_detected None
       :: failure_events latin1_world [py "utf-8-sig"; py "utf-8"]
       ++ [Call_read_csv (Some (py "latin1")); Print_read_ok (py "latin1")],
     Ok sample_frame).
Proof.
  destruct (C3_encoding_fallback latin1_world eq_refl) as (_ & _ & _ & _ & H).
  apply H.
  - reflexivity.
  - exists (py "UnicodeDecodeError"). reflexivity.
  - exists (py "UnicodeDecodeError"). reflexivity.
  - reflexivity.
Defined.

(** C3 as stated fails: when no read parses, the last error met is the
    one of the read without encoding, here a [UnicodeDecodeError]; the
    exception raised is the one of the read under windows-1252, here a
    [ParserError]. *)
Lemma C3_counterexample :
  load unreadable_world
  = ([Print_detected None;
      Call_read_csv (Some (py "utf-8-sig"));
      Print_read_failed (py "utf-8-sig") (ReadError (py "UnicodeDecodeError"));
      Call_read_csv (Some (py "utf-8"));
      Print_read_failed (py "utf-8") (ReadError (py "UnicodeDecodeError"));
      Call_read_csv (Some (py "latin1"));
      Print_read_failed (py "latin1") (ReadError (py "ParserError"));
      Call_read_csv (Some (py "windows-1252"));
      Print_read_failed (py "windows-1252") (ReadError (py "ParserError"));
      Call_read_csv None],
     Raise (ReadError (py "ParserError")))
  /\ read_csv unreadable_world None = inl (py "UnicodeDecodeError")
  /\ ReadError (py "ParserError") <> ReadError (py "UnicodeDecodeError").
Proof.
  split; [vm_compute; reflexivity|].
  split; [reflexivity | discriminate].
Qed.

(* ------------------------------------------------------------------ *)
(** * The whole run *)

Module WholeRun.
Import Pandas PandasFacts RunFacts.

Lemma main_loaded (L : lib) (w : world) t df :
  path_exists w = true -> load w = (t, Ok df) ->
  main L w = (t ++ fst (process L w df), snd (process L w df)).
Proof.
  intros He Hl. unfold main. rewrite He. cbn [negb].
  apply (bind_Ok _ Hl).
Qed.

Lemma count_true_existsb {A} (f : A -> bool) (l : list A) :
  Nat.eqb (List.length (filter (fun b : bool => b) (List.map f l))) 0
  = negb (existsb f l).
Proof.
  induction l as [|a l IH]; [reflexivity|]. simpl.
  destruct (f a); simpl; [reflexivity | exact IH].
Qed.

Lemma with_iso_columns df sp ep :
  ~ In (py "start_date_iso") (columns df) ->
  ~ In (py "end_date_iso") (columns df) ->
  columns (with_iso df sp ep)
  = columns df ++ [py "start_date_iso"; py "end_date_iso"].
Proof.
  intros H1 H2. unfold with_iso. rewrite !set_result_columns.
  apply str_in_not_In in H1. rewrite H1.
  replace (str_in (py "end_date_iso") (columns df ++ [py "start_date_iso"]))
    with false.
  - rewrite <- app_assoc. reflexivity.
  - symmetry. apply str_in_not_In. intros H. apply in_app_or in H.
    destruct H as [H|[H|[]]]; [contradiction | discriminate].
Qed.

Lemma offending_cells_length (L : lib) (ss : list pystr) (l : list cell) :
  List.length l = List.length ss ->
  List.length (offending_cells L ss l)
  = List.length (filter (offending L) ss).
Proof.
  unfold offending_cells. revert ss; induction l as [|x l IH]; intros [|s ss];
    simpl; try reflexivity; try discriminate.
  intros H. injection H as H. destruct (offending L s); simpl; auto.
Qed.

Lemma existsb_filter {A} (f : A -> bool) (l : list A) :
  existsb f l = true -> 1 <= List.length (filter f l).
Proof.
  induction l as [|a l IH]; simpl; [discriminate|].
  destruct (f a); simpl; [lia | exact IH].
Qed.

(** A frame of lines 117, 119 has one to five rows. *)
Lemma sample_rows_frame (L : lib) (ss : list pystr) (ck cr ci : column) fr :
  List.length (col_data ck) = List.length ss ->
  In (Print_frame fr) (sample_rows L ss ck cr ci) ->
  1 <= len_df fr <= 5 /\ columns fr = [col_name ck; col_name cr; col_name ci].
Proof.
  intros Hl. unfold sample_rows.
  destruct (existsb (offending L) ss) eqn:E; [|intros []].
  intros [H|[]]. injection H as <-. split; [|reflexivity].
  change (1 <= List.length (firstn 5 (offending_cells L ss (col_data ck))) <= 5).
  rewrite length_firstn, offending_cells_length by exact Hl.
  pose proof (existsb_filter _ _ E). lia.
Qed.


Lemma rectangular_unpadded : rectangular unpadded_frame.
Proof.
  intros c H. simpl in H.
  repeat (destruct H as [<-|H]; [reflexivity|]). destruct H.
Qed.

Lemma rectangular_sample : rectangular sample_frame.
Proof.
  intros c H. simpl in H.
  repeat (destruct H as [<-|H]; [reflexivity|]). destruct H.
Qed.

End WholeRun.

(** C8: when [start_date] or [end_date] is no column of the loaded
    table the run stops with the [KeyError] of line 98, before any date
    is parsed; its message lists exactly the required columns that are
    absent: [['start_date']], [['end_date']] or
    [['start_date', 'end_date']]; with both present the check of lines
    95-98 raises nothing. *)
Theorem C8_missing_columns (L : lib) (w : world) (df : dataframe) :
  (forall c, In c (missing_required df)
             <-> In c required /\ ~ In c (columns df))
  /\ (~ In (py "start_date") (columns df) -> In (py "end_date") (columns df) ->
      check_required df
      = ([], Raise (KeyError (py "Missing required column(s): ['start_date']"))))
  /\ (In (py "start_date") (columns df) -> ~ In (py "end_date") (columns df) ->
      check_required df
      = ([], Raise (KeyError (py "Missing required column(s): ['end_date']"))))
  /\ (~ In (py "start_date") (columns df) ->
      ~ In (py "end_date") (columns df) ->
      check_required df
      = ([], Raise (KeyError
                      (py "Missing required column(s): ['start_date', 'end_date']"))))
  /\ (~ In (py "start_date") (columns df) \/ ~ In (py "end_date") (columns df) ->
      forall t, rectangular df -> path_exists w = true ->
                load w = (t, Ok df) ->
                main L w
                = (t ++ [Print_normalizing
                           (List.length (Pandas.object_columns df))],
                   snd (check_required df)))
  /\ (In (py "start_date") (columns df) -> In (py "end_date") (columns df) ->
      check_required df = ([], Ok tt)).
Proof.
  assert (Hcheck : missing_required df <> [] ->
                   check_required df
                   = ([], Raise (KeyError (missing_message (missing_required df))))).
  { intros Hm. unfold check_required.
    destruct (missing_required df); [congruence | reflexivity]. }
  split; [|split; [|split; [|split; [|split]]]].
  - intros c. unfold missing_required. rewrite filter_In, negb_true_iff.
    rewrite str_in_not_In. tauto.
  - intros H1 H2. unfold check_required, missing_required, required.
    cbn [filter]. apply str_in_not_In in H1. apply str_in_In in H2.
    rewrite H1, H2. reflexivity.
  - intros H1 H2. unfold check_required, missing_required, required.
    cbn [filter]. apply str_in_In in H1. apply str_in_not_In in H2.
    rewrite H1, H2. reflexivity.
  - intros H1 H2. unfold check_required, missing_required, required.
    cbn [filter]. apply str_in_not_In in H1. apply str_in_not_In in H2.
    rewrite H1, H2. reflexivity.
  - intros Hab t R He Hl.
    assert (Hm : missing_required df <> []).
    { unfold missing_required, required. cbn [filter].
      destruct Hab as [H|H]; apply str_in_not_In in H; rewrite H;
        cbn [negb]; [discriminate|].
      destruct (negb (str_in (py "start_date") (columns df))); discriminate. }
    rewrite (WholeRun.main_loaded L _ He Hl).
    rewrite (RunFacts.process_missing L w R Hm), (Hcheck Hm). reflexivity.
  - intros H1 H2. unfold check_required.
    rewrite (RunFacts.missing_required_nil _ H1 H2). reflexivity.
Qed.

Lemma C8_missing_columns_witness :
  check_required [mkColumn (py "start_date") DObject [CNaN]]
  = ([], Raise (KeyError (py "Missing required column(s): ['end_date']"))).
Proof.
  apply (proj1 (proj2 (proj2
           (C8_missing_columns latin_lib latin1_world
              [mkColumn (py "start_date") DObject [CNaN]])))).
  - left. reflexivity.
  - intros [H|[]]. discriminate.
Defined.




(** Lines 110-120 on a table that has the columns they read, the two
    ISO columns being columns of strings. *)
Lemma iso_check_report (L : lib) (df : dataframe) (us ue : nat)
  (ck cr cq cs ce : column) (ss se : list pystr) :
  rectangular df ->
  Pandas.getitem (py "event_id") df = Ok ck ->
  Pandas.getitem (py "start_date") df = Ok cr ->
  Pandas.getitem (py "end_date") df = Ok cq ->
  Pandas.getitem (py "start_date_iso") df = Ok cs ->
  col_dtype cs = DObject -> col_data cs = List.map CStr ss ->
  Pandas.getitem (py "end_date_iso") df = Ok ce ->
  col_dtype ce = DObject -> col_data ce = List.map CStr se ->
  List.length (col_data ck) = List.length ss
  /\ List.length (col_data ck) = List.length se
  /\ iso_check L df us ue
     = (Print_rows (len_df df) us ue
          :: (if existsb (offending L) ss || existsb (offending L) se
              then Print_iso_failed
                     :: sample_rows L ss ck cr cs ++ sample_rows L se ck cq ce
              else []),
        if existsb (offending L) ss || existsb (offending L) se
        then Raise iso_error else Ok tt).
Proof.
  intros R Gk Gr Gq Gs Ts Ds Ge Te De.
  pose proof (@RunFacts.bad_iso_present L _ _ _ _ _ _ _ Gk Gr Gs Ts Ds) as Bs.
  pose proof (@RunFacts.bad_iso_present L _ _ _ _ _ _ _ Gk Gq Ge Te De) as Be.
  cbv zeta in Bs, Be.
  assert (Lk : List.length (col_data ck) = len_df df)
    by (apply R, (PandasFacts.getitem_Ok _ _ Gk)).
  assert (Ls : List.length ss = len_df df).
  { rewrite <- (R cs) by apply (PandasFacts.getitem_Ok _ _ Gs).
    rewrite Ds, length_map. reflexivity. }
  assert (Le : List.length se = len_df df).
  { rewrite <- (R ce) by apply (PandasFacts.getitem_Ok _ _ Ge).
    rewrite De, length_map. reflexivity. }
  split; [congruence|]. split; [congruence|].
  destruct (PandasFacts.getitem_Ok _ _ Gk) as [_ Nk].
  destruct (PandasFacts.getitem_Ok _ _ Gr) as [_ Nr].
  destruct (PandasFacts.getitem_Ok _ _ Gq) as [_ Nq].
  destruct (PandasFacts.getitem_Ok _ _ Gs) as [_ Ns].
  destruct (PandasFacts.getitem_Ok _ _ Ge) as [_ Ne].
  rewrite (@RunFacts.iso_check_eq L df us ue _ _ Bs Be).
  unfold Pandas.empty, Pandas.head, sample_rows, offending_cells.
  cbn [columns List.map is_empty orb len_df col_data col_name col_dtype].
  rewrite !PandasFacts.select_length by (rewrite length_map; congruence).
  rewrite !WholeRun.count_true_existsb, !negb_involutive.
  rewrite <- !PandasFacts.select_filter, Nk, Nr, Nq, Ns, Ne.
  destruct (existsb (offending L) ss), (existsb (offending L) se); reflexivity.
Qed.

(** C4: lines 110-120 end the run with the formatting [ValueError]
    exactly when a row of [start_date_iso] or of [end_date_iso] holds a
    non-empty string that fails [ISO_RE]; they then print, after the line
    of counts and the line announcing the failure, one frame for each
    column that offends: its first five offending rows at most, as
    [event_id], raw value and ISO value; the export is not reached; an
    empty ISO string never offends and the counts of unparsable values
    play no part. In a run of [main] no produced ISO string offends, the
    formatting [ValueError] is not raised, and a run that ends in an
    exception has written no output file. *)
Theorem C4_iso_check_aborts (L : lib) (w : world) :
  (forall df us ue ck cr cq cs ce ss se,
      rectangular df ->
      Pandas.getitem (py "event_id") df = Ok ck ->
      Pandas.getitem (py "start_date") df = Ok cr ->
      Pandas.getitem (py "end_date") df = Ok cq ->
      Pandas.getitem (py "start_date_iso") df = Ok cs ->
      col_dtype cs = DObject -> col_data cs = List.map CStr ss ->
      Pandas.getitem (py "end_date_iso") df = Ok ce ->
      col_dtype ce = DObject -> col_data ce = List.map CStr se ->
      let bad := existsb (offending L) ss || existsb (offending L) se in
      (snd (iso_check L df us ue) = Raise iso_error
       <-> exists s, (In s ss \/ In s se) /\ s <> []
                     /\ iso_re_match L s = false)
      /\ (snd (iso_check L df us ue) = Raise iso_error
          \/ snd (iso_check L df us ue) = Ok tt)
      /\ iso_check L df us ue
         = (Print_rows (len_df df) us ue
              :: (if bad
                  then Print_iso_failed
                         :: sample_rows L ss ck cr cs
                         ++ sample_rows L se ck cq ce
                  else []),
            if bad then Raise iso_error else Ok tt)
      /\ (snd (iso_check L df us ue) = Raise iso_error ->
          exists fr, In (Print_frame fr) (fst (iso_check L df us ue)))
      /\ (forall fr, In (Print_frame fr) (fst (iso_check L df us ue)) ->
                     1 <= len_df fr <= 5
                     /\ (columns fr = [py "event_id"; py "start_date";
                                       py "start_date_iso"]
                         \/ columns fr = [py "event_id"; py "end_date";
                                          py "end_date_iso"]))
      /\ (snd (iso_check L df us ue) = Raise iso_error ->
          (iso_check L df us ue ;;; export w df)
          = (fst (iso_check L df us ue), Raise iso_error)
          /\ no_write (fst (iso_check L df us ue)))
      /\ snd (iso_check L df us ue) = snd (iso_check L df 0 0))
  /\ offending L [] = false
  /\ (forall d, offending L (iso_or_empty d) = false)
  /\ (forall t e, main L w = (t, Raise e) -> no_write t /\ e <> iso_error).
Proof.
  split; [|split; [|split]].
  - intros df us ue ck cr cq cs ce ss se R Gk Gr Gq Gs Ts Ds Ge Te De bad.
    assert (Hrun : forall a b, iso_check L df a b
              = (Print_rows (len_df df) a b
                   :: (if bad
                       then Print_iso_failed
                              :: sample_rows L ss ck cr cs
                              ++ sample_rows L se ck cq ce
                       else []),
                 if bad then Raise iso_error else Ok tt)).
    { intros a b.
      apply (@iso_check_report L df a b ck cr cq cs ce ss se); assumption. }
    destruct (@iso_check_report L df us ue ck cr cq cs ce ss se)
      as (Lks & Lke & _); try assumption.
    destruct (PandasFacts.getitem_Ok _ _ Gk) as [_ Nk].
    destruct (PandasFacts.getitem_Ok _ _ Gr) as [_ Nr].
    destruct (PandasFacts.getitem_Ok _ _ Gq) as [_ Nq].
    destruct (PandasFacts.getitem_Ok _ _ Gs) as [_ Ns].
    destruct (PandasFacts.getitem_Ok _ _ Ge) as [_ Ne].
    assert (Hbad : bad = true
                   <-> exists s, (In s ss \/ In s se) /\ s <> []
                                 /\ iso_re_match L s = false).
    { unfold bad. rewrite orb_true_iff, !existsb_exists. unfold offending.
      split.
      - intros [(s & Hin & H)|(s & Hin & H)];
          apply andb_true_iff in H; destruct H as [H1 H2];
          apply negb_true_iff in H1, H2; exists s.
        + split; [left; exact Hin|]. split; [|exact H2].
          intros ->. discriminate.
        + split; [right; exact Hin|]. split; [|exact H2].
          intros ->. discriminate.
      - intros (s & Hin & Hne & Hm).
        assert (Ho : negb (is_empty s) && negb (iso_re_match L s) = true).
        { rewrite Hm. destruct s; [congruence | reflexivity]. }
        destruct Hin as [Hin|Hin]; [left | right]; exists s; auto. }
    rewrite !Hrun. cbn [fst snd].
    split; [|split; [|split; [|split; [|split; [|split]]]]].
    + rewrite <- Hbad. destruct bad; split; congruence.
    + destruct bad; auto.
    + reflexivity.
    + intros Hr. destruct bad eqn:Eb; [|discriminate].
      unfold bad in Eb. unfold sample_rows.
      destruct (existsb (offending L) ss).
      * eexists. right. right. left. reflexivity.
      * cbn [orb] in Eb. rewrite Eb. eexists. right. right. left. reflexivity.
    + intros fr Hin. destruct Hin as [Hin|Hin]; [discriminate|].
      destruct bad; [|destruct Hin].
      destruct Hin as [Hin|Hin]; [discriminate|].
      apply in_app_or in Hin. destruct Hin as [Hin|Hin].
      * destruct (WholeRun.sample_rows_frame L ss ck cr cs fr Lks Hin)
          as [Hn Hc].
        split; [exact Hn|]. left. rewrite Hc, Nk, Nr, Ns. reflexivity.
      * destruct (WholeRun.sample_rows_frame L se ck cq ce fr Lke Hin)
          as [Hn Hc].
        split; [exact Hn|]. right. rewrite Hc, Nk, Nq, Ne. reflexivity.
    + intros Hr. destruct bad; [|discriminate].
      split; [reflexivity|]. constructor; [reflexivity|].
      constructor; [reflexivity|].
      unfold sample_rows. apply Forall_app. split.
      * destruct (existsb (offending L) ss); repeat constructor.
      * destruct (existsb (offending L) se); repeat constructor.
    + reflexivity.
  - reflexivity.
  - apply DateFacts.offending_iso.
  - intros t e H. apply RunFacts.main_abort in H. destruct H as [Hw He].
    split; [exact Hw|]. intros ->. discriminate.
Qed.

Lemma C4_iso_check_aborts_witness :
  iso_check latin_lib unpadded_frame 0 1
  = ([Print_rows 2 0 1; Print_iso_failed;
      Print_frame
        [mkColumn (py "event_id") DInt64 [CInt 7];
         mkColumn (py "start_date") DObject [CStr (py "5/3/24")];
         mkColumn (py "start_date_iso") DObject [CStr (py "2024-3-5")]]],
     Raise iso_error).
Proof.
  refine (eq_trans
            (proj1 (proj2 (proj2
               (proj1 (C4_iso_check_aborts latin_lib latin1_world)
                  unpadded_frame 0 1
                  (mkColumn (py "event_id") DInt64 [CInt 7; CInt 8])
                  (mkColumn (py "start_date") DObject
                     [CStr (py "5/3/24"); CNaN])
                  (mkColumn (py "end_date") DObject
                     [CStr (py "05/03/2024"); CNaN])
                  (mkColumn (py "start_date_iso") DObject
                     [CStr (py "2024-3-5"); CStr (py "")])
                  (mkColumn (py "end_date_iso") DObject
                     [CStr (py "2024-03-05"); CStr (py "")])
                  [py "2024-3-5"; py ""] [py "2024-03-05"; py ""]
                  WholeRun.rectangular_unpadded
                  eq_refl eq_refl eq_refl eq_refl eq_refl eq_refl
                  eq_refl eq_refl eq_refl)))) _).
  vm_compute. reflexivity.
Defined.

(** C5, as it holds: when the loaded table has [N] rows, one at least,
    and columns [C], among them [event_id], [start_date] and [end_date]
    and neither [start_date_iso] nor [end_date_iso], the run writes one
    table, of [N] rows and of columns [C] followed by [start_date_iso]
    and [end_date_iso], to the output path, UTF-8 with signature, with the
    header row and without the index. No column of the loaded table is
    removed or replaced by another: under its name the exported table
    holds the loaded column, its cells normalised when it is a text
    column. *)
Theorem C5_export_shape (L : lib) (w : world) (t : list event)
  (df : dataframe) :
  path_exists w = true -> load w = (t, Ok df) -> rectangular df ->
  0 < len_df df ->
  NoDup (Pandas.object_columns df) ->
  In (py "event_id") (columns df) ->
  In (py "start_date") (columns df) ->
  In (py "end_date") (columns df) ->
  ~ In (py "start_date_iso") (columns df) ->
  ~ In (py "end_date_iso") (columns df) ->
  exists k us ue out,
    main L w
    = (t ++ [Print_normalizing k; Print_rows (len_df df) us ue;
             To_csv OUTPUT_CSV out false true (py "utf-8-sig");
             Print_wrote (abspath w OUTPUT_CSV)], Ok tt)
    /\ no_write t
    /\ len_df out = len_df df
    /\ columns out = columns df ++ [py "start_date_iso"; py "end_date_iso"]
    /\ forall name c,
         Pandas.getitem name df = Ok c ->
         Pandas.getitem name out
         = Ok (mkColumn name (col_dtype c) (normalized_cells L df name c))
         /\ List.length (normalized_cells L df name c)
            = List.length (col_data c).
Proof.
  intros He Hl R Hrows Hnd Hk Hs Hend N1 N2.
  destruct (RunFacts.process_runs L w R Hrows Hk Hs Hend)
    as (dfn & cs & ce & En & Cn & _ & _ & H).
  cbv zeta in H. destruct H as [Hlen H].
  rewrite (WholeRun.main_loaded L _ He Hl), H. cbn [fst snd].
  do 4 eexists. split; [reflexivity|]. split; [|split; [|split]].
  - pose proof (RunFacts.quiet_load w) as Q. rewrite Hl in Q. apply Q.
  - exact Hlen.
  - rewrite WholeRun.with_iso_columns by (rewrite Cn; assumption).
    rewrite Cn. reflexivity.
  - intros name c G. split.
    + assert (Hin : In name (columns df)).
      { destruct (PandasFacts.getitem_Ok _ _ G) as [Hc <-]. apply in_map, Hc. }
      apply RunFacts.getitem_with_iso_other;
        [intros -> ; contradiction | intros ->; contradiction |].
      apply (@RunFacts.normalize_columns_cells L _ _ _ _ Hnd En G).
    + unfold normalized_cells.
      destruct (str_in name (Pandas.object_columns df));
        [apply length_map | reflexivity].
Qed.

Lemma C5_export_shape_witness :
  exists k us ue out,
    main latin_lib latin1_world
    = (fst (load latin1_world)
         ++ [Print_normalizing k; Print_rows 3 us ue;
             To_csv OUTPUT_CSV out false true (py "utf-8-sig");
             Print_wrote (abspath latin1_world OUTPUT_CSV)], Ok tt)
    /\ len_df out = 3
    /\ columns out
       = [py "event_id"; py "brand"; py "start_date"; py "end_date";
          py "start_date_iso"; py "end_date_iso"].
Proof.
  destruct (@C5_export_shape latin_lib latin1_world
              (fst (load latin1_world)) sample_frame)
    as (k & us & ue & out & H & _ & Hn & Hc & _).
  - reflexivity.
  - reflexivity.
  - exact WholeRun.rectangular_sample.
  - simpl. lia.
  - vm_compute. repeat constructor; simpl; intuition discriminate.
  - vm_compute. tauto.
  - vm_compute. tauto.
  - vm_compute. tauto.
  - intros H. vm_compute in H.
    repeat (destruct H as [H|H]; [discriminate|]). exact H.
  - intros H. vm_compute in H.
    repeat (destruct H as [H|H]; [discriminate|]). exact H.
  - exists k, us, ue, out. auto.
Defined.

(** C5 as stated fails, in two ways. When the loaded table already has
    a column named [start_date_iso], line 103 overwrites that column where
    it stands, so the exported columns are not the loaded ones followed by
    the two derived names, and the values the column held are gone. And on
    a file that holds the header row only nothing is exported: the run
    stops in line 110. *)
Lemma C5_counterexample :
  (exists out,
     main latin_lib taken_world
     = ([Print_detected (Some (py "ascii")); Call_read_csv (Some (py "ascii"));
         Print_read_ok (py "ascii"); Print_normalizing 3; Print_rows 2 1 1;
         To_csv OUTPUT_CSV out false true (py "utf-8-sig");
         Print_wrote (abspath taken_world OUTPUT_CSV)], Ok tt)
     /\ columns out
        = [py "event_id"; py "start_date_iso"; py "start_date"; py "end_date";
           py "end_date_iso"]
     /\ columns out
        <> columns taken_frame ++ [py "start_date_iso"; py "end_date_iso"]
     /\ Pandas.getitem (py "start_date_iso") taken_frame
        = Ok (mkColumn (py "start_date_iso") DObject
                [CStr (py "2024-03-04"); CNaN])
     /\ Pandas.getitem (py "start_date_iso") out
        = Ok (mkColumn (py "start_date_iso") DObject
                [CStr (py "2024-03-05"); CStr (py "")]))
  /\ len_df header_only_frame = 0
  /\ main latin_lib header_only_world
     = ([Print_detected (Some (py "ascii"));
         Call_read_csv (Some (py "ascii")); Print_read_ok (py "ascii");
         Print_normalizing 3],
        Raise Pandas.str_accessor_error).
Proof.
  split; [|split; [reflexivity | vm_compute; reflexivity]].
  eexists. split; [vm_compute; reflexivity|].
  split; [vm_compute; reflexivity|].
  split; [vm_compute; discriminate|].
  split; vm_compute; reflexivity.
Qed.

(* ------------------------------------------------------------------ *)
(** * Further properties: whitespace *)

Module StripFacts.
Import PyStr.

Lemma lstrip_spaces (ws s : pystr) :
  Forall (fun c => isspace c = true) ws -> lstrip (ws ++ s) = lstrip s.
Proof.
  induction 1 as [|c ws Hc _ IH]; [reflexivity|]. simpl. rewrite Hc. exact IH.
Qed.

Lemma lstrip_head (c : codepoint) (s : pystr) :
  isspace c = false -> lstrip (c :: s) = c :: s.
Proof. intros H. simpl. rewrite H. reflexivity. Qed.

Lemma lstrip_app (s t : pystr) :
  lstrip s <> [] -> lstrip (s ++ t) = lstrip s ++ t.
Proof.
  induction s as [|c s IH]; simpl; [congruence|].
  destruct (isspace c); [exact IH | reflexivity].
Qed.

Lemma lstrip_all_space (s : pystr) :
  lstrip s = [] -> Forall (fun c => isspace c = true) s.
Proof.
  induction s as [|c s IH]; simpl; [constructor|].
  destruct (isspace c) eqn:E; [|discriminate]. intros H. constructor; auto.
Qed.

(** Whitespace around a string does not change what [strip] returns. *)
Lemma strip_padding (ws1 s ws2 : pystr) :
  Forall (fun c => isspace c = true) ws1 ->
  Forall (fun c => isspace c = true) ws2 ->
  strip (ws1 ++ s ++ ws2) = strip s.
Proof.
  intros H1 H2. unfold strip. rewrite (lstrip_spaces _ H1).
  destruct (lstrip s) as [|c r] eqn:E.
  - apply lstrip_all_space in E.
    assert (A : lstrip (s ++ ws2) = []).
    { rewrite (lstrip_spaces _ E). rewrite <- (app_nil_r ws2).
      rewrite (lstrip_spaces _ H2). reflexivity. }
    rewrite A. reflexivity.
  - rewrite lstrip_app by congruence. rewrite E, rev_app_distr.
    rewrite lstrip_spaces by (apply Forall_rev; exact H2). reflexivity.
Qed.

Lemma strip_fixed (s : pystr) :
  (forall c r, s = c :: r -> isspace c = false) ->
  (forall p c, s = p ++ [c] -> isspace c = false) ->
  strip s = s.
Proof.
  intros Hh Hl. unfold strip.
  assert (A : lstrip s = s).
  { destruct s as [|c r]; [reflexivity|]. apply lstrip_head. eapply Hh.
    reflexivity. }
  rewrite A.
  assert (B : lstrip (rev s) = rev s).
  { destruct (rev s) as [|c r] eqn:E; [reflexivity|]. apply lstrip_head.
    apply (Hl (rev r) c). rewrite <- (rev_involutive s), E. reflexivity. }
  rewrite B. apply rev_involutive.
Qed.

Lemma strip_nonspace (s : pystr) :
  Forall (fun c => isspace c = false) s -> strip s = s.
Proof.
  intros H. rewrite Forall_forall in H. apply strip_fixed.
  - intros c r ->. apply H. left; reflexivity.
  - intros p c ->. apply H. apply in_or_app. right. left; reflexivity.
Qed.

(** The first and the last character of words joined by spaces. *)
Lemma join_head (w : pystr) (ws : list pystr) (c : codepoint) (r : pystr) :
  word w -> join [space] (w :: ws) = c :: r -> isspace c = false.
Proof.
  intros [Hne Hw] E. destruct w as [|a w]; [congruence|].
  assert (c = a) by (destruct ws; simpl in E; congruence). subst.
  inversion Hw; assumption.
Qed.

Lemma join_last (ws : list pystr) (p : pystr) (c : codepoint) :
  Forall word ws -> join [space] ws = p ++ [c] -> isspace c = false.
Proof.
  intros H; revert p. induction H as [|w ws [Hne Hw] Hws IH]; intros p E.
  - destruct p; discriminate.
  - destruct ws as [|w' ws'].
    + simpl in E. rewrite Forall_forall in Hw. apply Hw. rewrite E.
      apply in_or_app. right. left; reflexivity.
    + change (join [space] (w :: w' :: ws'))
        with (w ++ space :: join [space] (w' :: ws')) in E.
      destruct (exists_last (l := join [space] (w' :: ws'))) as (q & d & Eq).
      { inversion Hws as [|? ? [Hne' _] _]; subst.
        destruct w'; [congruence|]. destruct ws'; discriminate. }
      rewrite Eq in E.
      assert (E' : (w ++ space :: q) ++ [d] = p ++ [c])
        by (rewrite <- E, <- app_assoc; reflexivity).
      apply app_inj_tail in E'. destruct E' as [_ <-].
      apply (IH q Eq).
Qed.

Lemma join_filter (f : codepoint -> bool) (ws : list pystr) :
  f space = false ->
  filter f (join [space] ws) = flat_map (filter f) ws.
Proof.
  intros Hf. induction ws as [|w ws IH]; [reflexivity|].
  destruct ws as [|w' ws'].
  - simpl. rewrite app_nil_r. reflexivity.
  - change (join [space] (w :: w' :: ws'))
      with (w ++ space :: join [space] (w' :: ws')).
    rewrite filter_app. cbn [filter]. rewrite Hf, IH. reflexivity.
Qed.

Lemma split_from_filter (cur s : pystr) :
  Forall (fun c => isspace c = false) cur ->
  flat_map (filter nonspace) (split_from cur s)
  = rev cur ++ filter nonspace s.
Proof.
  revert cur; induction s as [|c s IH]; intros cur Hc.
  - assert (A : filter nonspace (rev cur) = rev cur).
    { apply forallb_filter_id. apply forallb_forall. intros x Hx.
      apply in_rev in Hx. rewrite Forall_forall in Hc. unfold nonspace.
      rewrite (Hc x Hx). reflexivity. }
    simpl. destruct cur as [|a cur]; [reflexivity|].
    cbn [is_empty flat_map]. rewrite A, !app_nil_r. reflexivity.
  - cbn [split_from filter]. unfold nonspace at 2.
    destruct (isspace c) eqn:E; cbn [negb].
    + assert (A : filter nonspace (rev cur) = rev cur).
      { apply forallb_filter_id. apply forallb_forall. intros x Hx.
        apply in_rev in Hx. rewrite Forall_forall in Hc. unfold nonspace.
        rewrite (Hc x Hx). reflexivity. }
      destruct cur as [|a cur].
      * cbn [is_empty]. rewrite IH by constructor. reflexivity.
      * cbn [is_empty flat_map]. rewrite A, IH by constructor. reflexivity.
    + rewrite IH by (constructor; assumption). cbn [rev].
      rewrite <- app_assoc. reflexivity.
Qed.

Lemma split_from_leading (ws s : pystr) :
  Forall (fun c => isspace c = true) ws ->
  split_from [] (ws ++ s) = split_from [] s.
Proof.
  induction 1 as [|c ws Hc _ IH]; [reflexivity|]. simpl. rewrite Hc. exact IH.
Qed.

Lemma split_from_trailing (cur ws : pystr) :
  cur <> [] -> Forall (fun c => isspace c = true) ws ->
  split_from cur ws = [rev cur].
Proof.
  intros Hne H. destruct H as [|c ws Hc Hws].
  - apply PyStrFacts.split_from_end, Hne.
  - destruct cur as [|a cur]; [congruence|]. simpl. rewrite Hc. f_equal.
    rewrite <- (app_nil_r ws). rewrite (split_from_leading _ Hws). reflexivity.
Qed.

(** A word between whitespace is the only word. *)
Lemma split_padded (ws1 s ws2 : pystr) :
  s <> [] -> Forall (fun c => isspace c = false) s ->
  Forall (fun c => isspace c = true) ws1 ->
  Forall (fun c => isspace c = true) ws2 ->
  split (ws1 ++ s ++ ws2) = [s].
Proof.
  intros Hne Hs H1 H2. unfold split. rewrite (split_from_leading _ H1).
  rewrite PyStrFacts.split_from_word by exact Hs. rewrite app_nil_r.
  rewrite split_from_trailing;
    [rewrite rev_involutive; reflexivity | | exact H2].
  intros E. apply Hne. rewrite <- (rev_involutive s), E. reflexivity.
Qed.

End StripFacts.

(* ------------------------------------------------------------------ *)
(** * Further properties: [remove_diacritics] *)

(** X1: the string [remove_diacritics] returns is in whitespace normal
    form: stripping it or splitting it and joining the words with one
    space gives it back, and the only whitespace character it holds is
    U+0020. *)
Theorem X1_remove_diacritics_whitespace_normal (L : lib) (t : pystr) :
  remove_diacritics L (CStr t) = CStr (stripped L t)
  /\ PyStr.strip (stripped L t) = stripped L t
  /\ PyStr.join (py " ") (PyStr.split (stripped L t)) = stripped L t
  /\ (forall c, In c (stripped L t) -> PyStr.isspace c = true ->
                c = PyStr.space).
Proof.
  pose proof (PyStrFacts.split_words
                (filter (kept L) (Unicode.nfkd L t))) as W.
  split; [reflexivity|]. unfold stripped. change (py " ") with [PyStr.space].
  split; [|split].
  - apply StripFacts.strip_fixed.
    + intros c r E.
      destruct (PyStr.split (filter (kept L) (Unicode.nfkd L t)))
        as [|w ws]; [discriminate|].
      inversion W; subst. eapply StripFacts.join_head; eassumption.
    + intros p c E. eapply StripFacts.join_last; eassumption.
  - rewrite PyStrFacts.split_join by exact W. reflexivity.
  - intros c Hc Hs. apply PyStrFacts.in_join in Hc.
    destruct Hc as [[<-|[]]|(x & Hx & Hc)]; [reflexivity|].
    rewrite Forall_forall in W. destruct (W x Hx) as [_ Hw].
    rewrite Forall_forall in Hw. rewrite (Hw c Hc) in Hs. discriminate.
Qed.

Lemma remove_diacritics_ascii_only (L : lib) (t : pystr) :
  forallb PyStr.is_ascii t = true ->
  remove_diacritics L (CStr t)
  = CStr (PyStr.join (py " ") (PyStr.split t)).
Proof.
  intros H. rewrite forallb_forall in H.
  rewrite UnicodeFacts.remove_diacritics_str. unfold stripped, Unicode.nfkd.
  assert (Hd : Forall (fun c => Unicode.decomposition L c = [c]) t).
  { apply Forall_forall. intros c Hc. unfold Unicode.decomposition.
    rewrite (H c Hc). reflexivity. }
  assert (Hk : Forall (fun c => kept L c = true) t).
  { apply Forall_forall. intros c Hc. unfold kept, Unicode.combining.
    rewrite (H c Hc). reflexivity. }
  rewrite (@UnicodeFacts.flat_map_fixed L t Hd).
  rewrite (@UnicodeFacts.canonical_order_kept L t Hk).
  rewrite (@UnicodeFacts.filter_all L t Hk). reflexivity.
Qed.

(** X2: on a string of ASCII characters [remove_diacritics] only
    normalises whitespace: the result is the words of the input joined by
    single spaces, so a blank string becomes the empty string. *)
Theorem X2_remove_diacritics_ascii (L : lib) (t : pystr) :
  forallb PyStr.is_ascii t = true ->
  remove_diacritics L (CStr t)
  = CStr (PyStr.join (py " ") (PyStr.split t)).
Proof. apply remove_diacritics_ascii_only. Qed.

Lemma X2_remove_diacritics_ascii_witness :
  remove_diacritics latin_lib (CStr (py "  Lumi   Lab "))
  = CStr (py "Lumi Lab")
  /\ remove_diacritics latin_lib (CStr (py "   ")) = CStr (py "").
Proof.
  split.
  - refine (eq_trans (X2_remove_diacritics_ascii latin_lib
                        (py "  Lumi   Lab ") _) _); vm_compute; reflexivity.
  - refine (eq_trans (X2_remove_diacritics_ascii latin_lib (py "   ") _) _);
      vm_compute; reflexivity.
Defined.

(** X3: the characters of the result other than whitespace are, in the
    order of the input, the characters of combining class 0 of the
    decompositions of the input's characters: base characters are never
    dropped, added or reordered, and the canonical reordering of NFKD
    does not show in the result. *)
Theorem X3_remove_diacritics_keeps_base_order (L : lib) (t : pystr) :
  filter nonspace (stripped L t)
  = filter nonspace
      (filter (kept L) (flat_map (Unicode.decomposition L) t)).
Proof.
  unfold stripped. change (py " ") with [PyStr.space].
  rewrite StripFacts.join_filter by reflexivity.
  unfold PyStr.split. rewrite StripFacts.split_from_filter by constructor.
  unfold Unicode.nfkd. rewrite UnicodeFacts.kept_canonical_order.
  reflexivity.
Qed.

(* ------------------------------------------------------------------ *)
(** * Further properties: the strict formats *)

Module StrptimeFacts.
Import Strptime.

Lemma N_in_seq (lo len : nat) (n : N) :
  (N.of_nat lo <= n < N.of_nat (lo + len))%N ->
  In n (List.map N.of_nat (seq lo len)).
Proof.
  intros H. apply in_map_iff. exists (N.to_nat n). split; [apply N2Nat.id|].
  apply in_seq. lia.
Qed.

Section WithLib.
Variable L : lib.

Ltac eval_render :=
  match goal with
  | |- context [render2 ?b ?n] =>
      let s := eval vm_compute in (render2 b n) in
      change (render2 b n) with s
  end.

Ltac enumerate H :=
  simpl in H;
  repeat (destruct H as [H|H]; [subst|]); [..|destruct H].

Lemma match_day (pd : bool) (d : N) (its : list item) (g : groups)
  (r : pystr) :
  (1 <= d <= 31)%N ->
  match_items L (Day :: Lit 47 :: its) g (render2 pd d ++ 47%N :: r)
  = match_items L its (mkGroups (Some d) (g_m g) (g_y g) (g_Y g)) r.
Proof.
  intros H. assert (E : In d (List.map N.of_nat (seq 1 31)))
    by (apply N_in_seq; lia).
  clear H. enumerate E; destruct pd; eval_render;
    cbn; rewrite ?app_nil_r; reflexivity.
Qed.

Lemma match_month (pm : bool) (m : N) (its : list item) (g : groups)
  (r : pystr) :
  (1 <= m <= 12)%N ->
  match_items L (Month :: Lit 47 :: its) g (render2 pm m ++ 47%N :: r)
  = match_items L its (mkGroups (g_d g) (Some m) (g_y g) (g_Y g)) r.
Proof.
  intros H. assert (E : In m (List.map N.of_nat (seq 1 12)))
    by (apply N_in_seq; lia).
  clear H. enumerate E; destruct pm; eval_render;
    cbn; rewrite ?app_nil_r; reflexivity.
Qed.

Lemma below (f : N -> bool) (n : nat) (y : N) :
  forallb (fun k => f (N.of_nat k)) (seq 0 n) = true ->
  (y < N.of_nat n)%N -> f y = true.
Proof.
  intros A H. rewrite forallb_forall in A. rewrite <- (N2Nat.id y).
  apply A. apply in_seq. lia.
Qed.

Lemma re_year4_rendered (y : N) :
  (y <= 9999)%N -> re_year4 L (PyStr.zero_pad 4 y) = [(y, [])].
Proof.
  intros H.
  assert (A : year4_found L y = true).
  { apply (@below (year4_found L) (100 * 100)); [vm_compute; reflexivity | lia]. }
  unfold year4_found in A.
  destruct (re_year4 L (PyStr.zero_pad 4 y)) as [|[v [|c r]] [|x l]];
    try discriminate.
  apply N.eqb_eq in A. subst. reflexivity.
Qed.

Lemma re_year2_rendered (y : N) :
  (y <= 99)%N -> re_year2 L (PyStr.zero_pad 2 y) = [(y, [])].
Proof.
  intros H.
  assert (A : year2_found L y = true).
  { apply (@below (year2_found L) 100); [vm_compute; reflexivity | lia]. }
  unfold year2_found in A.
  destruct (re_year2 L (PyStr.zero_pad 2 y)) as [|[v [|c r]] [|x l]];
    try discriminate.
  apply N.eqb_eq in A. subst. reflexivity.
Qed.

Lemma re_year2_of_four (y : N) :
  (y <= 9999)%N ->
  exists v c r, re_year2 L (PyStr.zero_pad 4 y) = [(v, c :: r)].
Proof.
  intros H.
  assert (A : year2_short L y = true).
  { apply (@below (year2_short L) (100 * 100)); [vm_compute; reflexivity | lia]. }
  unfold year2_short in A.
  destruct (re_year2 L (PyStr.zero_pad 4 y)) as [|[v [|c r]] [|x l]];
    try discriminate.
  eauto.
Qed.

Lemma format_y : items_of_format (py "%d/%m/%y")
                 = Some [Day; Lit 47; Month; Lit 47; Year2].
Proof. reflexivity. Qed.

Lemma format_Y : items_of_format (py "%d/%m/%Y")
                 = Some [Day; Lit 47; Month; Lit 47; Year4].
Proof. reflexivity. Qed.

(** [%d/%m/%Y] on a date written with a four-digit year. *)
Lemma strptime_Y_rendered (pd pm : bool) (y m d : N) :
  (1 <= d <= 31)%N -> (1 <= m <= 12)%N -> (y <= 9999)%N ->
  strptime_date L (render_dmY pd pm y m d) (py "%d/%m/%Y")
  = Calendar.date_new y m d.
Proof.
  intros Hd Hm Hy. unfold strptime_date. rewrite format_Y.
  unfold render_dmY. repeat change (py "/" ++ ?x) with (47%N :: x).
  rewrite (match_day pd _ _ _ Hd), (match_month pm _ _ _ Hm).
  cbn [match_items]. rewrite (re_year4_rendered Hy). reflexivity.
Qed.

(** [%d/%m/%y] leaves the last two digits of a four-digit year
    unconverted. *)
Lemma strptime_y_four_digits (pd pm : bool) (y m d : N) :
  (1 <= d <= 31)%N -> (1 <= m <= 12)%N -> (y <= 9999)%N ->
  strptime_date L (render_dmY pd pm y m d) (py "%d/%m/%y") = None.
Proof.
  intros Hd Hm Hy. unfold strptime_date. rewrite format_y.
  unfold render_dmY. repeat change (py "/" ++ ?x) with (47%N :: x).
  rewrite (match_day pd _ _ _ Hd), (match_month pm _ _ _ Hm).
  cbn [match_items]. destruct (re_year2_of_four Hy) as (v & c & r & E).
  rewrite E. reflexivity.
Qed.

(** [%d/%m/%y] on a date written with a two-digit year. *)
Lemma strptime_y_rendered (pd pm : bool) (y m d : N) :
  (1 <= d <= 31)%N -> (1 <= m <= 12)%N ->
  strptime_date L (render_dmy pd pm y m d) (py "%d/%m/%y")
  = Calendar.date_new (pivot (y mod 100)) m d.
Proof.
  intros Hd Hm. unfold strptime_date. rewrite format_y.
  unfold render_dmy. repeat change (py "/" ++ ?x) with (47%N :: x).
  rewrite (match_day pd _ _ _ Hd), (match_month pm _ _ _ Hm).
  cbn [match_items].
  rewrite re_year2_rendered
    by (pose proof (N.mod_upper_bound y 100); lia).
  reflexivity.
Qed.

Lemma date_char_cases (c : codepoint) :
  date_char c = true -> In c (List.map N.of_nat (seq 47 11)).
Proof.
  unfold date_char, is_ascii_digit, PyStr.in_range. intros H.
  apply N_in_seq. apply orb_true_iff in H. destruct H as [H|H].
  - apply andb_true_iff in H. destruct H as [H1 H2].
    apply N.leb_le in H1, H2. lia.
  - apply N.eqb_eq in H. subst. lia.
Qed.

Lemma date_char_plain (c : codepoint) :
  date_char c = true ->
  PyStr.isspace c = false /\ PyStr.is_ascii c = true
  /\ PyStr.ascii_lower c = c /\ N.eqb c 110 = false.
Proof.
  intros H. apply date_char_cases in H. enumerate H; repeat split.
Qed.

Lemma not_sentinel (c : codepoint) (s : pystr) :
  N.eqb c 110 = false -> str_in (c :: s) sentinels = false.
Proof.
  intros H. unfold str_in, sentinels.
  change (py "nan") with [110; 97; 110]%N.
  change (py "none") with [110; 111; 110; 101]%N.
  change (py "null") with [110; 117; 108; 108]%N.
  cbn [existsb pystr_eqb]. rewrite H. reflexivity.
Qed.

(** A non-empty string of digits and slashes is neither blank nor a
    sentinel and is its own trimmed form: the strict formats decide, then
    the tolerant parser. *)
Lemma parse_plain (s : pystr) :
  forallb date_char s = true -> s <> [] ->
  parse_date_ddmmy L (CStr s)
  = match try_formats L s date_formats with
    | Some d => Some d
    | None => to_datetime_dayfirst L s
    end.
Proof.
  intros H Hne. rewrite forallb_forall in H.
  assert (Hs : PyStr.strip s = s).
  { apply StripFacts.strip_nonspace, Forall_forall. intros c Hc.
    apply date_char_plain, H, Hc. }
  assert (Hl : Unicode.lower L s = s).
  { unfold Unicode.lower.
    replace (forallb PyStr.is_ascii s) with true.
    - rewrite <- (map_id s) at 2. apply map_ext_in. intros c Hc.
      apply date_char_plain, H, Hc.
    - symmetry. apply forallb_forall. intros c Hc.
      apply date_char_plain, H, Hc. }
  unfold parse_date_ddmmy. cbn [str]. cbv zeta. rewrite Hs, Hl.
  destruct s as [|c s]; [congruence|].
  destruct (date_char_plain c (H c (or_introl eq_refl))) as (_ & _ & _ & Hn).
  rewrite (@not_sentinel c s Hn). reflexivity.
Qed.

Lemma render2_plain (p : bool) (n : N) :
  (n <= 31)%N ->
  forallb date_char (render2 p n) = true.
Proof.
  intros H.
  apply (@below (fun n => forallb date_char (render2 p n)) 32); [|lia].
  destruct p; vm_compute; reflexivity.
Qed.

Lemma digits_plain (w : nat) (s : pystr) :
  digits w s = true -> forallb date_char s = true.
Proof.
  unfold digits. intros H. apply andb_true_iff in H. destruct H as [_ H].
  rewrite forallb_forall in *. intros c Hc. unfold date_char.
  rewrite (H c Hc). reflexivity.
Qed.

Lemma render_dmY_plain (pd pm : bool) (y m d : N) :
  (d <= 31)%N -> (m <= 12)%N -> (y <= 9999)%N ->
  forallb date_char (render_dmY pd pm y m d) = true
  /\ render_dmY pd pm y m d <> [].
Proof.
  intros Hd Hm Hy. split.
  - unfold render_dmY. rewrite !forallb_app.
    rewrite !render2_plain by lia.
    rewrite (@digits_plain 4 _ (DateFacts.zero_pad_4 Hy)). reflexivity.
  - unfold render_dmY. intros E. apply (f_equal (@List.length _)) in E.
    rewrite !length_app in E. simpl in E. lia.
Qed.

Lemma render_dmy_plain (pd pm : bool) (y m d : N) :
  (d <= 31)%N -> (m <= 12)%N ->
  forallb date_char (render_dmy pd pm y m d) = true
  /\ render_dmy pd pm y m d <> [].
Proof.
  intros Hd Hm. split.
  - unfold render_dmy. rewrite !forallb_app.
    rewrite !render2_plain by lia.
    assert (A : digits 2 (PyStr.zero_pad 2 (y mod 100)) = true).
    { rewrite <- (N2Nat.id (y mod 100)). apply DateFacts.zero_pad_2_below.
      pose proof (N.mod_upper_bound y 100). lia. }
    rewrite (@digits_plain 2 _ A). reflexivity.
  - unfold render_dmy. intros E. apply (f_equal (@List.length _)) in E.
    rewrite !length_app in E. simpl in E. lia.
Qed.

Lemma two_rest (f1 f2 : codepoint -> option N) (s : pystr) v r :
  In (v, r) (two f1 f2 s) -> exists c1 c2, s = c1 :: c2 :: r.
Proof.
  unfold two. destruct s as [|c1 [|c2 s]]; try (intros H; contradiction).
  destruct (f1 c1), (f2 c2); try (intros H; contradiction).
  intros [E|[]]. injection E as _ <-. eauto.
Qed.

Lemma one_rest (f : codepoint -> option N) (s : pystr) v r :
  In (v, r) (one f s) -> exists c, s = c :: r.
Proof.
  unfold one. destruct s as [|c s]; [intros H; contradiction|].
  destruct (f c); [|intros H; contradiction].
  intros [E|[]]. injection E as _ <-. eauto.
Qed.

Lemma re_day_rest (s : pystr) v r (c : codepoint) :
  In (v, r) (re_day L s) -> In c r -> In c s.
Proof.
  unfold re_day. rewrite !in_app_iff. intros H Hc.
  repeat (destruct H as [H|H]);
    try (apply two_rest in H; destruct H as (c1 & c2 & ->); right; right;
         exact Hc);
    apply one_rest in H; destruct H as (c1 & ->); right; exact Hc.
Qed.

Lemma flat_map_nil {A B} (f : A -> list B) (l : list A) :
  (forall x, In x l -> f x = []) -> flat_map f l = [].
Proof.
  induction l as [|a l IH]; intros H; [reflexivity|]. simpl.
  rewrite (H a) by (left; reflexivity). apply IH. intros x Hx. apply H.
  right; exact Hx.
Qed.

(** Both formats ask for a slash after the day. *)
Lemma match_day_no_slash (its : list item) (g : groups) (s : pystr) :
  ~ In 47%N s -> match_items L (Day :: Lit 47 :: its) g s = [].
Proof.
  intros H. cbn [match_items]. apply flat_map_nil. intros [v r] Hr.
  destruct r as [|c' r0]; [reflexivity|].
  assert (Hc : In c' s) by (eapply re_day_rest; [exact Hr | left; reflexivity]).
  destruct (N.eqb c' 47) eqn:E; [|reflexivity].
  apply N.eqb_eq in E. subst. contradiction.
Qed.

Lemma try_formats_no_slash (s : pystr) :
  ~ In 47%N s -> try_formats L s date_formats = None.
Proof.
  intros H. unfold date_formats. cbn [try_formats]. unfold strptime_date.
  rewrite format_y, format_Y, !match_day_no_slash by exact H. reflexivity.
Qed.

Lemma pivot_window (y : N) :
  (1969 <= y <= 2068)%N -> pivot (y mod 100) = y.
Proof.
  intros H.
  assert (A : N.eqb (pivot ((1969 + (y - 1969)) mod 100))
                    (1969 + (y - 1969)) = true).
  { apply (@below (fun k => N.eqb (pivot ((1969 + k) mod 100)) (1969 + k))
             100); [vm_compute; reflexivity | lia]. }
  apply N.eqb_eq in A. replace (1969 + (y - 1969))%N with y in A by lia.
  exact A.
Qed.

End WithLib.

End StrptimeFacts.

Lemma date_new_self (dt : Calendar.date) :
  Calendar.date_new (Calendar.year dt) (Calendar.month dt) (Calendar.day dt)
  = Some dt.
Proof.
  unfold Calendar.date_new. destruct dt as [y m d V]. cbn.
  destruct (bool_dec (Calendar.valid_ymd y m d) true) as [V'|N];
    [|contradiction].
  f_equal. f_equal. apply (UIP_dec bool_dec).
Qed.

Lemma date_new_invalid (y m d : N) :
  Calendar.valid_ymd y m d = false -> Calendar.date_new y m d = None.
Proof.
  intros H. unfold Calendar.date_new.
  destruct (bool_dec (Calendar.valid_ymd y m d) true); congruence.
Qed.

Lemma parse_rendered_dmY (L : lib) (dt : Calendar.date)
  (pd pm : bool) :
  parse_date_ddmmy L
    (CStr (render_dmY pd pm (Calendar.year dt) (Calendar.month dt)
             (Calendar.day dt)))
  = Some dt.
Proof.
  destruct (DateFacts.date_bounds dt) as (Hy & Hm & Hd).
  destruct (@StrptimeFacts.render_dmY_plain pd pm (Calendar.year dt)
              (Calendar.month dt) (Calendar.day dt)) as [Hp Hne]; try lia.
  rewrite (StrptimeFacts.parse_plain L Hp Hne).
  unfold date_formats. cbn [try_formats].
  rewrite StrptimeFacts.strptime_y_four_digits by lia.
  rewrite StrptimeFacts.strptime_Y_rendered by lia.
  rewrite date_new_self. reflexivity.
Qed.

(** X4: a date written day/month/year with a four-digit year, the day
    and the month with or without their leading zero, parses to that
    date, whatever the date: the format [%d/%m/%y] refuses the string,
    two digits of the year being left over, and [%d/%m/%Y] reads it. *)
Theorem X4_parse_four_digit_year_roundtrip (L : lib) (dt : Calendar.date)
  (pd pm : bool) :
  parse_date_ddmmy L
    (CStr (render_dmY pd pm (Calendar.year dt) (Calendar.month dt)
             (Calendar.day dt)))
  = Some dt.
Proof. apply parse_rendered_dmY. Qed.

(** X5: a date written with a two-digit year parses to the date of the
    same day and month whose year is 2000 plus the two digits up to 68 and
    1900 plus them from 69 on; so a date between 1969 and 2068 parses to
    itself, and any other year is moved into that window. *)
Theorem X5_parse_two_digit_year (L : lib) (pd pm : bool) :
  (forall y dt,
      Calendar.year dt = pivot (y mod 100) ->
      parse_date_ddmmy L
        (CStr (render_dmy pd pm y (Calendar.month dt) (Calendar.day dt)))
      = Some dt)
  /\ (forall dt,
         (1969 <= Calendar.year dt <= 2068)%N ->
         parse_date_ddmmy L
           (CStr (render_dmy pd pm (Calendar.year dt) (Calendar.month dt)
                    (Calendar.day dt)))
         = Some dt).
Proof.
  assert (A : forall y dt,
             Calendar.year dt = pivot (y mod 100) ->
             parse_date_ddmmy L
               (CStr (render_dmy pd pm y (Calendar.month dt) (Calendar.day dt)))
             = Some dt).
  { intros y dt Hy.
    destruct (DateFacts.date_bounds dt) as (_ & Hm & Hd).
    destruct (@StrptimeFacts.render_dmy_plain pd pm y
                (Calendar.month dt) (Calendar.day dt)) as [Hp Hne]; try lia.
    rewrite (StrptimeFacts.parse_plain L Hp Hne).
    unfold date_formats. cbn [try_formats].
    rewrite StrptimeFacts.strptime_y_rendered by lia.
    rewrite <- Hy, date_new_self. reflexivity. }
  split; [exact A|]. intros dt H. apply A.
  symmetry. apply StrptimeFacts.pivot_window, H.
Qed.

Lemma X5_parse_two_digit_year_witness :
  option_map Calendar.ymd
    (parse_date_ddmmy latin_lib (CStr (py "5/03/50")))
  = Some (2050, 3, 5)%N.
Proof.
  pose (dt := Calendar.mkDate 2050 3 5 eq_refl).
  pose proof (proj1 (X5_parse_two_digit_year latin_lib false true) 1950%N
                dt eq_refl) as E.
  change (render_dmy false true 1950 (Calendar.month dt) (Calendar.day dt))
    with (py "5/03/50") in E.
  rewrite E. reflexivity.
Defined.

(** X6: a string in the day/month/year shape that names no date of the
    calendar, such as 31/02/2024, is refused by both strict formats and
    left to the tolerant parser. *)
Theorem X6_parse_nonexistent_date (L : lib) (pd pm : bool) (y m d : N) :
  (1 <= d <= 31)%N -> (1 <= m <= 12)%N -> (y <= 9999)%N ->
  Calendar.valid_ymd y m d = false ->
  parse_date_ddmmy L (CStr (render_dmY pd pm y m d))
  = to_datetime_dayfirst L (render_dmY pd pm y m d).
Proof.
  intros Hd Hm Hy Hv.
  destruct (@StrptimeFacts.render_dmY_plain pd pm y m d) as [Hp Hne];
    try lia.
  rewrite (StrptimeFacts.parse_plain L Hp Hne).
  unfold date_formats. cbn [try_formats].
  rewrite StrptimeFacts.strptime_y_four_digits by lia.
  rewrite StrptimeFacts.strptime_Y_rendered by lia.
  rewrite (date_new_invalid _ _ _ Hv). reflexivity.
Qed.

Lemma X6_parse_nonexistent_date_witness :
  parse_date_ddmmy latin_lib (CStr (py "31/02/2024"))
  = to_datetime_dayfirst latin_lib (py "31/02/2024").
Proof.
  apply (@X6_parse_nonexistent_date latin_lib true true 2024 2 31);
    try lia; reflexivity.
Defined.

(** X7: a value whose trimmed string holds no slash is never read by
    the strict formats: unless it is blank or a sentinel, the result is
    the tolerant parser's. This is the case of numbers and of dates
    already in ISO form. *)
Theorem X7_parse_without_slash (L : lib) (v : cell) :
  v <> CNone -> ~ In 47%N (PyStr.strip (str v)) ->
  parse_date_ddmmy L v
  = if is_empty (PyStr.strip (str v))
       || str_in (Unicode.lower L (PyStr.strip (str v))) sentinels
    then None
    else to_datetime_dayfirst L (PyStr.strip (str v)).
Proof.
  intros Hv Hs.
  destruct v; try congruence; unfold parse_date_ddmmy; cbv zeta;
    rewrite (StrptimeFacts.try_formats_no_slash L _ Hs); reflexivity.
Qed.

Lemma X7_parse_without_slash_witness :
  parse_date_ddmmy latin_lib (CStr (py "2024-03-05"))
  = to_datetime_dayfirst latin_lib (py "2024-03-05")
  /\ parse_date_ddmmy latin_lib (CInt 20240305)
     = to_datetime_dayfirst latin_lib (py "20240305").
Proof.
  split.
  - refine (eq_trans (@X7_parse_without_slash latin_lib
                        (CStr (py "2024-03-05")) _ _) _).
    + discriminate.
    + vm_compute. intuition discriminate.
    + vm_compute. reflexivity.
  - refine (eq_trans (@X7_parse_without_slash latin_lib (CInt 20240305) _ _) _).
    + discriminate.
    + vm_compute. intuition discriminate.
    + vm_compute. reflexivity.
Defined.

(** X8: whitespace before and after a string does not change what
    [parse_date_ddmmy] returns. *)
Theorem X8_parse_ignores_padding (L : lib) (ws1 s ws2 : pystr) :
  forallb PyStr.isspace ws1 = true -> forallb PyStr.isspace ws2 = true ->
  parse_date_ddmmy L (CStr (ws1 ++ s ++ ws2)) = parse_date_ddmmy L (CStr s).
Proof.
  intros H1 H2. rewrite forallb_forall in H1, H2.
  unfold parse_date_ddmmy. cbn [str]. cbv zeta.
  rewrite StripFacts.strip_padding by (apply Forall_forall; assumption).
  reflexivity.
Qed.

Lemma X8_parse_ignores_padding_witness :
  parse_date_ddmmy latin_lib (CStr (py "  05/03/24 " ++ [160%N]))
  = parse_date_ddmmy latin_lib (CStr (py "05/03/24")).
Proof.
  apply (@X8_parse_ignores_padding latin_lib (py "  ") (py "05/03/24")
           (py " " ++ [160%N])); reflexivity.
Defined.

(* ------------------------------------------------------------------ *)
(** * Further properties: loading *)

Module LoadMore.
Import RunFacts LoadFacts.

Section WithWorld.
Variable w : world.

(** Either every candidate fails or there is a first one that parses. *)
Lemma first_success (encs : list pystr) :
  Forall (fails w) encs
  \/ exists pre enc post df,
       encs = pre ++ enc :: post /\ Forall (fails w) pre
       /\ read_csv w (Some enc) = inr df.
Proof.
  induction encs as [|enc encs IH]; [left; constructor|].
  destruct (read_csv w (Some enc)) as [e|df] eqn:E.
  - destruct IH as [IH|(pre & x & post & df & -> & Hp & Hd)].
    + left. constructor; [exists e; exact E | exact IH].
    + right. exists (enc :: pre), x, post, df. repeat split; auto.
      constructor; [exists e; exact E | exact Hp].
  - right. exists [], enc, encs, df. repeat split; auto.
Qed.

Lemma candidates_at_most_five (g : option pystr) :
  List.length (candidates (tried g)) <= 5.
Proof. destruct g as [[|c g]|]; simpl; lia. Qed.

Lemma read_calls_app (t1 t2 : list event) :
  read_calls (t1 ++ t2) = read_calls t1 + read_calls t2.
Proof. unfold read_calls. rewrite filter_app. apply length_app. Qed.

Lemma read_calls_failures (encs : list pystr) :
  read_calls (failure_events w encs) <= List.length encs.
Proof.
  unfold read_calls, failure_events.
  induction encs as [|enc encs IH]; [simpl; lia|]. cbn [flat_map].
  rewrite filter_app, length_app.
  destruct (read_csv w (Some enc)); simpl in *; lia.
Qed.

Lemma fails_not_parsed (enc : pystr) (df : dataframe) :
  fails w enc -> read_csv w (Some enc) = inr df -> False.
Proof. intros [e E] H. congruence. Qed.


End WithWorld.

End LoadMore.

(** X9: loading calls [pd.read_csv] six times at most; the call without
    an encoding is made once at most, and exactly when every candidate
    has been tried and has failed, that is, when the sample of line 22
    could be read and the file parses under no candidate. *)
Theorem X9_load_read_bound (w : world) :
  read_calls (fst (load w)) <= 6
  /\ default_attempts (fst (load w)) <= 1
  /\ (default_attempts (fst (load w)) = 1
      <-> open_error w = None
          /\ Forall (fails w) (candidates (tried (chardet_encoding w)))).
Proof.
  destruct (open_error w) as [m|] eqn:Ho.
  { rewrite (LoadFacts.load_open_error _ Ho). cbn.
    split; [lia|]. split; [lia|]. split; [discriminate|].
    intros [H _]. discriminate. }
  pose proof (LoadMore.candidates_at_most_five (chardet_encoding w)) as H5.
  destruct (LoadMore.first_success w (candidates (tried (chardet_encoding w))))
    as [Hall|(pre & enc & post & df & Hc & Hp & Hd)].
  - assert (E : exists r,
               fst (load w)
               = [Print_detected (chardet_encoding w)]
                 ++ failure_events w (candidates (tried (chardet_encoding w)))
                 ++ [Call_read_csv None] ++ r
               /\ default_attempts r = 0 /\ read_calls r = 0).
    { destruct (read_csv w None) as [e|df] eqn:Hd.
      - destruct (LoadFacts.candidates_end (chardet_encoding w)) as [encs E].
        assert (Hw : fails w (py "windows-1252")).
        { rewrite E in Hall. apply Forall_app in Hall.
          destruct Hall as [_ Hall]. inversion Hall; assumption. }
        destruct Hw as [e_last Hl].
        rewrite (LoadFacts.load_all_fail Ho Hall Hl Hd). exists []. auto.
      - rewrite (LoadFacts.load_default Ho Hall Hd).
        exists [Print_default_ok]. auto. }
    destruct E as (r & E & D0 & R0).
    pose proof (LoadMore.read_calls_failures w
                  (candidates (tried (chardet_encoding w)))) as Hr.
    assert (D : default_attempts (fst (load w)) = 1).
    { rewrite E, !LoadFacts.default_attempts_app, D0,
        LoadFacts.default_attempts_failures. reflexivity. }
    assert (R : read_calls (fst (load w))
                = read_calls (failure_events w
                                (candidates (tried (chardet_encoding w)))) + 1).
    { rewrite E, !LoadMore.read_calls_app, R0.
      change (read_calls [Print_detected (chardet_encoding w)]) with 0.
      change (read_calls [Call_read_csv None]) with 1. lia. }
    split; [lia|]. split; [lia|].
    split; [intros _; split; [reflexivity | exact Hall] | intros _; exact D].
  - assert (E : fst (load w)
                = [Print_detected (chardet_encoding w)]
                  ++ failure_events w pre
                  ++ [Call_read_csv (Some enc); Print_read_ok enc])
      by (rewrite (LoadFacts.load_first_success _ _ Ho Hc Hp Hd); reflexivity).
    pose proof (LoadMore.read_calls_failures w pre) as Hr.
    assert (Hl : List.length pre < List.length
                   (candidates (tried (chardet_encoding w))))
      by (rewrite Hc, length_app; simpl; lia).
    assert (D : default_attempts (fst (load w)) = 0).
    { rewrite E, !LoadFacts.default_attempts_app,
        LoadFacts.default_attempts_failures. reflexivity. }
    assert (R : read_calls (fst (load w))
                = read_calls (failure_events w pre) + 1).
    { rewrite E, !LoadMore.read_calls_app.
      change (read_calls [Print_detected (chardet_encoding w)]) with 0.
      change (read_calls [Call_read_csv (Some enc); Print_read_ok enc]) with 1.
      lia. }
    split; [lia|]. split; [lia|]. split; [intros H; lia|].
    intros [_ Hall]. exfalso. rewrite Hc in Hall. apply Forall_app in Hall.
    destruct Hall as [_ Hall]. inversion Hall; subst.
    eapply LoadMore.fails_not_parsed; eassumption.
Qed.

(** X10: loading ends in an exception exactly when the sample of
    line 22 cannot be read, or the file parses under no candidate and not
    without an encoding either. In the first case the exception is the
    [OSError] of [open], raised before anything is printed or read; in the
    second it is the one of the read under windows-1252. When loading
    returns a table, the sample was read and the table is the one a
    candidate, or the read without encoding, gave. *)
Theorem X10_load_outcome (w : world) :
  ((exists t e, load w = (t, Raise e))
   <-> open_error w <> None
       \/ (Forall (fails w) (candidates (tried (chardet_encoding w)))
           /\ exists e, read_csv w None = inl e))
  /\ (forall msg, open_error w = Some msg ->
                  load w = ([], Raise (OSError msg)))
  /\ (forall t e, open_error w = None -> load w = (t, Raise e) ->
                  exists msg, e = ReadError msg
                              /\ read_csv w (Some (py "windows-1252")) = inl msg)
  /\ (forall t df, load w = (t, Ok df) ->
                   open_error w = None
                   /\ ((exists enc,
                          In enc (candidates (tried (chardet_encoding w)))
                          /\ read_csv w (Some enc) = inr df)
                       \/ read_csv w None = inr df)).
Proof.
  destruct (open_error w) as [m|] eqn:Ho.
  { rewrite (LoadFacts.load_open_error _ Ho). split; [|split; [|split]].
    - split; [intros _; left; discriminate | eauto].
    - intros msg H. injection H as <-. reflexivity.
    - discriminate.
    - discriminate. }
  destruct (LoadMore.first_success w (candidates (tried (chardet_encoding w))))
    as [Hall|(pre & enc & post & df & Hc & Hp & Hd)].
  - destruct (LoadFacts.candidates_end (chardet_encoding w)) as [encs E].
    assert (Hw : fails w (py "windows-1252")).
    { rewrite E in Hall. apply Forall_app in Hall.
      destruct Hall as [_ Hall']. inversion Hall'; assumption. }
    destruct Hw as [e_last Hl].
    destruct (read_csv w None) as [e|df] eqn:Hd.
    + rewrite (LoadFacts.load_all_fail Ho Hall Hl Hd).
      split; [|split; [|split]].
      * split; [eauto | eauto].
      * discriminate.
      * intros t e0 _ H. injection H as _ <-. eauto.
      * intros t df H. discriminate.
    + rewrite (LoadFacts.load_default Ho Hall Hd). split; [|split; [|split]].
      * split; [intros (t & e & H); discriminate|].
        intros [H|[_ [e H]]]; [congruence | discriminate].
      * discriminate.
      * intros t e _ H. discriminate.
      * intros t df' H. injection H as _ <-. split; [reflexivity|].
        right. reflexivity.
  - rewrite (LoadFacts.load_first_success _ _ Ho Hc Hp Hd).
    split; [|split; [|split]].
    + split; [intros (t & e & H); discriminate|].
      intros [H|[Hall _]]; [congruence|].
      exfalso. rewrite Hc in Hall. apply Forall_app in Hall.
      destruct Hall as [_ Hall]. inversion Hall; subst.
      eapply LoadMore.fails_not_parsed; eassumption.
    + discriminate.
    + intros t e _ H. discriminate.
    + intros t df' H. injection H as _ <-. split; [reflexivity|].
      left. exists enc.
      split; [|exact Hd]. rewrite Hc. apply in_or_app. right. left; reflexivity.
Qed.

Lemma X10_load_outcome_witness :
  load locked_world = ([], Raise (OSError (py "Permission denied"))).
Proof.
  apply (proj1 (proj2 (X10_load_outcome locked_world))). reflexivity.
Defined.

(* ------------------------------------------------------------------ *)
(** * Further properties: the run *)

Module WholeMore.
Import Pandas PandasFacts RunFacts.




Section WithWorld.
Variable L : lib.
Variable w : world.


(** What a run on an existing file is made of. *)
Lemma main_parts :
  path_exists w = true ->
  exists t,
    no_write t
    /\ ((exists e, main L w = (t, Raise e)
                   /\ ((exists t1, load w = (t1, Raise e))
                       \/ exists t1 df t2, load w = (t1, Ok df)
                                           /\ prepare L df = (t2, Raise e)))
        \/ exists out, main L w
                       = (t ++ [To_csv OUTPUT_CSV out false true (py "utf-8-sig");
                                Print_wrote (abspath w OUTPUT_CSV)], Ok tt)).
Proof.
  intros He. unfold main. rewrite He. cbn [negb].
  pose proof (quiet_load w) as Ql.
  destruct (load w) as [t1 [df|e]] eqn:El.
  - pose proof (quiet_prepare L df) as Qp.
    rewrite (bind_Ok _ eq_refl). unfold process.
    destruct (prepare L df) as [t2 [out|e]] eqn:Ep.
    + exists (t1 ++ t2). split.
      * apply Forall_app. split; [apply Ql | apply Qp].
      * right. exists out. rewrite (bind_Ok _ eq_refl).
        unfold export, print. cbn [bind fst snd app].
        rewrite <- app_assoc. reflexivity.
    + exists (t1 ++ t2). split.
      * apply Forall_app. split; [apply Ql | apply Qp].
      * left. exists e. split; [reflexivity|]. right. eauto.
  - exists t1. split; [apply Ql|]. left. exists e. split; [reflexivity|].
    left. eauto.
Qed.

Lemma no_write_count (t : list event) : no_write t -> write_count t = 0.
Proof.
  unfold write_count. induction 1 as [|ev t H _ IH]; [reflexivity|].
  simpl. rewrite H. exact IH.
Qed.

Lemma no_write_not_In (t : list event) p out i h e :
  no_write t -> ~ In (To_csv p out i h e) t.
Proof.
  intros H Hin. unfold no_write in H. rewrite Forall_forall in H.
  specialize (H _ Hin). discriminate.
Qed.

End WithWorld.

End WholeMore.



(** X12: a run ends normally exactly when it has written the output
    file; it writes one file at most, always to the output path, with the
    header, without the index, in UTF-8 with signature, and nothing
    follows the write but the message of line 124. *)
Theorem X12_success_iff_written (L : lib) (w : world) :
  (snd (main L w) = Ok tt <-> write_count (fst (main L w)) = 1)
  /\ write_count (fst (main L w)) <= 1
  /\ (forall p out i h e,
         In (To_csv p out i h e) (fst (main L w)) ->
         p = OUTPUT_CSV /\ i = false /\ h = true /\ e = py "utf-8-sig"
         /\ exists t, no_write t
                      /\ fst (main L w)
                         = t ++ [To_csv p out i h e;
                                 Print_wrote (abspath w OUTPUT_CSV)]).
Proof.
  destruct (path_exists w) eqn:He.
  - destruct (@WholeMore.main_parts L w He)
      as (t & Ht & [(e & E & _)|(out & E)]); rewrite E; cbn [fst snd].
    + rewrite (@WholeMore.no_write_count _ Ht). split; [|split].
      * split; discriminate.
      * lia.
      * intros p o i h e0 Hin. exfalso.
        exact (@WholeMore.no_write_not_In _ _ _ _ _ _ Ht Hin).
    + assert (Wc : write_count
                     (t ++ [To_csv OUTPUT_CSV out false true (py "utf-8-sig");
                            Print_wrote (abspath w OUTPUT_CSV)]) = 1).
      { unfold write_count. rewrite filter_app, length_app.
        fold (write_count t). rewrite (@WholeMore.no_write_count _ Ht).
        reflexivity. }
      rewrite Wc. split; [|split].
      * split; reflexivity.
      * lia.
      * intros p o i h e0 Hin. apply in_app_or in Hin.
        destruct Hin as [Hin|[Hin|[Hin|[]]]].
        -- exfalso. exact (@WholeMore.no_write_not_In _ _ _ _ _ _ Ht Hin).
        -- injection Hin as <- <- <- <- <-. repeat split; eauto.
        -- discriminate.
  - unfold main. rewrite He. cbn. split; [|split].
    + split; discriminate.
    + lia.
    + intros p o i h e0 [].
Qed.

Module ErrorFacts.
Import Pandas PandasFacts RunFacts.





Section WithLib.
Variable L : lib.





End WithLib.

End ErrorFacts.



(** X14: when the loaded table has a row, in the exported table a
    column of the loaded table other than the two ISO names is there
    under its name: with its cells passed
    through [remove_diacritics] when it is a text column, untouched
    otherwise. *)
Theorem X14_exported_columns (L : lib) (w : world) (t : list event)
  (df : dataframe) :
  path_exists w = true -> load w = (t, Ok df) -> rectangular df ->
  In (py "event_id") (columns df) ->
  In (py "start_date") (columns df) ->
  In (py "end_date") (columns df) ->
  NoDup (Pandas.object_columns df) ->
  0 < len_df df ->
  exists out,
    In (To_csv OUTPUT_CSV out false true (py "utf-8-sig")) (fst (main L w))
    /\ forall name c,
         name <> py "start_date_iso" -> name <> py "end_date_iso" ->
         Pandas.getitem name df = Ok c ->
         Pandas.getitem name out
         = Ok (if str_in name (Pandas.object_columns df)
               then mkColumn name (col_dtype c)
                      (List.map (remove_diacritics L) (col_data c))
               else c).
Proof.
  intros He Hl R Hk Hs Hend Hnd Hrows.
  destruct (RunFacts.process_runs L w R Hrows Hk Hs Hend)
    as (dfn & cs & ce & En & _ & _ & _ & H).
  cbv zeta in H. destruct H as [_ H].
  eexists. split.
  - rewrite (WholeRun.main_loaded L _ He Hl), H. cbn [fst].
    apply in_or_app. right. right. right. left. reflexivity.
  - intros name c N1 N2 G.
    apply RunFacts.getitem_with_iso_other; [exact N1 | exact N2 |].
    destruct (str_in name (Pandas.object_columns df)) eqn:E.
    + apply str_in_In in E.
      eapply RunFacts.normalize_columns_once; eassumption.
    + apply str_in_not_In in E.
      eapply RunFacts.normalize_columns_other; eassumption.
Qed.

Lemma X14_exported_columns_witness :
  exists out,
    In (To_csv OUTPUT_CSV out false true (py "utf-8-sig"))
       (fst (main latin_lib latin1_world))
    /\ Pandas.getitem (py "brand") out
       = Ok (mkColumn (py "brand") DObject
               [CStr (py "Eclat"); CStr (py "Lumi Lab"); CNaN])
    /\ Pandas.getitem (py "event_id") out
       = Ok (mkColumn (py "event_id") DInt64 [CInt 1; CInt 2; CInt 3]).
Proof.
  destruct (@X14_exported_columns latin_lib latin1_world
              (fst (load latin1_world)) sample_frame)
    as (out & Hin & H).
  - reflexivity.
  - reflexivity.
  - exact WholeRun.rectangular_sample.
  - vm_compute. tauto.
  - vm_compute. tauto.
  - vm_compute. tauto.
  - vm_compute. repeat constructor; simpl; intuition discriminate.
  - simpl. lia.
  - exists out. split; [exact Hin|]. split.
    + refine (eq_trans (H (py "brand") _ _ _ _) _);
        try discriminate; [reflexivity|]. vm_compute. reflexivity.
    + refine (eq_trans (H (py "event_id") _ _ _ _) _);
        try discriminate; [reflexivity|]. vm_compute. reflexivity.
Defined.

(** X15: when the loaded table has a row, in the exported table the two
    ISO columns are columns of strings, aligned row by
    row with the date columns beside them: each cell is the ISO rendering
    of what [parse_date_ddmmy] makes of the exported cell of the same row,
    and all four columns have one cell per loaded row. *)
Theorem X15_iso_columns_aligned (L : lib) (w : world) (t : list event)
  (df : dataframe) :
  path_exists w = true -> load w = (t, Ok df) -> rectangular df ->
  In (py "event_id") (columns df) ->
  In (py "start_date") (columns df) ->
  In (py "end_date") (columns df) ->
  0 < len_df df ->
  exists out cs ce,
    In (To_csv OUTPUT_CSV out false true (py "utf-8-sig")) (fst (main L w))
    /\ Pandas.getitem (py "start_date") out = Ok cs
    /\ Pandas.getitem (py "end_date") out = Ok ce
    /\ Pandas.getitem (py "start_date_iso") out
       = Ok (mkColumn (py "start_date_iso") DObject
               (List.map (fun v => CStr (iso_or_empty (parse_date_ddmmy L v)))
                         (col_data cs)))
    /\ Pandas.getitem (py "end_date_iso") out
       = Ok (mkColumn (py "end_date_iso") DObject
               (List.map (fun v => CStr (iso_or_empty (parse_date_ddmmy L v)))
                         (col_data ce)))
    /\ List.length (col_data cs) = len_df df
    /\ List.length (col_data ce) = len_df df.
Proof.
  intros He Hl R Hk Hs Hend Hrows.
  destruct (RunFacts.process_runs L w R Hrows Hk Hs Hend)
    as (dfn & cs & ce & En & _ & Gs & Ge & H).
  cbv zeta in H. destruct H as [_ H].
  destruct (RunFacts.normalize_columns_runs L (Pandas.object_columns df) R
              (RunFacts.object_columns_present df))
    as (dfn' & En' & _ & Ln & Rn).
  assert (dfn' = dfn) by congruence. subst dfn'.
  exists (with_iso dfn (List.map (parse_date_ddmmy L) (col_data cs))
            (List.map (parse_date_ddmmy L) (col_data ce))), cs, ce.
  split; [|split; [|split; [|split; [|split; [|split]]]]].
  - rewrite (WholeRun.main_loaded L _ He Hl), H. cbn [fst].
    apply in_or_app. right. right. right. left. reflexivity.
  - apply RunFacts.getitem_with_iso_other; [discriminate | discriminate | exact Gs].
  - apply RunFacts.getitem_with_iso_other; [discriminate | discriminate | exact Ge].
  - rewrite RunFacts.getitem_with_iso_start.
    rewrite PandasFacts.list_dtype_rows.
    + unfold iso_cells. rewrite map_map. reflexivity.
    + rewrite RunFacts.iso_cells_length, length_map.
      rewrite (Rn cs) by apply (PandasFacts.getitem_Ok _ _ Gs). lia.
  - rewrite RunFacts.getitem_with_iso_end.
    rewrite PandasFacts.list_dtype_rows.
    + unfold iso_cells. rewrite map_map. reflexivity.
    + rewrite RunFacts.iso_cells_length, length_map.
      rewrite (Rn ce) by apply (PandasFacts.getitem_Ok _ _ Ge). lia.
  - rewrite <- Ln. apply Rn. apply (PandasFacts.getitem_Ok _ _ Gs).
  - rewrite <- Ln. apply Rn. apply (PandasFacts.getitem_Ok _ _ Ge).
Qed.

Lemma X15_iso_columns_aligned_witness :
  exists out cs,
    In (To_csv OUTPUT_CSV out false true (py "utf-8-sig"))
       (fst (main latin_lib latin1_world))
    /\ Pandas.getitem (py "start_date") out = Ok cs
    /\ Pandas.getitem (py "start_date_iso") out
       = Ok (mkColumn (py "start_date_iso") DObject
               (List.map
                  (fun v => CStr (iso_or_empty (parse_date_ddmmy latin_lib v)))
                  (col_data cs)))
    /\ List.length (col_data cs) = 3.
Proof.
  destruct (@X15_iso_columns_aligned latin_lib latin1_world
              (fst (load latin1_world)) sample_frame)
    as (out & cs & ce & Hin & Gs & _ & Gi & _ & Hn & _).
  - reflexivity.
  - reflexivity.
  - exact WholeRun.rectangular_sample.
  - vm_compute. tauto.
  - vm_compute. tauto.
  - vm_compute. tauto.
  - simpl. lia.
  - exists out, cs. auto.
Defined.

(** X16: through the run's three steps on a text cell, normalisation,
    parsing and rendering, a date written day/month/year with a four-digit
    year, with or without leading zeros and with ASCII whitespace around
    it, comes out as the ISO string of that date. *)
Theorem X16_cell_end_to_end (L : lib) (dt : Calendar.date) (pd pm : bool)
  (ws1 ws2 : pystr) :
  forallb ascii_space ws1 = true -> forallb ascii_space ws2 = true ->
  iso_or_empty
    (parse_date_ddmmy L
       (remove_diacritics L
          (CStr (ws1 ++ render_dmY pd pm (Calendar.year dt)
                          (Calendar.month dt) (Calendar.day dt) ++ ws2))))
  = Calendar.isoformat dt.
Proof.
  intros H1 H2. rewrite forallb_forall in H1, H2.
  destruct (DateFacts.date_bounds dt) as (Hy & Hm & Hd).
  destruct (@StrptimeFacts.render_dmY_plain pd pm (Calendar.year dt)
              (Calendar.month dt) (Calendar.day dt)) as [Hp Hne]; try lia.
  rewrite forallb_forall in Hp.
  assert (S1 : Forall (fun c => PyStr.isspace c = true) ws1).
  { apply Forall_forall. intros c Hc. specialize (H1 c Hc).
    apply andb_true_iff in H1. tauto. }
  assert (S2 : Forall (fun c => PyStr.isspace c = true) ws2).
  { apply Forall_forall. intros c Hc. specialize (H2 c Hc).
    apply andb_true_iff in H2. tauto. }
  rewrite remove_diacritics_ascii_only.
  - rewrite StripFacts.split_padded; try assumption.
    + cbn [PyStr.join]. rewrite parse_rendered_dmY. reflexivity.
    + apply Forall_forall. intros c Hc.
      apply StrptimeFacts.date_char_plain, Hp, Hc.
  - rewrite !forallb_app. rewrite !andb_true_iff. repeat split.
    + apply forallb_forall. intros c Hc. specialize (H1 c Hc).
      apply andb_true_iff in H1. tauto.
    + apply forallb_forall. intros c Hc.
      apply StrptimeFacts.date_char_plain, Hp, Hc.
    + apply forallb_forall. intros c Hc. specialize (H2 c Hc).
      apply andb_true_iff in H2. tauto.
Qed.

Lemma X16_cell_end_to_end_witness :
  iso_or_empty
    (parse_date_ddmmy latin_lib
       (remove_diacritics latin_lib (CStr (py "  5/3/2024 "))))
  = py "2024-03-05".
Proof.
  exact (@X16_cell_end_to_end latin_lib (Calendar.mkDate 2024 3 5 eq_refl)
           false false (py "  ") (py " ") eq_refl eq_refl).
Defined.

Lemma row_classes (L : lib) (raw : cell) :
  (if dated_row L raw then 1 else 0)
  + (if unparsable_row L raw then 1 else 0)
  + (if negb (dated_row L raw) && blank_row raw then 1 else 0) = 1.
Proof.
  unfold dated_row, unparsable_row, blank_row.
  destruct (parse_date_ddmmy L raw); cbn [is_none negb andb];
    [reflexivity|].
  destruct (is_empty (PyStr.strip (str raw))); reflexivity.
Qed.

Lemma blank_not_dated (L : lib) (raw : cell) :
  blank_row raw = true -> dated_row L raw = false.
Proof.
  unfold blank_row, dated_row. intros H.
  destruct raw; try (unfold parse_date_ddmmy; cbv zeta; rewrite H;
                     reflexivity).
  discriminate.
Qed.

(** X17: the rows of a date column fall into three classes that add up
    to the row count: the rows that got a date, the rows counted as
    unparsable, and the blank rows; and the non-empty cells of the ISO
    column are as many as the rows that got a date. *)
Theorem X17_rows_add_up (L : lib) (raws : list cell) :
  List.length raws
  = List.length (filter (dated_row L) raws)
    + unparsable_count (List.map (parse_date_ddmmy L) raws) raws
    + List.length (filter blank_row raws)
  /\ List.length
       (filter (fun v => negb (pystr_eqb (str v) []))
               (iso_cells (List.map (parse_date_ddmmy L) raws)))
     = List.length (filter (dated_row L) raws).
Proof.
  split.
  - rewrite unparsable_count_rows.
    induction raws as [|raw raws IH]; [reflexivity|].
    cbn [List.length filter].
    pose proof (row_classes L raw) as C.
    pose proof (blank_not_dated L raw) as B.
    destruct (dated_row L raw), (unparsable_row L raw), (blank_row raw);
      cbn [negb andb List.length] in *; try lia;
      try (specialize (B eq_refl); discriminate).
  - unfold iso_cells. rewrite map_map.
    induction raws as [|raw raws IH]; [reflexivity|].
    cbn [List.map filter]. unfold dated_row at 1. cbn [str].
    destruct (parse_date_ddmmy L raw) as [dt|]; cbn [is_none negb iso_or_empty].
    + destruct (Calendar.isoformat dt) eqn:E.
      * exfalso. apply (f_equal (@List.length _)) in E.
        unfold Calendar.isoformat in E. rewrite !length_app in E.
        simpl in E. lia.
      * cbn [pystr_eqb negb List.length]. rewrite IH. reflexivity.
    + cbn [pystr_eqb negb]. exact IH.
Qed.
